(** * wpp: a web pre-processor that assembles a single HTML file

  A shallow embedding of [wpp.go] (package main): the pre-processing
  pass [preprocess], the template loader [loadHtml], the body of the
  build goroutine started by the dev-mode loop, and the dev-mode event
  loop of [main] with its four [select] cases.

  Conventions.
  - Go strings are byte strings; they are modelled as [string]
    (a list of 8-bit [ascii]).
  - A Go [error] value is modelled by its message.
  - The Go standard library ([path/filepath], [strings], [os],
    [bytes], [text/template], [regexp]) and the websocket package are
    not part of the program; each piece the program calls is modelled
    next to its first use, with the part of its documented behaviour
    the program depends on.
  - A call that panics does not return: functions in which a panic can
    arise have an [Outcome] as their result. *)

From Stdlib Require Import List String Ascii ZArith Bool Arith Lia.
From Stdlib Require Import DecimalString Sorted Permutation OrdersEx.
From Stdlib Require Import RelationClasses.
Import ListNotations.

Local Open Scope string_scope.
Local Open Scope list_scope.

(* ================================================================= *)
(** ** Strings and errors *)

Module GoString.

(** The double quote character, and a line feed. *)
Definition dquote : string := String (ascii_of_nat 34) EmptyString.
Definition newline : string := String (ascii_of_nat 10) EmptyString.

(** [quoted s] is [s] between double quotes. *)
Definition quoted (s : string) : string := (dquote ++ s ++ dquote)%string.

(** Decimal rendering of an integer, as [%v] / [%d] print it. *)
Definition decimal (z : Z) : string := NilZero.string_of_int (Z.to_int z).

(** [strings.ToLower] on one byte: [A]..[Z] map to [a]..[z]; every
    other byte below 0x80 is kept.  Bytes from 0x80 up belong to
    multi-byte runes, none of which lower-cases to an ASCII letter of
    [".js"] or [".css"]; they are kept as they are. *)
Definition lower_byte (c : ascii) : ascii :=
  let n := nat_of_ascii c in
  if Nat.leb 65 n && Nat.leb n 90 then ascii_of_nat (n + 32) else c.

Fixpoint ToLower (s : string) : string :=
  match s with
  | EmptyString => EmptyString
  | String c s' => String (lower_byte c) (ToLower s')
  end.

(** Concatenation of a list of strings. *)
Fixpoint concat_all (l : list string) : string :=
  match l with
  | [] => EmptyString
  | s :: l' => (s ++ concat_all l')%string
  end.

(** [fmt.Sprintln]: the operands separated by spaces, then a newline. *)
Definition Sprintln (args : list string) : string :=
  (String.concat " " args ++ newline)%string.

End GoString.
Import GoString.

(** A Go [error], by its message. *)
Inductive error : Type := Err (msg : string).

Definition error_msg (e : error) : string := let 'Err m := e in m.

(** The outcome of a call: it returns a value, or it panics and the
    panic goes up to the caller. *)
Inductive Outcome (A : Type) : Type :=
| Returns (a : A)
| Panics.

Arguments Returns {A} a.
Arguments Panics {A}.

(* ================================================================= *)
(** ** [path/filepath]: [Ext] and [Join] *)

Module filepath.

Definition Separator : ascii := "/"%char.

(** Result of scanning a suffix of the path from its right end, as the
    loop of [filepath.Ext] does: the scan found a dot ([Found]), hit a
    path separator first ([Stopped]), or saw neither yet ([Open]). *)
Inductive scan : Type :=
| Found (e : string)
| Stopped
| Open.

Fixpoint ext_scan (path : string) : scan :=
  match path with
  | EmptyString => Open
  | String c rest =>
      match ext_scan rest with
      | Found e => Found e
      | Stopped => Stopped
      | Open =>
          if Ascii.eqb c Separator then Stopped
          else if Ascii.eqb c "."%char then Found (String c rest)
          else Open
      end
  end.

(** [Ext path]: the suffix beginning at the final dot in the final
    element of [path]; empty if there is no dot. *)
Definition Ext (path : string) : string :=
  match ext_scan path with
  | Found e => e
  | _ => EmptyString
  end.

(** [Join dir name] for a clean [dir] and a plain file name. *)
Definition Join (dir name : string) : string :=
  (dir ++ String Separator name)%string.

End filepath.

(** The two recognised content kinds. *)
Inductive Kind : Type := KJs | KCss.

(** The [switch strings.ToLower(filepath.Ext(path))] of [preprocess],
  which is also the test [ext == ".js" || ext == ".css"] of the loop. *)
Definition kind_of (path : string) : option Kind :=
let ext := ToLower (filepath.Ext path) in
if String.eqb ext ".js" then Some KJs
else if String.eqb ext ".css" then Some KCss
else None.

(* ================================================================= *)
(** ** Platform integers *)

(** Width of Go's [int] and [uint] on the platform. *)
Inductive IntSize : Type := W32 | W64.

Definition bits (w : IntSize) : Z :=
match w with W32 => 32 | W64 => 64 end.

Section Platform.
Variable w : IntSize.

(** The constants of [preprocess]. *)
Definition MinUint : Z := 0.
(** [^MinUint]: complement on [bits w] bits. *)
Definition MaxUint : Z := Z.lnot MinUint mod 2 ^ bits w.
(** [int(MaxUint >> 1)] *)
Definition MaxInt : Z := Z.shiftr MaxUint 1.

(** [int(z)] for an [int64]: the low [bits w] bits of [z], read as a
    signed number. *)
Definition to_int (z : Z) : Z :=
  (z + 2 ^ (bits w - 1)) mod 2 ^ bits w - 2 ^ (bits w - 1).
End Platform.

(* ================================================================= *)
(** ** [text/template] *)

(** The value a template is executed on: the [result] struct of
    [preprocess] (fields [CSS] and [Javascript]) or the [uint] reload
    port. *)
Inductive Data : Type :=
| DResult (CSS Javascript : string)
| DUint (n : Z).

(** What the program needs of a template engine.  [Parse name text] is
    [template.New(name).Parse(text)].  [Execute t d] is
    [t.Execute(wr, d)]: the bytes that reached the writer, and the error
    returned, if any.  [Execute] writes as it renders, so bytes may have
    been written when it fails; a failure of the writer itself is also
    reported through this error. *)
Class TemplateEngine : Type := {
  Template : Type;
  Parse : string -> string -> Template + error;
  Execute : Template -> Data -> string * option error
}.

(** The engine of the Go library.  Templates made of literal text,
    field actions [{{.Name}}] and the dot action [{{.}}] are modelled
    here: the program's own templates [ProgHtmlTemplate] and
    [ProgHotReloadCode] are of this form, and so are the ones its usage
    text describes.  For every other template text, and for the text of
    every error message, the model asks the library, which is a
    parameter ([Library]). *)
Module GoTemplate.

Inductive Tok : Type :=
| TText (s : string)
| TAction (s : string).

Definition push (c : ascii) (toks : list Tok) : list Tok :=
  match toks with
  | TText s :: r => TText (String c s) :: r
  | TAction s :: r => TAction (String c s) :: r
  | [] => []
  end.

(** Splits the text at the delimiters.  [inact] tells whether the
    scan is inside an action.  [None]: an action is left unclosed. *)
Fixpoint lex (inact : bool) (s : string) : option (list Tok) :=
  match s with
  | EmptyString => if inact then None else Some [TText EmptyString]
  | String c rest =>
      let d := if inact then "}"%char else "{"%char in
      match rest with
      | String c' rest' =>
          if Ascii.eqb c d && Ascii.eqb c' d then
            option_map
              (cons (if inact then TAction EmptyString else TText EmptyString))
              (lex (negb inact) rest')
          else option_map (push c) (lex inact rest)
      | EmptyString => option_map (push c) (lex inact rest)
      end
  end.

Fixpoint trim_left (s : string) : string :=
  match s with
  | String " "%char rest => trim_left rest
  | _ => s
  end.

Fixpoint trim_right (s : string) : string :=
  match s with
  | EmptyString => EmptyString
  | String c rest =>
      match trim_right rest, c with
      | EmptyString, " "%char => EmptyString
      | r, _ => String c r
      end
  end.

(** An ASCII letter or the underscore. *)
Definition is_letter_byte (c : ascii) : bool :=
  let n := nat_of_ascii c in
  (Nat.leb 97 n && Nat.leb n 122) || (Nat.leb 65 n && Nat.leb n 90)
  || Nat.eqb n 95.

Definition is_ident_byte (c : ascii) : bool :=
  let n := nat_of_ascii c in
  is_letter_byte c || (Nat.leb 48 n && Nat.leb n 57).

Fixpoint all_ident (s : string) : bool :=
  match s with
  | EmptyString => true
  | String c rest => is_ident_byte c && all_ident rest
  end.

(** The name of a field: letters, digits and underscores, the first of
    which is not a digit (a dot followed by a digit starts a number). *)
Definition is_ident (s : string) : bool :=
  match s with
  | EmptyString => false
  | String c rest => is_letter_byte c && all_ident rest
  end.

Inductive Node : Type :=
| NText (s : string)
| NField (name : string)
| NDot.

(** The node of a token; [None] for an action that is neither the dot
    nor one field. *)
Definition node_of_tok (t : Tok) : option Node :=
  match t with
  | TText s => Some (NText s)
  | TAction a =>
      match trim_right (trim_left a) with
      | String "."%char EmptyString => Some NDot
      | String "."%char name =>
          if is_ident name then Some (NField name) else None
      | _ => None
      end
  end.

Fixpoint nodes_of_toks (ts : list Tok) : option (list Node) :=
  match ts with
  | [] => Some []
  | t :: r =>
      match node_of_tok t, nodes_of_toks r with
      | Some n, Some ns => Some (n :: ns)
      | _, _ => None
      end
  end.

(** The nodes of a template text made of literal text, field actions
    and dot actions only; [None] for any other text. *)
Definition fragment (text : string) : option (list Node) :=
  match lex false text with
  | None => None
  | Some ts => nodes_of_toks ts
  end.

(** What the library answers where the model does not go: whether a
    template text with other actions parses ([None]) or the error of
    [Parse]; the bytes written and the error returned when such a
    template is executed; and the error [Execute] returns when a field
    of a modelled template cannot be evaluated. *)
Record Library : Type := {
  lib_parse : string -> string -> option error;
  lib_execute : string -> string -> Data -> string * option error;
  lib_exec_error : string -> list Node -> Data -> error
}.

(** A parsed template: its name with its nodes, or with its text when
    it has other actions. *)
Inductive Tmpl : Type :=
| Fragment (name : string) (ns : list Node)
| Whole (name text : string).

Definition parse (lib : Library) (name text : string) : Tmpl + error :=
  match fragment text with
  | Some ns => inl (Fragment name ns)
  | None =>
      match lib_parse lib name text with
      | Some e => inr e
      | None => inl (Whole name text)
      end
  end.

(** Evaluation of one node: the text it prints; [None] when a field
    cannot be evaluated.  The data has the fields [CSS] and
    [Javascript] when it is the [result] struct, none when it is the
    port; the dot prints the data as [fmt.Fprint] does. *)
Definition eval (d : Data) (n : Node) : option string :=
  match n, d with
  | NText s, _ => Some s
  | NDot, DUint p => Some (decimal p)
  | NDot, DResult c j => Some ("{" ++ c ++ " " ++ j ++ "}")%string
  | NField f, DResult c j =>
      if String.eqb f "CSS" then Some c
      else if String.eqb f "Javascript" then Some j
      else None
  | NField f, DUint _ => None
  end.

(** Nodes are rendered in order, each written as soon as it is
    evaluated; the first failure stops the execution.  The result is
    what was written, and whether every node was evaluated. *)
Fixpoint run_nodes (ns : list Node) (d : Data) : string * bool :=
  match ns with
  | [] => (EmptyString, true)
  | n :: r =>
      match eval d n with
      | None => (EmptyString, false)
      | Some s => let (out, ok) := run_nodes r d in ((s ++ out)%string, ok)
      end
  end.

Definition execute (lib : Library) (t : Tmpl) (d : Data)
  : string * option error :=
  match t with
  | Fragment name ns =>
      let (out, ok) := run_nodes ns d in
      (out, if ok then None else Some (lib_exec_error lib name ns d))
  | Whole name text => lib_execute lib name text d
  end.

End GoTemplate.

#[export] Instance go_template (lib : GoTemplate.Library) : TemplateEngine := {|
  Template := GoTemplate.Tmpl;
  Parse := GoTemplate.parse lib;
  Execute := GoTemplate.execute lib
|}.

(* ================================================================= *)
(** ** The source tree and [filepath.Walk] *)

(** What [os.Open] answers for a path, with the bytes [io.Copy] then
    reads from the opened file. *)
Inductive OpenResult : Type :=
| OpenNotExist
| OpenFailed (e : error)
| Opened (content : string).

(** A file system object as [filepath.Walk] meets it: an object whose
    [lstat] fails, a file, a directory whose entries cannot be read, or
    a directory with its entries by name.  [size] is what [info.Size()]
    reports (an [int64]). *)
#[warnings="-register-all"]
Inductive FsNode : Type :=
| Unreadable (e : error)
| File (size : Z) (op : OpenResult)
| Unlistable (size : Z) (op : OpenResult) (e : error)
| Dir (size : Z) (op : OpenResult) (entries : list (string * FsNode)).

(** One call of the walk function: its arguments [path], [info] (its
    size) and [err], and what [os.Open(path)] answers at that moment. *)
Record Visit : Type := {
  v_path : string;
  v_size : Z;
  v_err : option error;
  v_open : OpenResult
}.

(** [sort.Strings] on the names of a directory, carrying the entries
    along: insertion into a list sorted by byte-wise comparison. *)
Fixpoint insert_entry {A : Type} (x : string * A) (l : list (string * A))
  : list (string * A) :=
  match l with
  | [] => [x]
  | y :: r => if String.leb (fst x) (fst y) then x :: l
              else y :: insert_entry x r
  end.

Fixpoint sort_entries {A : Type} (l : list (string * A)) : list (string * A) :=
  match l with
  | [] => []
  | x :: r => insert_entry x (sort_entries r)
  end.

(** [readDirNames]: every directory listing in sorted order. *)
Fixpoint sorted_tree (n : FsNode) : FsNode :=
  match n with
  | Dir sz op entries =>
      Dir sz op
        (sort_entries (map (fun p => (fst p, sorted_tree (snd p))) entries))
  | _ => n
  end.

(** The calls of the walk function on a tree whose listings are in the
    order they are read: the object itself, then, for a directory that
    could be listed, each entry in turn with all that is below it. *)
Fixpoint visits (path : string) (n : FsNode) : list Visit :=
  match n with
  | Unreadable e =>
      [ {| v_path := path; v_size := 0; v_err := Some e;
           v_open := OpenFailed e |} ]
  | File sz op =>
      [ {| v_path := path; v_size := sz; v_err := None; v_open := op |} ]
  | Unlistable sz op e =>
      [ {| v_path := path; v_size := sz; v_err := Some e; v_open := op |} ]
  | Dir sz op entries =>
      {| v_path := path; v_size := sz; v_err := None; v_open := op |}
      :: flat_map (fun p => visits (filepath.Join path (fst p)) (snd p)) entries
  end.

(** The sequence of calls [filepath.Walk(root, fn)] makes as long as
    [fn] returns [nil]. *)
Definition Walk (root : string) (tree : FsNode) : list Visit :=
  visits root (sorted_tree tree).

(** [Walk] stops at the first error the walk function returns (the
    walk function of [preprocess] never returns [SkipDir]); it does
    not recover a panic of the walk function. *)
Fixpoint run_walk {S : Type} (fn : S -> Visit -> Outcome (error + S))
  (st : S) (vs : list Visit) : Outcome (error + S) :=
  match vs with
  | [] => Returns (inr st)
  | v :: r =>
      match fn st v with
      | Panics => Panics
      | Returns (inl e) => Returns (inl e)
      | Returns (inr st') => run_walk fn st' r
      end
  end.

(* ================================================================= *)
(** ** Program constants *)

Definition ProgName : string := "[wpp]".

Definition ProgHtmlTemplate : string :=
  concat_all
    [ "<!doctype html>"; newline;
      "<html>"; newline;
      "  <head>"; newline;
      "    <meta charset="; quoted "utf-8"; ">"; newline;
      "    {{.CSS}}"; newline;
      "  </head>"; newline;
      "  <body></body>"; newline;
      "  {{.Javascript}}"; newline;
      "</html>" ].

Definition ProgHotReloadCode : string :=
  concat_all
    [ newline;
      "(function () {"; newline;
      "    window.addEventListener("; quoted "load"; ", function(evt) {"; newline;
      "        var socket = new WebSocket('ws://localhost:{{.}}/wpphotreload');"; newline;
      "        socket.addEventListener('message', function(wsevt) {"; newline;
      "            if (wsevt.data === 'reload') {"; newline;
      "                console.log("; quoted "File change detected, reloading page."; ");"; newline;
      "                window.location.reload(true);"; newline;
      "            }"; newline;
      "        });"; newline;
      "    });"; newline;
      "})()" ].

Definition style_open : string := "<style type=" ++ quoted "text/css" ++ ">".
Definition style_close : string := "</style>".
Definition script_open : string :=
  "<script type=" ++ quoted "text/javascript" ++ ">".
Definition script_close : string := "</script>".

(* ================================================================= *)
(** ** [preprocess] and [loadHtml] *)

(** The two [bytes.Buffer]s of [preprocess]. *)
Record Buffers : Type := {
  js : string;
  css : string
}.

(** [pbuf], chosen by the extension. *)
Definition buffer (k : Kind) (b : Buffers) : string :=
  match k with
  | KJs => js b
  | KCss => css b
  end.

(** [io.Copy(pbuf, file)] *)
Definition copy_into (k : Kind) (b : Buffers) (content : string) : Buffers :=
  match k with
  | KJs => {| js := js b ++ content; css := css b |}
  | KCss => {| js := js b; css := css b ++ content |}
  end.

Section Preprocess.
Context {engine : TemplateEngine}.
Variable w : IntSize.
(** [bytes.Buffer.Grow]: [room buf n] tells whether [Grow(n)] returns
    on a buffer that holds [buf]; it panics otherwise, which it does
    when [n] is negative and when the buffer cannot be grown to hold
    [n] more bytes.  How far a buffer can grow depends on the memory
    of the machine. *)
Variable room : string -> Z -> bool.

(** The function literal passed to [filepath.Walk].  When [pbuf.Grow]
    returns it has only reserved capacity, and the contents of the
    buffer are as they were; the result of [io.Copy] is ignored by the
    program. *)
Definition walkFn (b : Buffers) (v : Visit) : Outcome (error + Buffers) :=
  match v_err v with
  | Some e => Returns (inl e)
  | None =>
      match kind_of (v_path v) with
      | None => Returns (inr b)
      | Some k =>
          match v_open v with
          | OpenNotExist => Returns (inr b)
          | OpenFailed e => Returns (inl e)
          | Opened content =>
              if (v_size v >=? MaxInt w)%Z then
                Returns (inl (Err ("Files larger than " ++ decimal (MaxInt w)
                                   ++ " are not supported.")))
              else if room (buffer k b) (to_int w (v_size v)) then
                Returns (inr (copy_into k b content))
              else Panics
          end
      end
  end.

(** The hot-reload snippet, rendered into the [js] buffer when
    [reloadPort > 0]. *)
Definition add_reload (reloadPort : Z) (b : Buffers) : error + Buffers :=
  if (reloadPort >? 0)%Z then
    match Parse "reload" ProgHotReloadCode with
    | inr e => inl e
    | inl reload =>
        let (txt, oe) := Execute reload (DUint reloadPort) in
        match oe with
        | Some e => inl e
        | None => inr {| js := js b ++ txt; css := css b |}
        end
    end
  else inr b.

(** The two buffers after their opening tags are written and the
    walk is done, or the error of the walk. *)
Definition collect (tree : FsNode) (indir : string)
  : Outcome (error + Buffers) :=
  run_walk walkFn {| js := script_open; css := style_open |}
    (Walk indir tree).

(** [preprocess(indir, html, out, reloadPort)], with [tree] the
    directory found at [indir]: the bytes written to [out] and the
    error returned. *)
Definition preprocess (tree : FsNode) (indir html : string) (reloadPort : Z)
  : Outcome (string * option error) :=
  match Parse "html" html with
  | inr e => Returns (EmptyString, Some e)
  | inl tmpl =>
      match collect tree indir with
      | Panics => Panics
      | Returns (inl e) => Returns (EmptyString, Some e)
      | Returns (inr b1) =>
          match add_reload reloadPort b1 with
          | inl e => Returns (EmptyString, Some e)
          | inr b2 =>
              Returns
                (Execute tmpl
                   (DResult (css b2 ++ style_close) (js b2 ++ script_close)))
          end
      end
  end.

End Preprocess.

(** The bytes a call of [preprocess] has written to [out], and the
    error it has returned; a call that panics has written nothing,
    since the only panic is in the walk, before the rendering. *)
Definition written (r : Outcome (string * option error)) : string :=
  match r with
  | Returns (out, _) => out
  | Panics => EmptyString
  end.

Definition returned (r : Outcome (string * option error)) : option error :=
  match r with
  | Returns (_, oe) => oe
  | Panics => None
  end.

(** What the file system answers [loadHtml] for the template file:
    the result of [os.Stat] and that of [ioutil.ReadFile]. *)
Inductive StatResult : Type :=
| StatNotExist
| StatFailed (e : error)
| StatOk.

Record TemplateFile : Type := {
  tf_stat : StatResult;
  tf_read : error + string
}.

Definition loadHtml (file : string) (tf : TemplateFile)
  : string * option error :=
  match tf_stat tf with
  | StatNotExist => (EmptyString, Some (Err (file ++ " does not exist")))
  | StatFailed e =>
      (EmptyString,
       Some (Err ("Could not read file info for " ++ file ++ " -- "
                  ++ error_msg e)))
  | StatOk =>
      match tf_read tf with
      | inl e =>
          (EmptyString,
           Some (Err ("Could not read template file, " ++ file ++ " -- "
                      ++ error_msg e)))
      | inr b => (b, None)
      end
  end.

(* ================================================================= *)
(** ** Options, logging and observable effects *)

(** The command line flags the dev mode reads. *)
Record Options : Type := {
  OptOutfile : string;
  OptVerbose : bool;
  OptDevport : Z;
  OptTemplate : string
}.

Inductive Level : Type := ERROR | VERBOSE.

(** What the program does to the outside, in the order it does it.
    [Serve] stands for the two calls of [http.HandleFunc] and the [go]
    statement that starts the server (see [serve]); [Panic] for the
    report of a panic that nothing recovers, with which the run-time
    system ends the process. *)
Inductive Effect : Type :=
| Log (lv : Level) (text : string)
| Print (s : string)
| Spawn
| SendReady
| Serve (port : Z)
| RunBrowser (cmd arg : string)
| WsWrite (msg : string)
| WsClose
| CloseDone
| CloseFile
| Panic.

Definition elog (args : list string) : list Effect :=
  [Log ERROR (ProgName ++ " [ERROR] " ++ Sprintln args)].

Definition vlog (opts : Options) (args : list string) : list Effect :=
  if OptVerbose opts
  then [Log VERBOSE (ProgName ++ " [VERBOSE] " ++ Sprintln args)]
  else [].

Definition is_error_log (e : Effect) : bool :=
  match e with Log ERROR _ => true | _ => false end.

Definition is_ready (e : Effect) : bool :=
  match e with SendReady => true | _ => false end.

Definition is_spawn (e : Effect) : bool :=
  match e with Spawn => true | _ => false end.

(* ================================================================= *)
(** ** The output file *)

(** The file opened by [os.Create(OptOutfile)]: the bytes it holds and
    the offset of the handle. *)
Record OSFile : Type := {
  f_data : string;
  f_off : nat
}.

Fixpoint take (n : nat) (s : string) : string :=
  match n, s with
  | S n', String c r => String c (take n' r)
  | _, _ => EmptyString
  end.

Fixpoint drop (n : nat) (s : string) : string :=
  match n, s with
  | S n', String _ r => drop n' r
  | _, _ => s
  end.

Fixpoint zeros (n : nat) : string :=
  match n with
  | O => EmptyString
  | S n' => String zero (zeros n')
  end.

(** [file.Truncate(0)]: the file is emptied, the offset stays. *)
Definition Truncate0 (f : OSFile) : OSFile :=
  {| f_data := EmptyString; f_off := f_off f |}.

(** [file.Seek(0, 0)] *)
Definition Seek0 (f : OSFile) : OSFile :=
  {| f_data := f_data f; f_off := 0 |}.

(** [file.Write(b)]: the bytes replace what is at the offset, after a
    gap of zero bytes when the offset is past the end. *)
Definition Write (f : OSFile) (b : string) : OSFile :=
  let off := f_off f in
  let d := f_data f in
  {| f_data := take off d ++ zeros (off - String.length d) ++ b
               ++ drop (off + String.length b) d;
     f_off := off + String.length b |}.

(* ================================================================= *)
(** ** The build goroutine *)

(** What the build goroutine shares with the rest of the program,
    apart from [html]: the output file, [served], whether
    [ProgWebSocket] is set, and the effects so far. *)
Record World : Type := {
  outfile : OSFile;
  served : bool;
  ProgWebSocket : bool;
  effects : list Effect
}.

(** What the operating system answers during one run of the build. *)
Record BuildEnv : Type := {
  truncate_err : option error;
  seek_err : option error;
  sync_err : option error;
  source_tree : FsNode;
  browser_err : option error;
  ws_write_err : option error
}.

Definition emit (es : list Effect) (wd : World) : World :=
  {| outfile := outfile wd; served := served wd;
     ProgWebSocket := ProgWebSocket wd; effects := effects wd ++ es |}.

Definition set_outfile (f : OSFile) (wd : World) : World :=
  {| outfile := f; served := served wd;
     ProgWebSocket := ProgWebSocket wd; effects := effects wd |}.

Definition set_served (wd : World) : World :=
  {| outfile := outfile wd; served := true;
     ProgWebSocket := ProgWebSocket wd; effects := effects wd |}.

Section Build.
Context {engine : TemplateEngine}.
Variable w : IntSize.
Variable room : string -> Z -> bool.
Variable opts : Options.
Variable OpenBrowserCommand : string.
Variable inputdir : string.

Definition has_outfile : bool := negb (String.eqb (OptOutfile opts) EmptyString).

(** [out]: the output file when one is named, standard output
    otherwise. *)
Definition write_out (b : string) (wd : World) : World :=
  if has_outfile then set_outfile (Write (outfile wd) b) wd
  else match b with
       | EmptyString => wd
       | _ => emit [Print b] wd
       end.

(** The first part of the goroutine: the output file is emptied and
    rewound.  The result tells the value left in [err] and whether the
    call of [file.Sync] was deferred. *)
Definition prepare (env : BuildEnv) (wd : World)
  : World * option error * bool :=
  if has_outfile then
    match truncate_err env with
    | Some e =>
        (emit (elog ["Failed to truncate outfile,"; OptOutfile opts; "-- ";
                     error_msg e]) wd, Some e, false)
    | None =>
        let wd1 := set_outfile (Truncate0 (outfile wd)) wd in
        match seek_err env with
        | Some e =>
            (emit (elog ["Failed to seek to beginning of outfile,";
                         OptOutfile opts; "-- "; error_msg e]) wd1,
             Some e, false)
        | None => (set_outfile (Seek0 (outfile wd1)) wd1, None, true)
        end
    end
  else (wd, None, false).

(** The goroutine that [notify] starts with the server:
    [http.ListenAndServe] serves until it fails, and the goroutine
    then logs the error.  [listen] is the error returned, if the call
    has returned.  The line is written by this goroutine, at any time
    after it was started: before or after what the build goroutine
    does next, and before or after its signal on [ready].  (The
    goroutine also assigns the error to the variable [err] of the
    build goroutine, which tests [err] only right after its own
    assignments.) *)
Definition serve (listen : option error) : list Effect :=
  match listen with
  | Some e =>
      elog ["Failed to start HTTP web server on localhost --"; error_msg e]
  | None => []
  end.

(** After a successful [preprocess] with [port > 0]: the first time the
    handlers are registered, the goroutine [serve] is started
    ([Serve]) and the browser is opened; later the viewer is told to
    reload. *)
Definition notify (env : BuildEnv) (port : Z) (wd : World) : World :=
  if negb (served wd) then
    let wd1 := emit [Serve port; RunBrowser OpenBrowserCommand (OptOutfile opts)]
                 (set_served wd) in
    match browser_err env with
    | Some e =>
        emit (elog ["Failed to open"; OptOutfile opts; "in browser --";
                    error_msg e]) wd1
    | None =>
        emit (vlog opts [("Opening in browser with "
                          ++ quoted (OpenBrowserCommand ++ " "
                                     ++ OptOutfile opts))%string])
          wd1
    end
  else if ProgWebSocket wd then
    let wd1 := emit [WsWrite "reload"] wd in
    match ws_write_err env with
    | Some e =>
        emit (elog [("Failed to write " ++ quoted "reload"
                     ++ " web socket message")%string; error_msg e]) wd1
    | None => wd1
    end
  else emit (elog ["ProgWebSocket is nil, can't write messages"]) wd.

(** The port given to [preprocess]: [OptDevport] when an output file
    is named. *)
Definition port : Z := if has_outfile then OptDevport opts else 0%Z.

(** The part of the goroutine that runs when [err == nil]: the
    output is rendered, then the error is logged or the viewer
    notified.  [html] is the template text the goroutine reads. *)
Definition render (env : BuildEnv) (html : string) (wd : World)
  : Outcome World :=
  match preprocess w room (source_tree env) inputdir html port with
  | Panics => Panics
  | Returns (out, perr) =>
      let wd' := write_out out wd in
      Returns
        match perr with
        | Some e =>
            emit (elog ["Failed to pre-process"; inputdir; " --"; error_msg e])
              wd'
        | None =>
            if (port >? 0)%Z then notify env port wd'
            else emit [Print newline] wd'
        end
  end.

(** The deferred [file.Sync()]. *)
Definition sync (env : BuildEnv) (wd : World) : World :=
  match sync_err env with
  | Some e =>
      emit (elog ["Failed to sync outfile,"; OptOutfile opts; "-- ";
                  error_msg e]) wd
  | None => wd
  end.

(** The body of the goroutine started by the loop: the shared state
    when the goroutine ends.  It ends by returning, after the send on
    [ready] and the deferred call; or by the panic of [preprocess],
    which runs the deferred call while the goroutine unwinds and then
    ends the process, nothing having been sent on [ready].  The
    channel has no buffer: the send waits until the loop receives it,
    and the deferred call of a goroutine that returns runs after
    that. *)
Definition build (env : BuildEnv) (html : string) (wd : World) : World :=
  let '(wd1, err, deferred) := prepare env wd in
  let rendered :=
    match err with
    | Some _ => Returns wd1
    | None => render env html wd1
    end in
  match rendered with
  | Returns wd2 =>
      let wd3 := emit [SendReady] wd2 in
      if deferred then sync env wd3 else wd3
  | Panics => emit [Panic] (if deferred then sync env wd1 else wd1)
  end.

(** Whether a run of the build fails: truncating or rewinding the
    output file fails, or [preprocess] returns an error. *)
Definition build_fails (env : BuildEnv) (html : string) (wd : World) : bool :=
  let '(_, err, _) := prepare env wd in
  match err with
  | Some _ => true
  | None =>
      match returned (preprocess w room (source_tree env) inputdir html port) with
      | Some _ => true
      | None => false
      end
  end.

(** Whether a run of the build ends in a panic. *)
Definition build_panics (env : BuildEnv) (html : string) (wd : World) : bool :=
  let '(_, err, _) := prepare env wd in
  match err with
  | Some _ => false
  | None =>
      match preprocess w room (source_tree env) inputdir html port with
      | Panics => true
      | Returns _ => false
      end
  end.

End Build.

(* ================================================================= *)
(** ** The dev-mode event loop *)

(** A [filewatch.Update] as the loop reads it: [u.Prev.Name()],
    [u.Prev.IsDir()] and [u.WasRemoved]. *)
Record Update : Type := {
  Name : string;
  IsDir : bool;
  WasRemoved : bool
}.

(** What the [select] of one iteration can receive, apart from the
    interrupt: a batch from [updates], a batch from [tmplUpdate]
    (with the state of the template file [loadHtml] then finds), or
    the signal of a build goroutine on [ready]. *)
Inductive Stimulus : Type :=
| SourceChanged (us : list Update)
| TemplateChanged (tf : TemplateFile)
| BuildCompleted.

Inductive Input : Type :=
| Stim (s : Stimulus)
| Interrupt.

(** The variables of the loop.  [building] and [dispatched] are not
    program variables: they count the build goroutines that were
    started and have not yet been received from on [ready], and the
    goroutines started in all. *)
Record Loop : Type := {
  isReady : bool;
  pending : bool;
  interrupted : bool;
  html : string;
  building : nat;
  dispatched : nat;
  trace : list Effect
}.

Definition start (html0 : string) : Loop :=
  {| isReady := true; pending := false; interrupted := false;
     html := html0; building := 0; dispatched := 0; trace := [] |}.

Definition set_pending (p : bool) (st : Loop) : Loop :=
  {| isReady := isReady st; pending := p; interrupted := interrupted st;
     html := html st; building := building st;
     dispatched := dispatched st; trace := trace st |}.

Definition set_html (h : string) (st : Loop) : Loop :=
  {| isReady := isReady st; pending := pending st;
     interrupted := interrupted st; html := h; building := building st;
     dispatched := dispatched st; trace := trace st |}.

Definition say (es : list Effect) (st : Loop) : Loop :=
  {| isReady := isReady st; pending := pending st;
     interrupted := interrupted st; html := html st;
     building := building st; dispatched := dispatched st;
     trace := trace st ++ es |}.

Section EventLoop.
Variable opts : Options.
(** The compiled [-ignore] pattern: [None] when the flag is empty or
    does not compile. *)
Variable ignore : option (string -> bool).

Definition ignored (name : string) : bool :=
  match ignore with
  | Some re => re name
  | None => false
  end.

(** Whether the extension of [name] is one of the two content kinds. *)
Definition has_content_ext (name : string) : bool :=
  let ext := ToLower (filepath.Ext name) in
  String.eqb ext ".js" || String.eqb ext ".css".

(** The body of [for _, u := range us]. *)
Definition on_update (st : Loop) (u : Update) : Loop :=
  if negb (IsDir u) && negb (WasRemoved u) then
    let name := Name u in
    if ignored name then st
    else
      let old := pending st in
      let st' := set_pending (old || has_content_ext name) st in
      if negb old && pending st'
      then say (vlog opts ["Detected change of file"; name]) st'
      else st'
  else st.

Definition has_template : bool :=
  negb (String.eqb (OptTemplate opts) EmptyString).

(** The [select] statement, for the case that receives [i]. *)
Definition select (st : Loop) (i : Input) : Loop :=
  match i with
  | Stim (SourceChanged us) => fold_left on_update us st
  | Stim (TemplateChanged tf) =>
      let st1 := set_pending true st in
      if has_template then
        let st2 := say (vlog opts ["Detected change of HTML template:";
                                   OptTemplate opts]) st1 in
        let (h, err) := loadHtml (OptTemplate opts) tf in
        let st3 := set_html h st2 in
        match err with
        | Some e => say (elog [error_msg e]) st3
        | None => st3
        end
      else st1
  | Stim BuildCompleted =>
      let st1 := say (vlog opts
                        ["Finished processing file changes, set isReady to true"])
                   st in
      {| isReady := true; pending := pending st1;
         interrupted := interrupted st1; html := html st1;
         building := Nat.pred (building st1);
         dispatched := dispatched st1; trace := trace st1 |}
  | Interrupt =>
      {| isReady := isReady st; pending := pending st; interrupted := true;
         html := html st; building := building st;
         dispatched := dispatched st; trace := trace st |}
  end.

(** The test after the [select]. *)
Definition dispatches (st : Loop) : bool :=
  isReady st && pending st && negb (interrupted st).

(** [if isReady && pending && !interrupted { ...; go build }] *)
Definition tick (st : Loop) : Loop :=
  if dispatches st then
    {| isReady := false; pending := false; interrupted := interrupted st;
       html := html st; building := S (building st);
       dispatched := S (dispatched st); trace := trace st ++ [Spawn] |}
  else st.

(** One iteration of [for !interrupted]. *)
Definition iteration (st : Loop) (i : Input) : Loop := tick (select st i).

(** The loop on the inputs received in turn; it returns the state in
    which it leaves the loop, or waits in [select] once the inputs are
    used up. *)
Fixpoint loop (ins : list Input) (st : Loop) : Loop :=
  match ins with
  | [] => st
  | i :: r => if interrupted st then st else loop r (iteration st i)
  end.

(** What [main] does after the loop: the final newline, the log line,
    and the deferred calls in reverse order. *)
Definition leave (st : Loop) : list Effect :=
  [Print newline] ++ vlog opts ["Dev mode exited cleanly"] ++ [CloseDone]
  ++ (if negb (String.eqb (OptOutfile opts) EmptyString) then [CloseFile] else []).

(** The dev mode of [main] on the inputs [ins], from the start of the
    loop: the final state with all effects when [main] returns, [None]
    when the loop is still waiting. *)
Definition devmode (html0 : string) (ins : list Input) : option Loop :=
  let st := loop ins (start html0) in
  if interrupted st then Some (say (leave st) st) else None.

End EventLoop.

(** The [reload] handler, the only place where the viewer connection
    is closed: the upgrade, then one [ReadMessage] after the other.
    The handler returns at a close error, which runs the deferred
    [ProgWebSocket.Close()].  After any other error it reads again;
    the websocket package counts the reads that fail and panics at
    the 1000th, which also runs the deferred call and ends the
    handler (the server recovers the panic of a handler). *)
Inductive ReadResult : Type :=
| ReadClosed (e : error)
| ReadFailed (e : error)
| ReadMessage (msgtype : Z) (msg : string).

Definition describe (msgtype : Z) (msg : string) : string :=
  if (msgtype =? 1)%Z then "Received web socket text message: " ++ msg
  else if (msgtype =? 2)%Z then "Received web socket binary message"
  else if (msgtype =? 8)%Z then "Received web socket close message"
  else if (msgtype =? 9)%Z then "Received web socket ping message"
  else if (msgtype =? 10)%Z then "Received web socket pong message"
  else EmptyString.

(** The number of failed reads at which [ReadMessage] panics. *)
Definition read_error_limit : nat := 1000.

(** The loop of the handler on the results of its reads, [failed] of
    which have failed so far. *)
Fixpoint reload_loop (opts : Options) (failed : nat) (rs : list ReadResult)
  : list Effect :=
  match rs with
  | [] => []
  | ReadClosed e :: _ =>
      vlog opts ["Websocket connection closed --"; error_msg e] ++ [WsClose]
  | ReadFailed e :: r =>
      if Nat.leb read_error_limit (S failed) then [WsClose]
      else elog ["Error reading web socket message --"; error_msg e]
           ++ reload_loop opts (S failed) r
  | ReadMessage t m :: r => vlog opts [describe t m] ++ reload_loop opts failed r
  end.

Definition reload_reads (opts : Options) (rs : list ReadResult) : list Effect :=
  reload_loop opts 0 rs.

Definition reload (opts : Options) (upgrade : option error)
  (rs : list ReadResult) : list Effect :=
  match upgrade with
  | Some e =>
      elog ["Could not updgrade HTTP request to websocket --"; error_msg e]
  | None => reload_reads opts rs
  end.

(* ================================================================= *)
(** ** Notions used to state the properties *)

(** A source-tree event is relevant: not a directory, not a removal,
    not matched by the exclusion pattern, and of a content kind. *)
Definition relevant (ignore : option (string -> bool)) (u : Update) : bool :=
  negb (IsDir u) && negb (WasRemoved u) && negb (ignored ignore (Name u))
  && has_content_ext (Name u).

(** A stimulus that carries a relevant change. *)
Definition is_change (ignore : option (string -> bool)) (s : Stimulus) : bool :=
  match s with
  | SourceChanged us => existsb (relevant ignore) us
  | TemplateChanged _ => true
  | BuildCompleted => false
  end.

(** Number of effects of a kind in a trace. *)
Definition count (p : Effect -> bool) (es : list Effect) : nat :=
  List.length (filter p es).

Definition is_ws_close (e : Effect) : bool :=
  match e with WsClose => true | _ => false end.

Definition is_panic (e : Effect) : bool :=
  match e with Panic => true | _ => false end.

Definition is_newline (e : Effect) : bool :=
  match e with
  | Print s => String.eqb s newline
  | _ => false
  end.

(** The state of the loop between two iterations, as long as no
    interrupt was received: the number of build goroutines at work
    follows [isReady], and every start of a build is in the trace. *)
Definition in_step (st : Loop) : Prop :=
  interrupted st = false
  /\ building st = (if isReady st then 0 else 1)
  /\ count is_spawn (trace st) = dispatched st.

(** The bytes a visit adds to the buffer of kind [k]: the content of a
    file of that kind that could be opened. *)
Definition same_kind (k : Kind) (o : option Kind) : bool :=
  match k, o with
  | KJs, Some KJs => true
  | KCss, Some KCss => true
  | _, _ => false
  end.

Definition contribution (k : Kind) (v : Visit) : string :=
  if same_kind k (kind_of (v_path v)) then
    match v_open v with
    | Opened content => content
    | _ => EmptyString
    end
  else EmptyString.

(** The contents of the files of kind [k], in the order of the visits. *)
Definition gather (k : Kind) (vs : list Visit) : string :=
  concat_all (map (contribution k) vs).


(** A machine that has memory for buffers of up to [limit] bytes:
    [Grow(n)] returns when the bytes held and [n] more are within the
    limit. *)
Definition fits (limit : Z) (buf : string) (n : Z) : bool :=
  (0 <=? n)%Z && (Z.of_nat (String.length buf) + n <=? limit)%Z.





(** A literal piece of a template: it holds no left delimiter and
    does not end with an opening brace (which would join the
    delimiter that follows). *)
Fixpoint literal (s : string) : bool :=
  match s with
  | EmptyString => true
  | String c rest =>
      if Ascii.eqb c "{"%char then
        match rest with
        | EmptyString => false
        | String c' _ => negb (Ascii.eqb c' "{"%char) && literal rest
        end
      else literal rest
  end.

(** The actions that print the data: the two fields of [result], and
    the dot. *)
Inductive Slot : Type := SlotCSS | SlotJavascript | SlotDot.

Definition slot_action (sl : Slot) : string :=
  match sl with
  | SlotCSS => ".CSS"
  | SlotJavascript => ".Javascript"
  | SlotDot => "."
  end.

(** The node of a slot. *)
Definition slot_node (sl : Slot) : GoTemplate.Node :=
  match sl with
  | SlotCSS => GoTemplate.NField "CSS"
  | SlotJavascript => GoTemplate.NField "Javascript"
  | SlotDot => GoTemplate.NDot
  end.

(** A slot as it stands in a template. *)
Definition slot_text (sl : Slot) : string := "{{" ++ slot_action sl ++ "}}".

(** What execution prints at a slot for the data [{c j}]. *)
Definition fill (c j : string) (sl : Slot) : string :=
  match sl with
  | SlotCSS => c
  | SlotJavascript => j
  | SlotDot => "{" ++ c ++ " " ++ j ++ "}"
  end.

(** A text made of a first piece and then, any number of times, a
    slot and the piece that follows it; [f] gives the text that stands
    at each slot. *)
Fixpoint with_slots (f : Slot -> string) (first : string)
  (rest : list (Slot * string)) : string :=
  match rest with
  | [] => first
  | p :: r => (first ++ f (fst p) ++ with_slots f (snd p) r)%string
  end.

(** The hot-reload snippet for a port, as the model of the engine
    renders it; empty when the port is 0. *)
Definition hot_reload (port : Z) : string :=
  if (port >? 0)%Z then
    match GoTemplate.fragment ProgHotReloadCode with
    | Some ns => fst (GoTemplate.run_nodes ns (DUint port))
    | None => EmptyString
    end
  else EmptyString.

(** The names from the root down to each object the walk visits, in
    the order of the visits. *)
Fixpoint names_below (n : FsNode) : list (list string) :=
  match n with
  | Dir _ _ entries =>
      [] :: flat_map (fun p => map (cons (fst p)) (names_below (snd p))) entries
  | _ => [[]]
  end.

(** The path of an object from the names leading to it. *)
Definition path_of (root : string) (names : list string) : string :=
  fold_left filepath.Join names root.

(** Byte-wise order of strings, as Go compares them. *)
Definition str_lt (a b : string) : Prop := String.compare a b = Lt.

(** Paths compared name by name: a directory comes before everything
    below it, and an entry before the next entry of its directory. *)
Fixpoint names_lt (a b : list string) : Prop :=
  match a, b with
  | _, [] => False
  | [], _ :: _ => True
  | x :: a', y :: b' => str_lt x y \/ (x = y /\ names_lt a' b')
  end.

(** Entries of a directory compared by their names. *)
Definition name_le {A : Type} (p q : string * A) : Prop :=
  String.leb (fst p) (fst q) = true.

Definition name_lt {A : Type} (p q : string * A) : Prop :=
  str_lt (fst p) (fst q).

(** The names of the entries of every directory are distinct. *)
Fixpoint distinct_names (n : FsNode) : Prop :=
  match n with
  | Dir _ _ entries =>
      NoDup (map fst entries)
      /\ fold_right (fun p acc => distinct_names (snd p) /\ acc) True entries
  | _ => True
  end.

(** Visits in byte-wise order of their full paths. *)
Fixpoint insert_visit (v : Visit) (l : list Visit) : list Visit :=
  match l with
  | [] => [v]
  | u :: r => if String.leb (v_path v) (v_path u) then v :: l
              else u :: insert_visit v r
  end.

Definition by_full_path (vs : list Visit) : list Visit :=
  fold_right insert_visit [] vs.

(** *** Sample inputs *)

(** The machine of the examples: it has a mebibyte for each buffer. *)
Definition sample_room : string -> Z -> bool := fits 1048576.

(** What the library says in the examples.  They ask it about one
    text only, [<p>{{.CSS</p>], which it rejects: the action is not
    closed before the [<].  Of the error of an execution the examples
    use nothing but that there is one. *)
Definition sample_library : GoTemplate.Library :=
  {| GoTemplate.lib_parse := fun name _ =>
       Some (Err ("template: " ++ name ++ ":1: bad character U+003C '<'"));
     GoTemplate.lib_execute := fun _ _ _ => (EmptyString, None);
     GoTemplate.lib_exec_error := fun name _ _ =>
       Err ("template: " ++ name ++ ": can't evaluate field") |}.

(** The source tree of the first scenario: [a.css] and [b.js]. *)
Definition sample_tree : FsNode :=
  Dir 4096 (Opened EmptyString)
    [("b.js", File 14 (Opened "console.log(1)"));
     ("a.css", File 15 (Opened "body{color:red}"))].

Definition sample_opts : Options :=
  {| OptOutfile := "out.html"; OptVerbose := false;
     OptDevport := 8082; OptTemplate := "index.tmpl" |}.

Definition sample_env : BuildEnv :=
  {| truncate_err := None; seek_err := None; sync_err := None;
     source_tree := sample_tree; browser_err := None; ws_write_err := None |}.

Definition sample_world : World :=
  {| outfile := {| f_data := "<p>the page</p>"; f_off := 15 |};
     served := true; ProgWebSocket := true; effects := [] |}.

Definition sample_template : TemplateFile :=
  {| tf_stat := StatOk; tf_read := inr "<p>{{.CSS}}</p>" |}.

Definition sample_update : Update :=
  {| Name := "App.JS"; IsDir := false; WasRemoved := false |}.

(** The three literal pieces of [ProgHtmlTemplate]. *)
Definition html_head : string :=
  concat_all
    [ "<!doctype html>"; newline; "<html>"; newline; "  <head>"; newline;
      "    <meta charset="; quoted "utf-8"; ">"; newline; "    " ].

Definition html_body : string :=
  concat_all
    [ newline; "  </head>"; newline; "  <body></body>"; newline; "  " ].

Definition html_foot : string := concat_all [ newline; "</html>" ].

(* ================================================================= *)
(** ** The start of [main] and the one-shot mode *)

(** What [os.Stat(inputdir)] answers: the directory is missing, the
    call fails otherwise (and returns no [FileInfo]), or it succeeds
    and tells whether the path is a directory. *)
Inductive DirStat : Type :=
| DirNotExist
| DirStatFailed (e : error)
| DirStatOk (isDir : bool).

(** What [main] finds when it starts: the first argument, the state of
    the input directory and of the template file, and the results of
    [os.MkdirAll] and [os.Create] for the output file. *)
Record StartEnv : Type := {
  arg0 : string;
  inputdir_stat : DirStat;
  template_file : TemplateFile;
  mkdir_err : option error;
  create_err : option error
}.

(** The calls that change the file system before the output is
    written. *)
Inductive FsAction : Type :=
| MkdirAll (dir : string)
| Create (path : string).

(** How the process ends: [flag.Usage] and [os.Exit(0)], a line logged
    by [flog] and [os.Exit(1)], a panic (a nil dereference, or the
    panic of [preprocess]), or the return of [main]. *)
Inductive Exit : Type :=
| ExitUsage
| ExitFatal (line : string)
| ExitPanic
| ExitOk.

Definition flog (args : list string) : Exit :=
  ExitFatal (ProgName ++ " [FATAL] " ++ Sprintln args).

(** [s[:len(s)-1]] *)
Definition chop (s : string) : string :=
  substring 0 (String.length s - 1) s.

Section Startup.
Context {engine : TemplateEngine}.
Variable w : IntSize.
Variable room : string -> Z -> bool.
(** [filepath.Dir] *)
Variable filepath_Dir : string -> string.
Variable OptHelp : bool.
Variable opts : Options.

(** The [else] branch of [if OptOutfile == ""]: the calls made, and
    the fatal exit if there is one. *)
Definition open_output (env : StartEnv) : list FsAction * option Exit :=
  let out := OptOutfile opts in
  let dir := filepath_Dir out in
  if String.eqb dir (chop out) then
    ([], Some (flog [out; "is a directory path. Not a file."]))
  else
    let made :=
      if negb (String.eqb dir ".") then ([MkdirAll dir], mkdir_err env)
      else ([], None) in
    match snd made with
    | Some e =>
        (fst made,
         Some (flog ["Could not make directory for"; out; " --"; error_msg e]))
    | None =>
        match create_err env with
        | Some e =>
            (fst made ++ [Create out],
             Some (flog ["Could not create file"; out; "--"; error_msg e]))
        | None => (fst made ++ [Create out], None)
        end
    end.

(** [main] up to the choice of the mode: the calls made on the file
    system, and either the exit or the template text [html]. *)
Definition startup (env : StartEnv) : list FsAction * (Exit + string) :=
  if OptHelp then ([], inl ExitUsage)
  else if String.eqb (arg0 env) EmptyString then
    ([], inl (flog ["No input directory specified.  See wpp -help."]))
  else
    match inputdir_stat env with
    | DirNotExist =>
        ([], inl (flog [arg0 env; "does not exist.  See wpp -help."]))
    | DirStatFailed _ => ([], inl ExitPanic)
    | DirStatOk false =>
        ([], inl (flog [arg0 env; "is not a directory.  See wpp -help."]))
    | DirStatOk true =>
        let loaded :=
          if has_template opts
          then loadHtml (OptTemplate opts) (template_file env)
          else (ProgHtmlTemplate, None) in
        match snd loaded with
        | Some e => ([], inl (flog [error_msg e]))
        | None =>
            if has_outfile opts then
              match open_output env with
              | (acts, Some x) => (acts, inl x)
              | (acts, None) => (acts, inr (fst loaded))
              end
            else ([], inr (fst loaded))
        end
    end.

(** [main] without [-devmode], with [tree] the directory found at the
    input directory: the calls made on the file system, the bytes
    written to [out], and the exit. *)
Definition main_once (env : StartEnv) (tree : FsNode)
  : list FsAction * string * Exit :=
  match startup env with
  | (acts, inl x) => (acts, EmptyString, x)
  | (acts, inr html) =>
      match preprocess w room tree (arg0 env) html 0 with
      | Panics => (acts, EmptyString, ExitPanic)
      | Returns (out, Some e) =>
          (acts, out,
           flog ["Failed to pre-process"; arg0 env; " --"; error_msg e])
      | Returns (out, None) => (acts, out, ExitOk)
      end
  end.

End Startup.

(* ================================================================= *)
(** ** Further notions used to state properties *)

Definition is_interrupt (i : Input) : bool :=
  match i with Interrupt => true | Stim _ => false end.

Definition is_create (a : FsAction) : bool :=
  match a with Create _ => true | MkdirAll _ => false end.

Definition is_serve (e : Effect) : bool :=
  match e with Serve _ => true | _ => false end.

Definition is_browser (e : Effect) : bool :=
  match e with RunBrowser _ _ => true | _ => false end.

Definition is_ws_write (e : Effect) : bool :=
  match e with WsWrite _ => true | _ => false end.

(** A template stimulus whose reload fails. *)
Definition reload_fails (opts : Options) (s : Stimulus) : bool :=
  match s with
  | TemplateChanged tf =>
      has_template opts
      && match snd (loadHtml (OptTemplate opts) tf) with
         | Some _ => true
         | None => false
         end
  | _ => false
  end.

(** A visit that can change the result of the walk: one that carries
    an error, or a file of a content kind that has not disappeared. *)
Definition matters (v : Visit) : bool :=
  match v_err v with
  | Some _ => true
  | None =>
      match kind_of (v_path v), v_open v with
      | None, _ => false
      | Some _, OpenNotExist => false
      | Some _, _ => true
      end
  end.

(** The same tree with the entries of its directories listed in
    another order. *)
#[warnings="-register-all"]
Inductive reordered : FsNode -> FsNode -> Prop :=
| reordered_same (n : FsNode) : reordered n n
| reordered_dir (sz : Z) (op : OpenResult)
    (entries shuffled entries' : list (string * FsNode)) :
    Permutation entries shuffled ->
    Forall2 (fun p q => fst p = fst q /\ reordered (snd p) (snd q))
      shuffled entries' ->
    reordered (Dir sz op entries) (Dir sz op entries').

(** The [reload] handler on the shared state: the assignment
    [ProgWebSocket, err = upgrader.Upgrade(w, r, nil)] (the connection
    is [nil] exactly when the upgrade fails), then the reads. *)
Definition handshake (opts : Options) (upgrade : option error)
  (rs : list ReadResult) (wd : World) : World :=
  {| outfile := outfile wd; served := served wd;
     ProgWebSocket := match upgrade with None => true | Some _ => false end;
     effects := effects wd ++ reload opts upgrade rs |}.

Section Runs.
Context {engine : TemplateEngine}.
Variable w : IntSize.
Variable room : string -> Z -> bool.
Variable opts : Options.
Variable OpenBrowserCommand : string.
Variable inputdir : string.

(** A run of the build in which [err] is [nil] when [preprocess] is
    reached: no output file is named, or the file is emptied and
    rewound. *)
Definition prepared (r : BuildEnv * string) : bool :=
  if has_outfile opts then
    match truncate_err (fst r), seek_err (fst r) with
    | None, None => true
    | _, _ => false
    end
  else true.

(** A run of the build that gets to the notification: [preprocess] is
    reached and returns no error, and the port is not 0. *)
Definition notifies (r : BuildEnv * string) : bool :=
  prepared r
  && match preprocess w room (source_tree (fst r)) inputdir (snd r)
             (port opts) with
     | Returns (_, None) => true
     | _ => false
     end
  && (port opts >? 0)%Z.

(** A run of the build that ends in a panic. *)
Definition crashes (r : BuildEnv * string) : bool :=
  prepared r
  && match preprocess w room (source_tree (fst r)) inputdir (snd r)
             (port opts) with
     | Panics => true
     | Returns _ => false
     end.

(** The runs that take place: a run that ends in a panic is the last
    one, since the process ends with it. *)
Fixpoint executed (runs : list (BuildEnv * string))
  : list (BuildEnv * string) :=
  match runs with
  | [] => []
  | r :: rest => r :: (if crashes r then [] else executed rest)
  end.

(** Builds run one after the other, each with what the operating
    system answers to it and the template text it reads. *)
Definition run_all (runs : list (BuildEnv * string)) (wd : World) : World :=
  fold_left
    (fun wd r => build w room opts OpenBrowserCommand inputdir (fst r) (snd r) wd)
    runs wd.

Definition builds (runs : list (BuildEnv * string)) (wd : World) : World :=
  run_all (executed runs) wd.

End Runs.

(** The effects of two goroutines that run side by side: each keeps
    its order, and they fall in any way between each other. *)
Inductive interleaved : list Effect -> list Effect -> list Effect -> Prop :=
| interleaved_nil : interleaved [] [] []
| interleaved_left (e : Effect) (a b t : list Effect) :
    interleaved a b t -> interleaved (e :: a) b (e :: t)
| interleaved_right (e : Effect) (a b t : list Effect) :
    interleaved a b t -> interleaved a (e :: b) (e :: t).

(** Reads that report the connection closed, and reads that fail
    otherwise. *)
Definition is_closed (r : ReadResult) : bool :=
  match r with ReadClosed _ => true | _ => false end.

Definition is_failed (r : ReadResult) : bool :=
  match r with ReadFailed _ => true | _ => false end.

(* ================================================================= *)
(** * Properties *)

(** ** The change classifier *)

Lemma count_app (p : Effect -> bool) (a b : list Effect) :
  count p (a ++ b) = count p a + count p b.
Proof. unfold count. now rewrite filter_app, length_app. Qed.

Lemma count_say (p : Effect -> bool) (es : list Effect) (st : Loop) :
  count p (trace (say es st)) = count p (trace st) + count p es.
Proof. cbn [trace say]. apply count_app. Qed.

Lemma count_vlog (p : Effect -> bool) (opts : Options) (args : list string) :
  (forall t, p (Log VERBOSE t) = false) -> count p (vlog opts args) = 0.
Proof.
  intro H. unfold vlog, count. destruct (OptVerbose opts); cbn; [|reflexivity].
  now rewrite H.
Qed.

Lemma count_elog (p : Effect -> bool) (args : list string) :
  (forall t, p (Log ERROR t) = false) -> count p (elog args) = 0.
Proof. intro H. unfold elog, count. cbn. now rewrite H. Qed.

Lemma count_elog' (args : list string) : count is_error_log (elog args) = 1.
Proof. reflexivity. Qed.

Section ClassifierFacts.
Variable opts : Options.
Variable ignore : option (string -> bool).

Lemma on_update_pending (st : Loop) (u : Update) :
  pending (on_update opts ignore st u) = pending st || relevant ignore u.
Proof.
  unfold on_update, relevant.
  destruct (IsDir u), (WasRemoved u); cbn [negb andb];
    rewrite ?orb_false_r; try reflexivity.
  destruct (ignored ignore (Name u)); cbn [negb andb];
    rewrite ?orb_false_r; try reflexivity.
  match goal with |- pending (if ?c then _ else _) = _ => destruct c end;
    reflexivity.
Qed.

(** An update touches nothing but [pending] and the log. *)
Lemma on_update_frame (st : Loop) (u : Update) :
  isReady (on_update opts ignore st u) = isReady st
  /\ interrupted (on_update opts ignore st u) = interrupted st
  /\ html (on_update opts ignore st u) = html st
  /\ building (on_update opts ignore st u) = building st
  /\ dispatched (on_update opts ignore st u) = dispatched st
  /\ count is_spawn (trace (on_update opts ignore st u))
     = count is_spawn (trace st).
Proof.
  unfold on_update.
  destruct (negb (IsDir u) && negb (WasRemoved u)); [|repeat split].
  destruct (ignored ignore (Name u)); [repeat split|].
  match goal with |- context [if ?c then _ else _] => destruct c end;
    repeat split.
  cbn [trace say set_pending]. unfold count, vlog.
  destruct (OptVerbose opts); rewrite filter_app, length_app;
    cbn; lia.
Qed.

Lemma batch_pending (us : list Update) (st : Loop) :
  pending (fold_left (on_update opts ignore) us st)
  = pending st || existsb (relevant ignore) us.
Proof.
  revert st. induction us as [|u us IH]; intro st; cbn [fold_left existsb].
  - now rewrite orb_false_r.
  - rewrite IH, on_update_pending. now rewrite orb_assoc.
Qed.

Lemma batch_frame (us : list Update) (st : Loop) :
  isReady (fold_left (on_update opts ignore) us st) = isReady st
  /\ interrupted (fold_left (on_update opts ignore) us st) = interrupted st
  /\ html (fold_left (on_update opts ignore) us st) = html st
  /\ building (fold_left (on_update opts ignore) us st) = building st
  /\ dispatched (fold_left (on_update opts ignore) us st) = dispatched st
  /\ count is_spawn (trace (fold_left (on_update opts ignore) us st))
     = count is_spawn (trace st).
Proof.
  revert st. induction us as [|u us IH]; intro st; cbn [fold_left].
  - repeat split.
  - destruct (IH (on_update opts ignore st u)) as (a & b & c & d & e & f).
    destruct (on_update_frame st u) as (a' & b' & c' & d' & e' & f').
    repeat split; congruence.
Qed.

(** The conditions of relevance, spelled out. *)
Lemma relevant_iff (u : Update) :
  relevant ignore u = true <->
  IsDir u = false /\ WasRemoved u = false
  /\ (forall re, ignore = Some re -> re (Name u) = false)
  /\ (ToLower (filepath.Ext (Name u)) = ".js"
      \/ ToLower (filepath.Ext (Name u)) = ".css").
Proof.
  unfold relevant, ignored, has_content_ext.
  rewrite !andb_true_iff, !negb_true_iff, orb_true_iff, !String.eqb_eq.
  split.
  - intros (((Hd & Hr) & Hi) & He). repeat split; auto.
    intros re ->. exact Hi.
  - intros (Hd & Hr & Hi & He). repeat split; auto.
    destruct ignore as [re|]; auto.
Qed.

End ClassifierFacts.

(** C5.  A batch of source-tree events leaves the rebuild pending
    exactly when it was pending already or one of its events is
    relevant; an event is relevant if and only if it is not a
    directory, was not a removal, its name is not matched by the
    compiled exclusion pattern (if there is one), and its extension,
    in lower case, is [.js] or [.css]; a template event always marks
    the rebuild pending. *)
Theorem classifier_marks_pending :
  forall (opts : Options) (ignore : option (string -> bool)) (st : Loop),
    (forall us,
        pending (select opts ignore st (Stim (SourceChanged us)))
        = pending st || existsb (relevant ignore) us)
    /\ (forall u,
        pending (on_update opts ignore st u) = pending st || relevant ignore u)
    /\ (forall u,
        relevant ignore u = true <->
        IsDir u = false /\ WasRemoved u = false
        /\ (forall re, ignore = Some re -> re (Name u) = false)
        /\ (ToLower (filepath.Ext (Name u)) = ".js"
            \/ ToLower (filepath.Ext (Name u)) = ".css"))
    /\ (forall tf,
        pending (select opts ignore st (Stim (TemplateChanged tf))) = true).
Proof.
  intros opts ignore st. split; [|split; [|split]].
  - intro us. cbn [select]. apply batch_pending.
  - apply on_update_pending.
  - apply relevant_iff.
  - intro tf. cbn [select]. destruct (has_template opts); [|reflexivity].
    destruct (loadHtml (OptTemplate opts) tf) as [h [e|]]; reflexivity.
Qed.

(** ** The scheduler *)

Section SchedulerFacts.
Variable opts : Options.
Variable ignore : option (string -> bool).

#[local] Abbreviation select' := (select opts ignore).
#[local] Abbreviation iteration' := (iteration opts ignore).
#[local] Abbreviation loop' := (loop opts ignore).

(** What a stimulus does to the variables of the scheduler. *)
Lemma select_stim (st : Loop) (s : Stimulus) :
  interrupted (select' st (Stim s)) = interrupted st
  /\ dispatched (select' st (Stim s)) = dispatched st
  /\ count is_spawn (trace (select' st (Stim s))) = count is_spawn (trace st)
  /\ isReady (select' st (Stim s))
     = match s with BuildCompleted => true | _ => isReady st end
  /\ pending (select' st (Stim s)) = pending st || is_change ignore s
  /\ building (select' st (Stim s))
     = match s with
       | BuildCompleted => Nat.pred (building st)
       | _ => building st
       end.
Proof.
  destruct s as [us|tf|]; cbn [select is_change].
  - destruct (batch_frame opts ignore us st) as (a & b & c & d & e & f).
    rewrite batch_pending. repeat split; assumption.
  - rewrite orb_true_r.
    assert (Hv : forall es st0,
               count is_spawn (trace (say (vlog opts es) st0))
               = count is_spawn (trace st0)).
    { intros es st0. cbn [trace say]. unfold count, vlog.
      destruct (OptVerbose opts); rewrite filter_app, length_app; cbn; lia. }
    destruct (has_template opts); [|repeat split].
    destruct (loadHtml (OptTemplate opts) tf) as [h [e|]];
      repeat split; cbn [trace say set_html];
      try (unfold count; rewrite filter_app, length_app; cbn [elog filter is_spawn length]);
      try (fold (count is_spawn (trace (say (vlog opts
             ["Detected change of HTML template:"; OptTemplate opts])
             (set_pending true st))))); rewrite ?Hv; cbn; try lia.
    all: unfold count, vlog; destruct (OptVerbose opts);
      rewrite ?filter_app, ?length_app; cbn; lia.
  - rewrite orb_false_r. repeat split. cbn [trace say].
    unfold count, vlog.
    destruct (OptVerbose opts); rewrite filter_app, length_app; cbn; lia.
Qed.

Lemma count_snoc_spawn (es : list Effect) :
  count is_spawn (es ++ [Spawn]) = S (count is_spawn es).
Proof. unfold count. rewrite filter_app, length_app. cbn. lia. Qed.

(** What the test after the [select] does. *)
Lemma tick_spec (st : Loop) :
  interrupted (tick st) = interrupted st
  /\ html (tick st) = html st
  /\ isReady (tick st) = isReady st && negb (dispatches st)
  /\ pending (tick st) = pending st && negb (dispatches st)
  /\ dispatched (tick st) = dispatched st + (if dispatches st then 1 else 0)
  /\ building (tick st) = building st + (if dispatches st then 1 else 0)
  /\ trace (tick st) = trace st ++ (if dispatches st then [Spawn] else []).
Proof.
  unfold tick. destruct (dispatches st) eqn:D; cbn.
  - repeat split; try lia; now rewrite ?andb_false_r.
  - rewrite !andb_true_r, !Nat.add_0_r, app_nil_r. repeat split.
Qed.

Lemma iteration_in_step (st : Loop) (s : Stimulus) :
  in_step st -> in_step (iteration' st (Stim s)).
Proof.
  intros (Hi & Hb & Hc). unfold iteration, in_step.
  destruct (select_stim st s) as (a & b & c & d & e & f).
  destruct (tick_spec (select' st (Stim s))) as (a' & _ & c' & _ & e' & f' & g').
  rewrite a', c', e', f', g', a, b, f, d. clear a' c' e' f' g'.
  assert (D : dispatches (select' st (Stim s))
              = match s with BuildCompleted => true | _ => isReady st end
                && (pending st || is_change ignore s)).
  { unfold dispatches. rewrite a, d, e, Hi. now rewrite andb_true_r. }
  rewrite D. clear D. rewrite Hb. split; [assumption|].
  destruct s, (isReady st), (pending st || is_change ignore _);
    cbv beta iota delta [andb negb];
    rewrite ?app_nil_r, ?count_snoc_spawn, ?c; cbn [Nat.pred]; split; lia.
Qed.

Lemma loop_in_step (ss : list Stimulus) (st : Loop) :
  in_step st -> in_step (loop' (map Stim ss) st).
Proof.
  revert st. induction ss as [|x ss IH]; intros st H; cbn [map loop].
  - assumption.
  - destruct H as (Hi & Hb). rewrite Hi.
    apply IH. apply iteration_in_step. split; assumption.
Qed.

Lemma start_in_step (html0 : string) : in_step (start html0).
Proof. repeat split. Qed.

Lemma loop_dispatched_le (ss : list Stimulus) (st : Loop) :
  in_step st ->
  dispatched (loop' (map Stim ss) st) <= dispatched st + List.length ss.
Proof.
  revert st. induction ss as [|x ss IH]; intros st H; cbn [map loop List.length].
  - lia.
  - pose proof (iteration_in_step st x H) as H'.
    destruct H as (Hi & Hb). rewrite Hi.
    specialize (IH _ H').
    unfold iteration in IH at 2.
    destruct (tick_spec (select' st (Stim x))) as (_ & _ & _ & _ & e' & _).
    destruct (select_stim st x) as (_ & b & _).
    rewrite e', b in IH.
    destruct (dispatches (select' st (Stim x))); lia.
Qed.

(** While a build is in flight, changes only accumulate in [pending]. *)
Lemma burst_in_flight (burst : list Stimulus) (st : Loop) :
  in_step st -> isReady st = false ->
  forallb (is_change ignore) burst = true ->
  let st' := loop' (map Stim burst) st in
  isReady st' = false /\ dispatched st' = dispatched st
  /\ pending st' = pending st || negb (Nat.eqb (List.length burst) 0).
Proof.
  revert st. induction burst as [|c burst IH]; intros st H Hr Hc; cbn [map loop List.length].
  - cbn. rewrite orb_false_r. auto.
  - cbn [forallb] in Hc. apply andb_true_iff in Hc as (Hc1 & Hc2).
    pose proof (iteration_in_step st c H) as H'.
    destruct H as (Hi & Hb). rewrite Hi.
    destruct (select_stim st c) as (a & b & _ & d & e & _).
    destruct (tick_spec (select' st (Stim c))) as (_ & _ & c' & d' & e' & _).
    assert (D : dispatches (select' st (Stim c)) = false).
    { unfold dispatches. rewrite d. destruct c; try discriminate; now rewrite Hr. }
    rewrite D in *. cbn [negb] in *. rewrite andb_true_r in *.
    assert (Hr' : isReady (iteration' st (Stim c)) = false).
    { unfold iteration. rewrite c', d. destruct c; try discriminate; exact Hr. }
    destruct (IH _ H' Hr' Hc2) as (r1 & r2 & r3).
    cbv zeta in *. rewrite r1, r2, r3. unfold iteration.
    rewrite e', d', b, e, Hc1. cbn. rewrite !orb_true_r. repeat split; lia.
Qed.

End SchedulerFacts.

(** C2.  After any sequence of [SourceChanged], [TemplateChanged] and
    [BuildCompleted] stimuli, at most one build is in flight, and one
    is in flight exactly when [isReady] is false.  On the next
    stimulus a build is started exactly when [isReady && pending]
    holds after the [select]; [pending] is then cleared and [isReady]
    lowered, and [isReady] is raised again only by the completion
    signal of the build. *)
Theorem scheduler_one_build_in_flight :
  forall (opts : Options) (ignore : option (string -> bool))
         (html0 : string) (ss : list Stimulus),
    let st := loop opts ignore (map Stim ss) (start html0) in
    building st <= 1
    /\ (isReady st = false <-> building st = 1)
    /\ forall s : Stimulus,
        let st1 := select opts ignore st (Stim s) in
        let st2 := iteration opts ignore st (Stim s) in
        dispatched st2
        = dispatched st + (if isReady st1 && pending st1 then 1 else 0)
        /\ trace st2
           = trace st1 ++ (if isReady st1 && pending st1 then [Spawn] else [])
        /\ pending st2 = pending st1 && negb (isReady st1)
        /\ isReady st2 = isReady st1 && negb (pending st1)
        /\ isReady st1
           = match s with BuildCompleted => true | _ => isReady st end.
Proof.
  intros opts ignore html0 ss st.
  pose proof (loop_in_step opts ignore ss _ (start_in_step html0)) as H.
  fold st in H. destruct H as (Hi & Hb & Hc).
  split; [|split].
  - rewrite Hb. destruct (isReady st); lia.
  - rewrite Hb. destruct (isReady st); split; intro; (congruence || lia).
  - intros s st1 st2. subst st1 st2. unfold iteration.
    destruct (select_stim opts ignore st s) as (a & b & _ & d & _ & _).
    destruct (tick_spec (select opts ignore st (Stim s)))
      as (_ & _ & c' & d' & e' & _ & g').
    assert (D : dispatches (select opts ignore st (Stim s))
                = isReady (select opts ignore st (Stim s))
                  && pending (select opts ignore st (Stim s))).
    { unfold dispatches. rewrite a, Hi. now rewrite andb_true_r. }
    rewrite c', d', e', g', D, b.
    repeat split; try assumption.
    + destruct (isReady (select opts ignore st (Stim s))),
        (pending (select opts ignore st (Stim s))); reflexivity.
    + destruct (isReady (select opts ignore st (Stim s))),
        (pending (select opts ignore st (Stim s))); reflexivity.
Qed.

(** C3.  After any sequence of stimuli the number of builds started is
    at most the number of stimuli (and each is in the trace).  A
    relevant change that arrives while no build is in flight starts
    exactly one build, in the same iteration.  A burst of relevant
    changes that arrives while a build is in flight starts none until
    that build completes, exactly one when it completes, and none when
    the follow-up build completes in turn. *)
Theorem scheduler_coalesces_changes :
  forall (opts : Options) (ignore : option (string -> bool))
         (html0 : string) (ss : list Stimulus),
    let st := loop opts ignore (map Stim ss) (start html0) in
    dispatched st <= List.length ss
    /\ count is_spawn (trace st) = dispatched st
    /\ (forall c : Stimulus,
           is_change ignore c = true -> isReady st = true ->
           let st' := iteration opts ignore st (Stim c) in
           dispatched st' = S (dispatched st) /\ building st' = 1
           /\ pending st' = false)
    /\ (forall burst : list Stimulus,
           burst <> [] -> forallb (is_change ignore) burst = true ->
           isReady st = false ->
           let st1 := loop opts ignore (map Stim burst) st in
           let st2 := iteration opts ignore st1 (Stim BuildCompleted) in
           let st3 := iteration opts ignore st2 (Stim BuildCompleted) in
           dispatched st1 = dispatched st
           /\ dispatched st2 = S (dispatched st) /\ building st2 = 1
           /\ dispatched st3 = S (dispatched st) /\ building st3 = 0).
Proof.
  intros opts ignore html0 ss st.
  pose proof (loop_in_step opts ignore ss _ (start_in_step html0)) as H.
  pose proof (loop_dispatched_le opts ignore ss _ (start_in_step html0)) as Hle.
  fold st in H, Hle. cbn [dispatched start] in Hle.
  split; [lia|]. split; [apply H|]. split.
  - intros c Hc Hr st'. subst st'.
    pose proof (iteration_in_step opts ignore st c H) as (_ & Hb' & _).
    destruct H as (Hi & Hb & _). unfold iteration in *.
    destruct (select_stim opts ignore st c) as (a & b & _ & d & e & _).
    destruct (tick_spec (select opts ignore st (Stim c)))
      as (_ & _ & c' & d' & e' & _).
    assert (D : dispatches (select opts ignore st (Stim c)) = true).
    { unfold dispatches. rewrite a, d, e, Hi, Hc, orb_true_r.
      destruct c; cbn; try rewrite Hr; reflexivity. }
    rewrite D in *. rewrite Hb', c', d', e', b, !andb_false_r.
    repeat split. lia.
  - intros burst Hne Hc Hr st1 st2 st3.
    pose proof (loop_in_step opts ignore burst _ H) as H1. fold st1 in H1.
    destruct (burst_in_flight opts ignore burst st H Hr Hc) as (r1 & r2 & r3).
    fold st1 in r1, r2, r3.
    assert (Hp : pending st1 = true).
    { rewrite r3. destruct burst; [congruence|]. cbn. apply orb_true_r. }
    pose proof (iteration_in_step opts ignore st1 BuildCompleted H1) as H2.
    fold st2 in H2.
    pose proof (iteration_in_step opts ignore st2 BuildCompleted H2) as H3.
    fold st3 in H3.
    destruct H1 as (Hi1 & Hb1 & _).
    assert (E2 : dispatched st2 = S (dispatched st1)
                 /\ isReady st2 = false /\ pending st2 = false).
    { subst st2. unfold iteration.
      destruct (select_stim opts ignore st1 BuildCompleted)
        as (a & b & _ & d & e & _).
      destruct (tick_spec (select opts ignore st1 (Stim BuildCompleted)))
        as (_ & _ & c' & d' & e' & _).
      assert (D : dispatches (select opts ignore st1 (Stim BuildCompleted))
                  = true).
      { unfold dispatches. rewrite a, d, e, Hi1, Hp. reflexivity. }
      rewrite D in *. rewrite c', d', e', b, !andb_false_r.
      repeat split. lia. }
    destruct E2 as (e21 & e22 & e23).
    destruct H2 as (Hi2 & Hb2 & _).
    assert (E3 : dispatched st3 = dispatched st2 /\ isReady st3 = true).
    { subst st3. unfold iteration.
      destruct (select_stim opts ignore st2 BuildCompleted)
        as (a & b & _ & d & e & _).
      destruct (tick_spec (select opts ignore st2 (Stim BuildCompleted)))
        as (_ & _ & c' & d' & e' & _).
      assert (D : dispatches (select opts ignore st2 (Stim BuildCompleted))
                  = false).
      { unfold dispatches. rewrite a, d, e, Hi2, e23. reflexivity. }
      rewrite D in *. rewrite c', e', b, d. split; [lia|reflexivity]. }
    destruct E3 as (e31 & e32).
    destruct H3 as (_ & Hb3 & _).
    rewrite Hb2, Hb3, e22, e32. repeat split; lia.
Qed.

(** ** Shutdown *)

Section ShutdownFacts.
Variable opts : Options.
Variable ignore : option (string -> bool).

Lemma loop_interrupted (ins : list Input) (st : Loop) :
  interrupted st = true -> loop opts ignore ins st = st.
Proof. intro H. destruct ins; cbn [loop]; [|rewrite H]; reflexivity. Qed.

Lemma loop_app (l1 l2 : list Input) (st : Loop) :
  loop opts ignore (l1 ++ l2) st = loop opts ignore l2 (loop opts ignore l1 st).
Proof.
  revert st. induction l1 as [|i l1 IH]; intro st; cbn [app loop].
  - reflexivity.
  - destruct (interrupted st) eqn:H; [|apply IH].
    symmetry. now apply loop_interrupted.
Qed.

(** The interrupt only raises [interrupted]. *)
Lemma iteration_interrupt (st : Loop) :
  let st' := iteration opts ignore st Interrupt in
  interrupted st' = true /\ trace st' = trace st
  /\ building st' = building st /\ dispatched st' = dispatched st
  /\ isReady st' = isReady st /\ pending st' = pending st
  /\ html st' = html st.
Proof.
  unfold iteration, tick, dispatches. cbn [select interrupted negb].
  rewrite andb_false_r. repeat split.
Qed.

(** The loop itself never closes the viewer connection. *)
Lemma select_no_ws_close (st : Loop) (i : Input) :
  count is_ws_close (trace (iteration opts ignore st i))
  = count is_ws_close (trace st).
Proof.
  assert (Hs : count is_ws_close (trace (select opts ignore st i))
               = count is_ws_close (trace st)).
  { destruct i as [[us|tf|]|]; cbn [select].
    - revert st. induction us as [|u us IH]; intro st; cbn [fold_left];
        [reflexivity|].
      rewrite IH. unfold on_update.
      destruct (negb (IsDir u) && negb (WasRemoved u)); [|reflexivity].
      destruct (ignored ignore (Name u)); [reflexivity|]. cbv zeta.
      match goal with |- context [if ?c then _ else _] => destruct c end;
        [|reflexivity].
      rewrite count_say, count_vlog by reflexivity. cbn [trace set_pending]. lia.
    - destruct (has_template opts); [|reflexivity].
      destruct (loadHtml (OptTemplate opts) tf) as [h [e|]].
      + rewrite count_say, count_elog by reflexivity. cbn [trace set_html].
        rewrite count_say, count_vlog by reflexivity.
        cbn [trace set_pending]. lia.
      + cbn [trace set_html].
        rewrite count_say, count_vlog by reflexivity.
        cbn [trace set_pending]. lia.
    - cbn [trace]. rewrite count_say, count_vlog by reflexivity. lia.
    - reflexivity. }
  unfold iteration, tick.
  destruct (dispatches (select opts ignore st i)); [|assumption].
  cbn [trace]. rewrite count_app, Hs. cbn. lia.
Qed.

Lemma loop_no_ws_close (ins : list Input) (st : Loop) :
  count is_ws_close (trace (loop opts ignore ins st))
  = count is_ws_close (trace st).
Proof.
  revert st. induction ins as [|i ins IH]; intro st; cbn [loop];
    [reflexivity|].
  destruct (interrupted st); [reflexivity|].
  rewrite IH. apply select_no_ws_close.
Qed.

End ShutdownFacts.

(** C4, as the code has it.  When the interrupt is received after any
    stimuli, [main] leaves the loop in that same iteration and
    returns: it starts no build, it does not wait for a build in
    flight (the count of builds in flight is as it was before the
    interrupt, and inputs that come later are not received), its last
    effects are the final newline on standard output, the log line
    and the closing of [done] and of the output file, and the viewer
    connection is not closed. *)
Theorem shutdown_leaves_at_once :
  forall (opts : Options) (ignore : option (string -> bool))
         (html0 : string) (ss : list Stimulus) (rest : list Input),
    let st := loop opts ignore (map Stim ss) (start html0) in
    exists st',
      devmode opts ignore html0 (map Stim ss ++ Interrupt :: rest) = Some st'
      /\ trace st'
         = trace st ++ [Print newline]
           ++ vlog opts ["Dev mode exited cleanly"] ++ [CloseDone]
           ++ (if negb (String.eqb (OptOutfile opts) EmptyString)
               then [CloseFile] else [])
      /\ dispatched st' = dispatched st
      /\ building st' = building st
      /\ isReady st' = isReady st
      /\ count is_ws_close (trace st') = 0.
Proof.
  intros opts ignore html0 ss rest st.
  pose proof (loop_in_step opts ignore ss _ (start_in_step html0)) as H.
  fold st in H. destruct H as (Hi & _).
  assert (E : loop opts ignore (map Stim ss ++ Interrupt :: rest) (start html0)
              = iteration opts ignore st Interrupt).
  { rewrite loop_app. fold st. cbn [loop]. rewrite Hi.
    apply loop_interrupted. apply iteration_interrupt. }
  destruct (iteration_interrupt opts ignore st) as (a & b & c & d & e & _).
  unfold devmode. rewrite E, a.
  eexists. split; [reflexivity|].
  cbn [trace say building dispatched isReady]. rewrite b, c, d, e.
  repeat split.
  unfold count. rewrite filter_app, length_app.
  fold (count is_ws_close (trace st)). unfold st.
  rewrite loop_no_ws_close. unfold leave, vlog.
  destruct (OptVerbose opts), (negb (OptOutfile opts =? "")%string);
    reflexivity.
Qed.

(** C4, a run that contradicts the claim: the interrupt arrives while
    the first build is in flight; [main] returns with that build still
    in flight and never receives its completion signal. *)
Lemma shutdown_does_not_wait :
  let opts := {| OptOutfile := "out.html"; OptVerbose := false;
                 OptDevport := 8082; OptTemplate := EmptyString |} in
  let tf := {| tf_stat := StatOk; tf_read := inr EmptyString |} in
  exists st',
    devmode opts None ProgHtmlTemplate
      [Stim (TemplateChanged tf); Interrupt; Stim BuildCompleted] = Some st'
    /\ building st' = 1 /\ isReady st' = false
    /\ trace st' = [Spawn; Print newline; CloseDone; CloseFile].
Proof. cbv zeta. eexists. split; [reflexivity|]. repeat split. Qed.

(** ** Reloading the template *)

(** [loadHtml] returns the empty string with every error. *)
Lemma loadHtml_error (file : string) (tf : TemplateFile) (e : error) :
  snd (loadHtml file tf) = Some e -> fst (loadHtml file tf) = EmptyString.
Proof.
  unfold loadHtml. destruct (tf_stat tf); try reflexivity.
  destruct (tf_read tf); [reflexivity|discriminate].
Qed.

(** A failed reload is logged and the loop goes on, but the
    assignment [html, err = loadHtml(OptTemplate)] has replaced the
    template text by the empty string. *)
Lemma failed_reload_assigns_html
  (opts : Options) (ignore : option (string -> bool)) (st : Loop)
  (tf : TemplateFile) (e : error) :
  has_template opts = true ->
  snd (loadHtml (OptTemplate opts) tf) = Some e ->
  let st' := select opts ignore st (Stim (TemplateChanged tf)) in
  html st' = EmptyString /\ interrupted st' = interrupted st
  /\ pending st' = true
  /\ trace st'
     = trace st
       ++ vlog opts ["Detected change of HTML template:"; OptTemplate opts]
       ++ elog [error_msg e].
Proof.
  intros Ht He. cbn [select]. rewrite Ht.
  pose proof (loadHtml_error _ _ _ He) as Hh.
  destruct (loadHtml (OptTemplate opts) tf) as [h oe].
  cbn [fst snd] in *. subst h oe.
  cbn. rewrite <- app_assoc. repeat split.
Qed.

(** C7, the code at the failing input.  The template was loaded as
    [<p>{{.CSS}}</p>]; a change of the template file is notified while
    the file is missing.  The failure is logged and the loop goes on
    and starts a build, but [html] is now empty: the text loaded
    before is lost, and the build renders the empty template. *)
Theorem failed_reload_loses_template :
  let opts := {| OptOutfile := "out.html"; OptVerbose := false;
                 OptDevport := 8082; OptTemplate := "index.tmpl" |} in
  let missing := {| tf_stat := StatNotExist; tf_read := inr EmptyString |} in
  let st := iteration opts None (start "<p>{{.CSS}}</p>")
              (Stim (TemplateChanged missing)) in
  html st = EmptyString
  /\ interrupted st = false /\ dispatched st = 1
  /\ trace st
     = [Log ERROR (ProgName ++ " [ERROR] "
                   ++ Sprintln ["index.tmpl does not exist"]); Spawn]
  /\ forall lib room tree,
      preprocess (engine := go_template lib) W64 room tree "src" (html st) 8082
      = match collect W64 room tree "src" with
        | Panics => Panics
        | Returns (inl e) => Returns (EmptyString, Some e)
        | Returns (inr _) => Returns (EmptyString, None)
        end.
Proof.
  cbv zeta. split; [reflexivity|]. split; [reflexivity|].
  split; [reflexivity|]. split; [reflexivity|].
  intros lib room tree. unfold preprocess.
  cbn [Parse Execute go_template]. cbn [html iteration select tick].
  change (GoTemplate.parse lib "html" EmptyString)
    with (@inl GoTemplate.Tmpl error
            (GoTemplate.Fragment "html" [GoTemplate.NText EmptyString])).
  destruct (collect W64 room tree "src") as [[e|b]|]; reflexivity.
Qed.

(** ** The walk of [preprocess] *)

Lemma append_nil_r (s : string) : (s ++ EmptyString)%string = s.
Proof. induction s as [|c s IH]; cbn; [reflexivity|now rewrite IH]. Qed.

Lemma append_assoc (a b c : string) :
  ((a ++ b) ++ c)%string = (a ++ (b ++ c))%string.
Proof. induction a as [|x a IH]; cbn; [reflexivity|now rewrite IH]. Qed.





Section WalkFacts.
Variable w : IntSize.
Variable room : string -> Z -> bool.

(** One visit appends its contribution to each buffer. *)
Lemma walkFn_contribution (b b' : Buffers) (v : Visit) :
  walkFn w room b v = Returns (inr b') ->
  css b' = (css b ++ contribution KCss v)%string
  /\ js b' = (js b ++ contribution KJs v)%string.
Proof.
  unfold walkFn, contribution.
  destruct (v_err v); [discriminate|].
  destruct (kind_of (v_path v)) as [k|].
  - destruct (v_open v) as [|e|content].
    + intros [= <-]. destruct k; cbn; now rewrite !append_nil_r.
    + discriminate.
    + destruct (v_size v >=? MaxInt w)%Z; [discriminate|].
      destruct (room (buffer k b) (to_int w (v_size v))); [|discriminate].
      intros [= <-]. destruct k; cbn; now rewrite !append_nil_r.
  - intros [= <-]. cbn. now rewrite !append_nil_r.
Qed.

Lemma run_walk_gather (vs : list Visit) (b b' : Buffers) :
  run_walk (walkFn w room) b vs = Returns (inr b') ->
  css b' = (css b ++ gather KCss vs)%string
  /\ js b' = (js b ++ gather KJs vs)%string.
Proof.
  revert b. induction vs as [|v vs IH]; intro b; cbn [run_walk].
  - intros [= <-]. unfold gather. cbn. now rewrite !append_nil_r.
  - destruct (walkFn w room b v) as [[e|b1]|] eqn:E; try discriminate.
    intro H. apply IH in H as (Hc & Hj).
    apply walkFn_contribution in E as (Ec & Ej).
    unfold gather in *. cbn [map concat_all].
    rewrite Hc, Hj, Ec, Ej, !append_assoc. split; reflexivity.
Qed.





(** A file that has disappeared when it is opened is skipped. *)
Lemma walkFn_vanished (v : Visit) (b : Buffers) :
  v_err v = None -> v_open v = OpenNotExist ->
  walkFn w room b v = Returns (inr b).
Proof.
  intros He Ho. unfold walkFn. rewrite He, Ho.
  destruct (kind_of (v_path v)); reflexivity.
Qed.




End WalkFacts.



(** ** The order of the walk *)

Lemma compare_as_OT (a b : string) :
  String.compare a b = String_as_OT.compare a b.
Proof.
  revert b. induction a as [|c a IH]; intros [|d b]; cbn; reflexivity.
Qed.

Lemma str_lt_trans (a b c : string) : str_lt a b -> str_lt b c -> str_lt a c.
Proof.
  unfold str_lt. rewrite !compare_as_OT.
  exact (@StrictOrder_Transitive _ _ String_as_OT.lt_strorder a b c).
Qed.

Lemma compare_refl (a : string) : String.compare a a = Eq.
Proof.
  pose proof (String.compare_antisym a a) as H.
  destruct (String.compare a a); cbn in H; congruence.
Qed.

Lemma leb_cases (a b : string) :
  String.leb a b = true <-> str_lt a b \/ a = b.
Proof.
  unfold String.leb, str_lt. split.
  - destruct (String.compare a b) eqn:E; try discriminate; intros _.
    + right. now apply String.compare_eq_iff.
    + now left.
  - intros [->| ->]; [reflexivity|]. now rewrite compare_refl.
Qed.

Lemma leb_false_lt (a b : string) : String.leb a b = false -> str_lt b a.
Proof.
  unfold String.leb, str_lt. rewrite (String.compare_antisym b a).
  destruct (String.compare a b); cbn; congruence.
Qed.

Lemma leb_trans (a b c : string) :
  String.leb a b = true -> String.leb b c = true -> String.leb a c = true.
Proof.
  rewrite !leb_cases. intros [H1| ->] [H2| ->]; auto.
  left. eapply str_lt_trans; eassumption.
Qed.

Section SortFacts.
Context {A : Type}.
Implicit Types (x : string * A) (l : list (string * A)).

Lemma insert_entry_perm x l : Permutation (x :: l) (insert_entry x l).
Proof.
  induction l as [|y l IH]; cbn [insert_entry]; [reflexivity|].
  destruct (String.leb (fst x) (fst y)); [reflexivity|].
  rewrite perm_swap. now constructor.
Qed.

Lemma sort_entries_perm l : Permutation l (sort_entries l).
Proof.
  induction l as [|x l IH]; cbn [sort_entries]; [constructor|].
  rewrite <- insert_entry_perm. now constructor.
Qed.

Lemma insert_entry_sorted x l :
  StronglySorted name_le l -> StronglySorted name_le (insert_entry x l).
Proof.
  induction 1 as [|y l Hs IH Hall]; cbn [insert_entry].
  - repeat constructor.
  - destruct (String.leb (fst x) (fst y)) eqn:E.
    + constructor; [now constructor|]. constructor; [exact E|].
      eapply Forall_impl; [|exact Hall].
      intros z Hz. unfold name_le in *. eapply leb_trans; eassumption.
    + constructor; [exact IH|].
      apply (Permutation_Forall (insert_entry_perm x l)).
      constructor; [|exact Hall].
      apply leb_cases. left. now apply leb_false_lt.
Qed.

Lemma sort_entries_sorted l : StronglySorted name_le (sort_entries l).
Proof.
  induction l as [|x l IH]; cbn [sort_entries]; [constructor|].
  now apply insert_entry_sorted.
Qed.

(** Sorted entries with distinct names are in strict order. *)
Lemma sorted_distinct_strict l :
  StronglySorted name_le l -> NoDup (map fst l) -> StronglySorted name_lt l.
Proof.
  induction 1 as [|y l Hs IH Hall]; cbn [map]; intro Hnd; [constructor|].
  apply NoDup_cons_iff in Hnd as (Hni & Hnd).
  constructor; [now apply IH|].
  rewrite Forall_forall in *. intros z Hz.
  destruct (proj1 (leb_cases _ _) (Hall z Hz)) as [Hlt|Heq]; [exact Hlt|].
  exfalso. apply Hni. rewrite Heq. now apply in_map.
Qed.

End SortFacts.

Lemma StronglySorted_app {A : Type} (R : A -> A -> Prop) (l1 l2 : list A) :
  StronglySorted R l1 -> StronglySorted R l2 ->
  (forall a b, In a l1 -> In b l2 -> R a b) ->
  StronglySorted R (l1 ++ l2).
Proof.
  induction 1 as [|x l1 Hs IH Hall]; intros H2 Hc; cbn [app]; [exact H2|].
  constructor.
  - apply IH; [exact H2|]. intros a b Ha Hb. apply Hc; [now right|exact Hb].
  - apply Forall_app. split; [exact Hall|].
    apply Forall_forall. intros b Hb. apply Hc; [now left|exact Hb].
Qed.

Lemma names_lt_cons (n : string) (l : list (list string)) :
  StronglySorted names_lt l -> StronglySorted names_lt (map (cons n) l).
Proof.
  induction 1 as [|a l Hs IH Hall]; cbn [map]; constructor; [exact IH|].
  apply Forall_map. eapply Forall_impl; [|exact Hall].
  intros b Hb. cbn. right. now split.
Qed.

(** The visits below the entries of a directory are in order when the
    entries are in strict order of names and the visits below each
    entry are in order. *)
Lemma entries_in_order (entries : list (string * FsNode)) :
  StronglySorted name_lt entries ->
  Forall (fun p => StronglySorted names_lt (names_below (snd p))) entries ->
  StronglySorted names_lt
    (flat_map (fun p => map (cons (fst p)) (names_below (snd p))) entries).
Proof.
  induction 1 as [|p entries Hs IH Hall]; intro Hch; cbn [flat_map];
    [constructor|].
  apply Forall_cons_iff in Hch as (Hp & Hch).
  apply StronglySorted_app.
  - now apply names_lt_cons.
  - now apply IH.
  - intros a b Ha Hb.
    apply in_map_iff in Ha as (a' & <- & _).
    apply in_flat_map in Hb as (q & Hq & Hb).
    apply in_map_iff in Hb as (b' & <- & _).
    cbn. left. rewrite Forall_forall in Hall. exact (Hall q Hq).
Qed.

(** Induction on a tree, with the hypothesis for every entry of a
    directory. *)
Lemma FsNode_entries_ind (P : FsNode -> Prop) :
  (forall e, P (Unreadable e)) ->
  (forall sz op, P (File sz op)) ->
  (forall sz op e, P (Unlistable sz op e)) ->
  (forall sz op entries,
      Forall (fun p => P (snd p)) entries -> P (Dir sz op entries)) ->
  forall n, P n.
Proof.
  intros HU HF HL HD. fix IH 1. intros [e|sz op|sz op e|sz op entries].
  - apply HU.
  - apply HF.
  - apply HL.
  - apply HD. induction entries as [|[name c] entries IHe]; constructor.
    + apply IH.
    + exact IHe.
Qed.

Lemma distinct_names_entries (sz : Z) (op : OpenResult)
  (entries : list (string * FsNode)) :
  distinct_names (Dir sz op entries) <->
  NoDup (map fst entries) /\ Forall (fun p => distinct_names (snd p)) entries.
Proof.
  cbn [distinct_names]. apply and_iff_compat_l.
  induction entries as [|p entries IH]; cbn [fold_right].
  - split; constructor.
  - rewrite Forall_cons_iff, IH. reflexivity.
Qed.

(** The paths of the visits are the paths of the names. *)
Lemma visits_paths (n : FsNode) :
  forall root,
    map v_path (visits root n) = map (path_of root) (names_below n).
Proof.
  induction n as [e|sz op|sz op e|sz op entries IH] using FsNode_entries_ind;
    intro root; try reflexivity.
  cbn [visits names_below map]. f_equal.
  induction IH as [|p entries Hp _ IHe]; [reflexivity|].
  cbn [flat_map]. rewrite !map_app, IHe, Hp, map_map. reflexivity.
Qed.

(** With distinct names in every directory, the walk visits the
    objects in increasing order of their names from the root. *)
Lemma walk_in_order (n : FsNode) :
  distinct_names n -> StronglySorted names_lt (names_below (sorted_tree n)).
Proof.
  induction n as [e|sz op|sz op e|sz op entries IH] using FsNode_entries_ind;
    intro Hd; [repeat constructor .. |].
  apply distinct_names_entries in Hd as (Hnd & Hch).
  cbn [sorted_tree names_below].
  set (f := fun p : string * FsNode => (fst p, sorted_tree (snd p))).
  pose proof (sort_entries_perm (map f entries)) as Hperm.
  assert (Hfst : map fst (map f entries) = map fst entries).
  { rewrite map_map. reflexivity. }
  constructor.
  - apply entries_in_order.
    + apply sorted_distinct_strict; [apply sort_entries_sorted|].
      eapply Permutation_NoDup; [apply Permutation_map, Hperm|].
      now rewrite Hfst.
    + apply (Permutation_Forall Hperm). apply Forall_map.
      rewrite Forall_forall in *. intros p Hp. cbn. auto.
  - apply Forall_forall. intros a Ha.
    apply in_flat_map in Ha as (q & _ & Ha).
    apply in_map_iff in Ha as (a' & <- & _). exact I.
Qed.

(** C10, as the code has it.  When the walk ends without an error,
    each buffer holds, after its opening tag, the contents of the files
    of its kind in the order of the visits of [filepath.Walk]; a file
    that has disappeared when it is opened adds nothing and stops
    nothing.  The visits follow the names from the root: a directory
    comes before what it contains, and all that is below an entry
    comes before the next entry in sorted order of names.  This is
    the order of paths compared name by name. *)
Theorem buffers_follow_walk_order :
  forall (w : IntSize) (room : string -> Z -> bool) (tree : FsNode)
         (indir : string) (b : Buffers),
    collect w room tree indir = Returns (inr b) ->
    distinct_names tree ->
    css b = (style_open ++ gather KCss (Walk indir tree))%string
    /\ js b = (script_open ++ gather KJs (Walk indir tree))%string
    /\ map v_path (Walk indir tree)
       = map (path_of indir) (names_below (sorted_tree tree))
    /\ StronglySorted names_lt (names_below (sorted_tree tree))
    /\ (forall v b0,
           v_err v = None -> v_open v = OpenNotExist ->
           walkFn w room b0 v = Returns (inr b0)
           /\ contribution KCss v = EmptyString
           /\ contribution KJs v = EmptyString).
Proof.
  intros w room tree indir b Hc Hd.
  apply run_walk_gather in Hc as (Hcss & Hjs). cbn [css js] in *.
  split; [exact Hcss|]. split; [exact Hjs|].
  split; [apply visits_paths|]. split; [now apply walk_in_order|].
  intros v b0 He Ho. split; [now apply walkFn_vanished|].
  unfold contribution. rewrite Ho.
  split; match goal with |- (if ?c then _ else _) = _ => destruct c end;
    reflexivity.
Qed.

(** C10, an input that contradicts the claim: the directory [src]
    holds the file [lib.js] and the directory [lib] with the file
    [x.js].  The walk reads [lib/x.js] before [lib.js], though
    [src/lib.js] is the smaller path in byte-wise order. *)
Lemma walk_order_is_not_path_order :
  let tree :=
    Dir 4096 (Opened EmptyString)
      [("lib.js", File 1 (Opened "L"));
       ("lib", Dir 4096 (Opened EmptyString) [("x.js", File 1 (Opened "X"))])] in
  map v_path (Walk "src" tree)
  = ["src"; "src/lib"; "src/lib/x.js"; "src/lib.js"]
  /\ map v_path (by_full_path (Walk "src" tree))
     = ["src"; "src/lib"; "src/lib.js"; "src/lib/x.js"]
  /\ collect W64 sample_room tree "src"
     = Returns (inr {| js := (script_open ++ "XL")%string; css := style_open |})
  /\ gather KJs (by_full_path (Walk "src" tree)) = "LX"
  /\ (script_open ++ "XL")%string
     <> (script_open ++ gather KJs (by_full_path (Walk "src" tree)))%string.
Proof.
  cbv zeta. split; [reflexivity|]. split; [reflexivity|].
  split; [reflexivity|]. split; [reflexivity|].
  cbn. discriminate.
Qed.

(** ** Rendering *)

Module GoTemplateFacts.
Import GoTemplate.

Lemma lex_literal_then (t rest : string) :
  literal t = true ->
  lex false (t ++ "{{" ++ rest)
  = option_map (cons (TText t)) (lex true rest).
Proof.
  induction t as [|c t IH]; intro H.
  - cbn. reflexivity.
  - cbn [literal] in H. cbn [append] in *. cbn [lex].
    destruct (Ascii.eqb c "{"%char) eqn:Ec.
    + destruct t as [|c' t']; [discriminate|].
      apply andb_true_iff in H as (Hc' & Ht).
      apply negb_true_iff in Hc'. cbn [append] in *. rewrite Hc'. cbn [andb].
      rewrite (IH Ht). destruct (lex true rest); reflexivity.
    + cbn [andb]. specialize (IH H).
      destruct (t ++ String "{" (String "{" rest))%string; rewrite IH;
        destruct (lex true rest); reflexivity.
Qed.

Lemma lex_literal_end (t : string) :
  literal t = true -> lex false t = Some [TText t].
Proof.
  induction t as [|c t IH]; intro H; [reflexivity|].
  cbn [literal] in H. cbn [lex].
  destruct (Ascii.eqb c "{"%char) eqn:Ec.
  - destruct t as [|c' t']; [discriminate|].
    apply andb_true_iff in H as (Hc' & Ht).
    apply negb_true_iff in Hc'. rewrite Hc'. cbn [andb].
    rewrite (IH Ht). reflexivity.
  - cbn [andb]. rewrite (IH H). destruct t; reflexivity.
Qed.

Lemma lex_slot_action (sl : Slot) (rest : string) :
  lex true (slot_action sl ++ "}}" ++ rest)
  = option_map (cons (TAction (slot_action sl))) (lex false rest).
Proof. destruct sl; cbn; destruct (lex false rest); reflexivity. Qed.

(** A piece of literal text and the slot after it. *)
Lemma lex_piece (t : string) (sl : Slot) (rest : string) :
  literal t = true ->
  lex false (t ++ slot_text sl ++ rest)
  = option_map (fun ts => TText t :: TAction (slot_action sl) :: ts)
      (lex false rest).
Proof.
  intro Ht.
  change (t ++ slot_text sl ++ rest)%string
    with (t ++ "{{" ++ (slot_action sl ++ "}}") ++ rest)%string.
  rewrite append_assoc, (lex_literal_then _ _ Ht), lex_slot_action.
  destruct (lex false rest); reflexivity.
Qed.

(** The tokens and the nodes of a text with slots. *)
Lemma fragment_with_slots (first : string) (rest : list (Slot * string)) :
  literal first = true ->
  forallb (fun p => literal (snd p)) rest = true ->
  fragment (with_slots slot_text first rest)
  = Some (NText first
          :: flat_map (fun p => [slot_node (fst p); NText (snd p)]) rest).
Proof.
  unfold fragment. revert first.
  induction rest as [|[sl t] rest IH]; intros first Hf Hr.
  - cbn [with_slots flat_map]. now rewrite (lex_literal_end _ Hf).
  - cbn [forallb snd] in Hr. apply andb_true_iff in Hr as (Ht & Hr).
    specialize (IH t Ht Hr).
    cbn [with_slots fst snd flat_map]. rewrite (lex_piece _ _ _ Hf).
    destruct (lex false (with_slots slot_text t rest)) as [ts|];
      [|discriminate].
    cbn [option_map nodes_of_toks]. rewrite IH.
    destruct sl; reflexivity.
Qed.

(** Execution writes the data into the slots, as it is. *)
Lemma run_with_slots (first : string) (rest : list (Slot * string))
  (c j : string) :
  run_nodes
    (NText first :: flat_map (fun p => [slot_node (fst p); NText (snd p)]) rest)
    (DResult c j)
  = (with_slots (fill c j) first rest, true).
Proof.
  revert first. induction rest as [|[sl t] rest IH]; intro first.
  - cbn. now rewrite append_nil_r.
  - cbn [flat_map fst snd app with_slots]. specialize (IH t).
    cbn [run_nodes] in *. cbn [eval] in *.
    assert (E : eval (DResult c j) (slot_node sl) = Some (fill c j sl))
      by (destruct sl; reflexivity).
    rewrite E.
    destruct (run_nodes
                (flat_map (fun p => [slot_node (fst p); NText (snd p)]) rest)
                (DResult c j)) as [out ok].
    injection IH as <- ->. reflexivity.
Qed.

(** A field of any other name stops the execution. *)
Lemma run_unknown_field (ns : list Node) (f c j : string) :
  In (NField f) ns -> f <> "CSS" -> f <> "Javascript" ->
  exists out, run_nodes ns (DResult c j) = (out, false).
Proof.
  intros Hin Hc Hj. induction ns as [|n ns IH]; [contradiction|].
  cbn [run_nodes]. destruct Hin as [->|Hin].
  - cbn [eval].
    destruct (String.eqb_spec f "CSS"); [contradiction|].
    destruct (String.eqb_spec f "Javascript"); [contradiction|].
    eexists. reflexivity.
  - destruct (eval (DResult c j) n) as [s|]; [|eexists; reflexivity].
    destruct (IH Hin) as (out & ->). eexists. reflexivity.
Qed.

Lemma reload_parses :
  exists s1 s2, fragment ProgHotReloadCode = Some [NText s1; NDot; NText s2].
Proof. eexists _, _. vm_compute. reflexivity. Qed.

End GoTemplateFacts.

Lemma add_reload_text (lib : GoTemplate.Library) (port : Z) (b : Buffers) :
  add_reload (engine := go_template lib) port b
  = inr {| js := js b ++ hot_reload port; css := css b |}.
Proof.
  unfold add_reload, hot_reload. destruct (port >? 0)%Z.
  - cbn [Parse Execute go_template]. unfold GoTemplate.parse.
    destruct GoTemplateFacts.reload_parses as (s1 & s2 & ->).
    cbn. reflexivity.
  - rewrite append_nil_r. destruct b; reflexivity.
Qed.

(** C6, as the code has it.  For a template made of literal text and,
    in any number and order, the slots [{{.CSS}}] and [{{.Javascript}}]
    and the dot action [{{.}}], and a source tree the walk reads
    without an error, the output is the template with each CSS slot
    replaced by the contents of the CSS files, as they are, inside a
    style tag, each Javascript slot by the contents of the JS files
    (and the hot-reload snippet when a port is given) inside a script
    tag, and each dot action by both, between braces.  The data given
    to the template has the two fields only: a field action of any
    other name makes the rendering fail. *)
Theorem slots_receive_contents :
  forall (lib : GoTemplate.Library) (w : IntSize) (room : string -> Z -> bool)
         (tree : FsNode) (indir : string) (b : Buffers)
         (first : string) (rest : list (Slot * string)) (reloadPort : Z),
    collect w room tree indir = Returns (inr b) ->
    literal first = true ->
    forallb (fun p => literal (snd p)) rest = true ->
    preprocess (engine := go_template lib) w room tree indir
      (with_slots slot_text first rest) reloadPort
    = Returns
        (with_slots
           (fill (style_open ++ gather KCss (Walk indir tree) ++ style_close)
                 (script_open ++ gather KJs (Walk indir tree)
                  ++ hot_reload reloadPort ++ script_close))
           first rest,
         None)
    /\ (forall html ns f,
           GoTemplate.fragment html = Some ns ->
           In (GoTemplate.NField f) ns -> f <> "CSS" -> f <> "Javascript" ->
           exists out e,
             preprocess (engine := go_template lib) w room tree indir html
               reloadPort
             = Returns (out, Some e)).
Proof.
  intros lib w room tree indir b first rest reloadPort Hc Hfirst Hrest.
  pose proof (run_walk_gather w room _ _ _ Hc) as (Hcss & Hjs).
  cbn [css js] in *.
  split.
  - unfold preprocess. cbn [Parse Execute go_template].
    unfold GoTemplate.parse.
    rewrite (GoTemplateFacts.fragment_with_slots _ _ Hfirst Hrest), Hc.
    rewrite add_reload_text. cbn [css js GoTemplate.execute].
    rewrite GoTemplateFacts.run_with_slots, Hcss, Hjs, !append_assoc.
    reflexivity.
  - intros html ns f Hp Hin Hf1 Hf2. unfold preprocess.
    cbn [Parse Execute go_template]. unfold GoTemplate.parse.
    rewrite Hp, Hc, add_reload_text. cbn [css js GoTemplate.execute].
    destruct (GoTemplateFacts.run_unknown_field ns f
                (css b ++ style_close)
                ((js b ++ hot_reload reloadPort) ++ script_close)
                Hin Hf1 Hf2) as (out & ->).
    eexists _, _. reflexivity.
Qed.

(** C6, inputs that contradict the claim: a template with neither
    slot, whose dot action receives the contents of the CSS file and
    of the JS file; and a template with the two slots after a field
    that the data does not have, for which nothing is rendered. *)
Lemma dot_action_receives_contents :
  preprocess (engine := go_template sample_library) W64 sample_room
    sample_tree "src" "<p>{{.}}</p>" 0
  = Returns
      (("<p>{" ++ style_open ++ "body{color:red}" ++ style_close ++ " "
        ++ script_open ++ "console.log(1)" ++ script_close ++ "}</p>")%string,
       None)
  /\ exists e,
      preprocess (engine := go_template sample_library) W64 sample_room
        sample_tree "src" "{{.Title}}{{.CSS}}{{.Javascript}}" 0
      = Returns (EmptyString, Some e).
Proof. split; [reflexivity|]. eexists. reflexivity. Qed.

(** ** The build goroutine *)

Section BuildFacts.
Context {engine : TemplateEngine}.
Variable w : IntSize.
Variable room : string -> Z -> bool.
Variable opts : Options.
Variable OpenBrowserCommand : string.
Variable inputdir : string.

#[local] Abbreviation build' := (build w room opts OpenBrowserCommand inputdir).
#[local] Abbreviation render' := (render w room opts OpenBrowserCommand inputdir).
#[local] Abbreviation pre' :=
  (fun env html => preprocess w room (source_tree env) inputdir html (port opts)).

(** Writing at the start of an emptied file leaves exactly what was
    written. *)
Lemma Write_fresh (f : OSFile) (b : string) :
  f_data (Write (Seek0 (Truncate0 f)) b) = b.
Proof.
  unfold Write. cbn [f_off f_data Seek0 Truncate0 take zeros Nat.sub
                       String.length Nat.add append].
  destruct b; cbn [String.length drop]; now rewrite append_nil_r.
Qed.

(** The notification leaves the output file alone and sends nothing
    on [ready]. *)
Lemma notify_spec (env : BuildEnv) (p : Z) (wd : World) :
  outfile (notify opts OpenBrowserCommand env p wd) = outfile wd
  /\ exists es,
      effects (notify opts OpenBrowserCommand env p wd) = effects wd ++ es
      /\ count is_ready es = 0 /\ count is_panic es = 0.
Proof.
  unfold notify. destruct (served wd); cbn [negb].
  - destruct (ProgWebSocket wd).
    + destruct (ws_write_err env); (split; [reflexivity|]);
        cbn [effects emit]; rewrite <- ?app_assoc;
        eexists; (split; [reflexivity|split; reflexivity]).
    + split; [reflexivity|]. eexists. split; [reflexivity|].
      split; reflexivity.
  - destruct (browser_err env); (split; [reflexivity|]);
      cbn [effects emit set_served]; rewrite <- ?app_assoc;
      eexists; (split; [reflexivity|]).
    + split; reflexivity.
    + rewrite !count_app, !count_vlog by reflexivity. split; reflexivity.
Qed.

Lemma write_out_spec (b : string) (wd : World) :
  outfile (write_out opts b wd)
  = (if has_outfile opts then Write (outfile wd) b else outfile wd)
  /\ exists es,
      effects (write_out opts b wd) = effects wd ++ es
      /\ count is_ready es = 0 /\ count is_error_log es = 0
      /\ count is_panic es = 0.
Proof.
  unfold write_out. destruct (has_outfile opts).
  - split; [reflexivity|]. exists []. now rewrite app_nil_r.
  - destruct b.
    + split; [reflexivity|]. exists []. now rewrite app_nil_r.
    + split; [reflexivity|]. eexists. repeat split.
Qed.

(** The rendering part, when [preprocess] returns: what it does to
    the output file, and that it logs an error when [preprocess] fails
    and sends nothing on [ready].  It panics when [preprocess] does. *)
Lemma render_spec (env : BuildEnv) (html : string) (wd : World) :
  match render' env html wd with
  | Panics => pre' env html = Panics
  | Returns wd' =>
      pre' env html <> Panics
      /\ outfile wd'
         = (if has_outfile opts then Write (outfile wd) (written (pre' env html))
            else outfile wd)
      /\ exists es,
          effects wd' = effects wd ++ es
          /\ count is_ready es = 0 /\ count is_panic es = 0
          /\ (returned (pre' env html) <> None -> 1 <= count is_error_log es)
  end.
Proof.
  unfold render.
  destruct (preprocess w room (source_tree env) inputdir html (port opts))
    as [[out perr]|]; [|reflexivity].
  cbn [written returned]. split; [discriminate|].
  destruct (write_out_spec out wd) as (Ho & es & He & Hr & _ & Hp).
  destruct perr as [e|].
  - cbn [outfile emit effects]. split; [exact Ho|].
    rewrite He, <- app_assoc. eexists. split; [reflexivity|].
    rewrite !count_app, Hr, Hp. split; [reflexivity|]. split; [reflexivity|].
    intros _. rewrite count_elog' . lia.
  - destruct (port opts >? 0)%Z.
    + destruct (notify_spec env (port opts) (write_out opts out wd))
        as (Hn & es' & He' & Hr' & Hp').
      rewrite Hn. split; [exact Ho|].
      rewrite He', He, <- app_assoc. eexists. split; [reflexivity|].
      rewrite !count_app, Hr, Hr', Hp, Hp'.
      split; [reflexivity|]. split; [reflexivity|congruence].
    + cbn [outfile emit effects]. split; [exact Ho|].
      rewrite He, <- app_assoc. eexists. split; [reflexivity|].
      rewrite !count_app, Hr, Hp.
      split; [reflexivity|]. split; [reflexivity|congruence].
Qed.

Lemma sync_spec (env : BuildEnv) (wd : World) :
  outfile (sync opts env wd) = outfile wd
  /\ exists es,
      effects (sync opts env wd) = effects wd ++ es
      /\ count is_ready es = 0 /\ count is_panic es = 0.
Proof.
  unfold sync. destruct (sync_err env).
  - split; [reflexivity|]. eexists. split; [reflexivity|]. split; reflexivity.
  - split; [reflexivity|]. exists []. now rewrite app_nil_r.
Qed.

(** A run that fails returns, and so does a run that gets to the
    notification. *)
Lemma fails_not_panics (env : BuildEnv) (html : string) (wd : World) :
  build_fails w room opts inputdir env html wd = true ->
  build_panics w room opts inputdir env html wd = false.
Proof.
  unfold build_fails, build_panics.
  destruct (prepare opts env wd) as [[wd1 [e|]] deferred]; [reflexivity|].
  destruct (preprocess w room (source_tree env) inputdir html (port opts))
    as [[out perr]|]; [reflexivity|discriminate].
Qed.

(** The whole goroutine: the bytes of the output file afterwards, the
    one signal on [ready] of a run that returns and the end of the
    process when it does not, and the error line of a failed run. *)
Lemma build_spec (env : BuildEnv) (html : string) (wd : World) :
  f_data (outfile (build' env html wd))
  = (if has_outfile opts then
       match truncate_err env, seek_err env with
       | Some _, _ => f_data (outfile wd)
       | None, Some _ => EmptyString
       | None, None => written (pre' env html)
       end
     else f_data (outfile wd))
  /\ exists es,
      effects (build' env html wd) = effects wd ++ es
      /\ count is_ready es
         = (if build_panics w room opts inputdir env html wd then 0 else 1)
      /\ count is_panic es
         = (if build_panics w room opts inputdir env html wd then 1 else 0)
      /\ (build_fails w room opts inputdir env html wd = true ->
          1 <= count is_error_log es).
Proof.
  unfold build, build_fails, build_panics, prepare.
  destruct (has_outfile opts) eqn:Ho.
  - destruct (truncate_err env) as [e|].
    { split; [reflexivity|]. cbn [effects emit]. rewrite <- app_assoc.
      eexists. split; [reflexivity|]. split; [reflexivity|].
      split; [reflexivity|].
      intros _. rewrite count_app, count_elog'. lia. }
    destruct (seek_err env) as [e|].
    { split; [reflexivity|]. cbn [effects emit set_outfile].
      rewrite <- app_assoc.
      eexists. split; [reflexivity|]. split; [reflexivity|].
      split; [reflexivity|].
      intros _. rewrite count_app, count_elog'. lia. }
    set (wd1 := set_outfile (Seek0 (outfile (set_outfile (Truncate0 (outfile wd)) wd)))
                  (set_outfile (Truncate0 (outfile wd)) wd)).
    pose proof (render_spec env html wd1) as HR.
    destruct (render' env html wd1) as [wd2|].
    + destruct HR as (Hnp & Hf & es & He & Hr & Hp & Hl).
      destruct (sync_spec env (emit [SendReady] wd2))
        as (Hs & es' & He' & Hr' & Hp').
      rewrite Hs, He'. cbn [outfile emit effects]. rewrite Hf, He, Ho.
      split; [apply Write_fresh|].
      rewrite <- !app_assoc. eexists. split; [reflexivity|].
      rewrite !count_app, Hr, Hr', Hp, Hp'.
      destruct (preprocess w room (source_tree env) inputdir html (port opts))
        as [[out perr]|]; [|congruence].
      split; [reflexivity|]. split; [reflexivity|].
      intro Hfail. apply Nat.le_trans with (count is_error_log es); [|lia].
      apply Hl. cbn [returned] in *. destruct perr; [discriminate|discriminate Hfail].
    + rewrite HR. cbn [written]. cbn [outfile emit].
      destruct (sync_spec env wd1) as (Hs & es' & He' & Hr' & Hp').
      rewrite Hs. split; [reflexivity|].
      cbn [effects emit]. rewrite He', <- !app_assoc.
      eexists. split; [reflexivity|].
      rewrite !count_app, Hr', Hp'.
      split; [reflexivity|]. split; [reflexivity|]. discriminate.
  - pose proof (render_spec env html wd) as HR.
    destruct (render' env html wd) as [wd2|].
    + destruct HR as (Hnp & Hf & es & He & Hr & Hp & Hl).
      cbn [outfile emit effects]. rewrite Hf, He, Ho.
      split; [reflexivity|].
      rewrite <- !app_assoc. eexists. split; [reflexivity|].
      rewrite !count_app, Hr, Hp.
      destruct (preprocess w room (source_tree env) inputdir html (port opts))
        as [[out perr]|]; [|congruence].
      split; [reflexivity|]. split; [reflexivity|].
      intro Hfail. apply Nat.le_trans with (count is_error_log es); [|lia].
      apply Hl. cbn [returned] in *. destruct perr; [discriminate|discriminate Hfail].
    + rewrite HR. cbn [outfile emit effects].
      split; [reflexivity|].
      eexists. split; [reflexivity|].
      split; [reflexivity|]. split; [reflexivity|]. discriminate.
Qed.

(** When no output file is named or it cannot be truncated, the build
    leaves the output file as it is. *)
Lemma build_untouched (env : BuildEnv) (html : string) (wd : World) :
  has_outfile opts = false \/ truncate_err env <> None ->
  outfile (build' env html wd) = outfile wd.
Proof.
  intro H. unfold build, prepare.
  destruct (has_outfile opts) eqn:Ho.
  - destruct (truncate_err env); [reflexivity|].
    destruct H; congruence.
  - pose proof (render_spec env html wd) as HR.
    destruct (render' env html wd) as [wd2|]; [|reflexivity].
    destruct HR as (_ & Hf & _).
    cbn [outfile emit]. now rewrite Hf, Ho.
Qed.

(** Without an output file the effects of a build do not depend on
    what came before. *)
Lemma build_stream (env : BuildEnv) (html : string) :
  has_outfile opts = false ->
  exists out, forall wd, effects (build' env html wd) = effects wd ++ out.
Proof.
  intro Ho. unfold build, prepare, render, write_out, port. rewrite Ho.
  destruct (preprocess w room (source_tree env) inputdir html 0)
    as [[[|c out] [e|]]|]; cbn [Z.gtb Z.compare];
    eexists; intro wd; cbn [effects emit]; rewrite <- ?app_assoc;
    reflexivity.
Qed.

End BuildFacts.

(** C8.  With the same directory contents, template text and port,
    running the build a second time leaves the output file with the
    same bytes as the first run did, and these are the bytes
    [preprocess] writes for these inputs when the file could be
    emptied and rewound; without an output file each run sends the
    same output to standard output, whatever came before. *)
Theorem rebuild_is_idempotent :
  forall (engine : TemplateEngine) (w : IntSize) (room : string -> Z -> bool)
         (opts : Options) (OpenBrowserCommand inputdir : string)
         (env : BuildEnv) (html : string) (wd : World),
    let run := build w room opts OpenBrowserCommand inputdir env html in
    f_data (outfile (run (run wd))) = f_data (outfile (run wd))
    /\ (has_outfile opts = true ->
        truncate_err env = None -> seek_err env = None ->
        f_data (outfile (run wd))
        = written (preprocess w room (source_tree env) inputdir html
                     (OptDevport opts)))
    /\ (has_outfile opts = false ->
        exists out,
          effects (run wd) = effects wd ++ out
          /\ effects (run (run wd)) = (effects wd ++ out) ++ out).
Proof.
  intros engine w room opts cmd inputdir env html wd run. subst run.
  destruct (build_spec w room opts cmd inputdir env html wd) as (H1 & _).
  destruct (build_spec w room opts cmd inputdir env html
              (build w room opts cmd inputdir env html wd)) as (H2 & _).
  split; [|split].
  - rewrite H2, H1.
    destruct (has_outfile opts); [|reflexivity].
    destruct (truncate_err env); [reflexivity|].
    destruct (seek_err env); reflexivity.
  - intros Ho Ht Hs. rewrite H1, Ho, Ht, Hs. unfold port. now rewrite Ho.
  - intro Ho.
    destruct (build_stream w room opts cmd inputdir env html Ho)
      as (out & Hout).
    exists out. split; [apply Hout|]. now rewrite !Hout.
Qed.

(** C1, as the code has it.  When a run of the build fails, an error
    line is logged and the signal on [ready] is still sent, once, so
    that the loop raises [isReady] again.  The bytes of the output
    file are left as they were only when no output file is named or
    the file cannot be truncated; otherwise the file was emptied
    before [preprocess] ran, and it holds what the failed rendering
    wrote: nothing when the template does not parse or the walk
    fails. *)
Theorem failed_build_reports_and_signals :
  forall (engine : TemplateEngine) (w : IntSize) (room : string -> Z -> bool)
         (opts : Options) (OpenBrowserCommand inputdir : string)
         (env : BuildEnv) (html : string) (wd : World),
    build_fails w room opts inputdir env html wd = true ->
    let wd' := build w room opts OpenBrowserCommand inputdir env html wd in
    (exists es,
        effects wd' = effects wd ++ es
        /\ 1 <= count is_error_log es /\ count is_ready es = 1)
    /\ (forall lopts ignore st,
           isReady (select lopts ignore st (Stim BuildCompleted)) = true)
    /\ (has_outfile opts = false \/ truncate_err env <> None ->
        outfile wd' = outfile wd)
    /\ (has_outfile opts = true -> truncate_err env = None ->
        f_data (outfile wd')
        = match seek_err env with
          | Some _ => EmptyString
          | None =>
              written (preprocess w room (source_tree env) inputdir html
                         (OptDevport opts))
          end)
    /\ (forall e,
           Parse "html" html = inr e
           \/ collect w room (source_tree env) inputdir = Returns (inl e) ->
           written (preprocess w room (source_tree env) inputdir html
                      (OptDevport opts))
           = EmptyString).
Proof.
  intros engine w room opts cmd inputdir env html wd Hfail wd'. subst wd'.
  destruct (build_spec w room opts cmd inputdir env html wd)
    as (Hd & es & He & Hr & _ & Hl).
  rewrite (fails_not_panics w room opts inputdir env html wd Hfail) in Hr.
  split; [|split; [|split; [|split]]].
  - exists es. auto.
  - reflexivity.
  - apply build_untouched.
  - intros Ho Ht. rewrite Hd, Ho, Ht. unfold port. rewrite Ho.
    destruct (seek_err env); reflexivity.
  - intros e [Hp|Hw]; unfold preprocess.
    + now rewrite Hp.
    + rewrite Hw. destruct (Parse "html" html); reflexivity.
Qed.

(** C1, an input that contradicts the claim: the output file holds the
    page of the last build when the template is changed to a text
    with an unclosed action.  The build fails, and the output file is
    left empty. *)
Lemma failed_build_empties_artifact :
  let opts := {| OptOutfile := "out.html"; OptVerbose := false;
                 OptDevport := 8082; OptTemplate := "index.tmpl" |} in
  let env := {| truncate_err := None; seek_err := None; sync_err := None;
                source_tree := Dir 4096 (Opened EmptyString)
                                 [("a.css", File 15 (Opened "body{color:red}"))];
                browser_err := None; ws_write_err := None |} in
  let wd := {| outfile := {| f_data := "<p>the page</p>"; f_off := 15 |};
               served := true; ProgWebSocket := true; effects := [] |} in
  let wd' := build (engine := go_template sample_library) W64 sample_room opts
               "xdg-open" "src" env "<p>{{.CSS</p>" wd in
  build_fails (engine := go_template sample_library) W64 sample_room opts "src"
    env "<p>{{.CSS</p>" wd
  = true
  /\ f_data (outfile wd') = EmptyString
  /\ f_data (outfile wd') <> f_data (outfile wd).
Proof. cbv zeta. repeat split. cbn. discriminate. Qed.

(** ** The properties on sample inputs *)

(** The failed build of a template with an unclosed action. *)
Lemma failed_build_witness :
  build_fails (engine := go_template sample_library) W64 sample_room
    sample_opts "src" sample_env "<p>{{.CSS</p>" sample_world = true
  /\ exists es,
      effects (build (engine := go_template sample_library) W64 sample_room
                 sample_opts "xdg-open" "src" sample_env "<p>{{.CSS</p>"
                 sample_world)
      = effects sample_world ++ es
      /\ 1 <= count is_error_log es /\ count is_ready es = 1.
Proof.
  split; [reflexivity|].
  exact (proj1 (failed_build_reports_and_signals (go_template sample_library)
                  W64 sample_room sample_opts "xdg-open" "src" sample_env
                  "<p>{{.CSS</p>" sample_world eq_refl)).
Defined.

(** The first build is started by the first template stimulus; it is
    the only one in flight. *)
Lemma one_build_witness :
  let st := loop sample_opts None (map Stim [TemplateChanged sample_template])
              (start ProgHtmlTemplate) in
  building st <= 1 /\ (isReady st = false <-> building st = 1).
Proof.
  pose proof (scheduler_one_build_in_flight sample_opts None ProgHtmlTemplate
                [TemplateChanged sample_template]) as H.
  cbv zeta in *. exact (conj (proj1 H) (proj1 (proj2 H))).
Defined.

(** Two changes during the first build give one follow-up build. *)
Lemma coalescing_witness :
  let st := loop sample_opts None (map Stim [TemplateChanged sample_template])
              (start ProgHtmlTemplate) in
  let burst := [SourceChanged [sample_update]; SourceChanged [sample_update]] in
  burst <> [] /\ forallb (is_change None) burst = true /\ isReady st = false
  /\ let st1 := loop sample_opts None (map Stim burst) st in
     let st2 := iteration sample_opts None st1 (Stim BuildCompleted) in
     let st3 := iteration sample_opts None st2 (Stim BuildCompleted) in
     dispatched st1 = dispatched st
     /\ dispatched st2 = S (dispatched st) /\ building st2 = 1
     /\ dispatched st3 = S (dispatched st) /\ building st3 = 0.
Proof.
  cbv zeta.
  split; [discriminate|]. split; [reflexivity|]. split; [reflexivity|].
  apply (proj2 (proj2 (proj2
           (scheduler_coalesces_changes sample_opts None ProgHtmlTemplate
              [TemplateChanged sample_template])))
           [SourceChanged [sample_update]; SourceChanged [sample_update]]).
  - discriminate.
  - reflexivity.
  - reflexivity.
Defined.

(** A change of [App.JS] is relevant. *)
Lemma classifier_witness :
  relevant None sample_update = true
  /\ pending (select sample_opts None (start ProgHtmlTemplate)
                (Stim (SourceChanged [sample_update]))) = true.
Proof.
  destruct (classifier_marks_pending sample_opts None (start ProgHtmlTemplate))
    as (H1 & _ & H3 & _).
  split.
  - apply H3. repeat split.
    + intros re H. discriminate H.
    + left. reflexivity.
  - rewrite H1. reflexivity.
Defined.

(** The first scenario, with the default template. *)
Lemma slots_witness :
  collect W64 sample_room sample_tree "src"
  = Returns (inr {| js := (script_open ++ "console.log(1)")%string;
                    css := (style_open ++ "body{color:red}")%string |})
  /\ literal html_head = true
  /\ forallb (fun p => literal (snd p))
       [(SlotCSS, html_body); (SlotJavascript, html_foot)] = true
  /\ with_slots slot_text html_head
       [(SlotCSS, html_body); (SlotJavascript, html_foot)]
     = ProgHtmlTemplate
  /\ preprocess (engine := go_template sample_library) W64 sample_room
       sample_tree "src"
       (with_slots slot_text html_head
          [(SlotCSS, html_body); (SlotJavascript, html_foot)]) 0
     = Returns
         ((html_head
           ++ (style_open ++ "body{color:red}" ++ style_close)
           ++ html_body
           ++ (script_open ++ "console.log(1)" ++ script_close)
           ++ html_foot)%string, None).
Proof.
  split; [reflexivity|]. split; [reflexivity|]. split; [reflexivity|].
  split; [reflexivity|].
  exact (proj1 (slots_receive_contents sample_library W64 sample_room
                  sample_tree "src" _ html_head
                  [(SlotCSS, html_body); (SlotJavascript, html_foot)] 0
                  eq_refl eq_refl eq_refl)).
Defined.

(** The output file after one and after two builds of the sample. *)
Lemma idempotence_witness :
  has_outfile sample_opts = true
  /\ let run := build (engine := go_template sample_library) W64 sample_room
                  sample_opts "xdg-open" "src" sample_env "<p>{{.CSS}}</p>" in
     f_data (outfile (run (run sample_world)))
     = f_data (outfile (run sample_world))
     /\ f_data (outfile (run sample_world))
        = written (preprocess (engine := go_template sample_library) W64
                     sample_room sample_tree "src" "<p>{{.CSS}}</p>" 8082).
Proof.
  split; [reflexivity|].
  pose proof (rebuild_is_idempotent (go_template sample_library) W64 sample_room
                sample_opts "xdg-open" "src" sample_env "<p>{{.CSS}}</p>"
                sample_world) as H.
  cbv zeta in *. destruct H as (H1 & H2 & _).
  split; [exact H1|]. exact (H2 eq_refl eq_refl eq_refl).
Defined.


(** The buffers of the first scenario. *)
Lemma walk_order_witness :
  distinct_names sample_tree
  /\ collect W64 sample_room sample_tree "src"
     = Returns (inr {| js := (script_open ++ "console.log(1)")%string;
                       css := (style_open ++ "body{color:red}")%string |})
  /\ map v_path (Walk "src" sample_tree) = ["src"; "src/a.css"; "src/b.js"]
  /\ StronglySorted names_lt (names_below (sorted_tree sample_tree)).
Proof.
  assert (Hd : distinct_names sample_tree).
  { cbn. split; [|tauto].
    repeat constructor; cbn; intuition discriminate. }
  split; [exact Hd|]. split; [reflexivity|]. split; [reflexivity|].
  exact (proj1 (proj2 (proj2 (proj2
           (buffers_follow_walk_order W64 sample_room sample_tree "src" _
              eq_refl Hd))))).
Defined.

(* ================================================================= *)
(** * Further properties *)

(** ** The event loop on any inputs *)

Section LoopFacts.
Variable opts : Options.
Variable ignore : option (string -> bool).

(** The state of the loop without [interrupted]. *)
Lemma interrupt_keeps_step (st : Loop) :
  in_step st ->
  building (iteration opts ignore st Interrupt)
  = (if isReady (iteration opts ignore st Interrupt) then 0 else 1)
  /\ count is_spawn (trace (iteration opts ignore st Interrupt))
     = dispatched (iteration opts ignore st Interrupt).
Proof.
  intros (_ & Hb & Hc).
  destruct (iteration_interrupt opts ignore st) as (_ & b & c & d & e & _).
  rewrite b, c, d, e. split; assumption.
Qed.

Lemma iteration_interrupted (st : Loop) (i : Input) :
  interrupted (iteration opts ignore st i) = interrupted st || is_interrupt i.
Proof.
  destruct i as [s|].
  - unfold iteration.
    destruct (tick_spec (select opts ignore st (Stim s))) as (a & _).
    destruct (select_stim opts ignore st s) as (b & _).
    rewrite a, b. cbn. now rewrite orb_false_r.
  - destruct (iteration_interrupt opts ignore st) as (a & _).
    rewrite a. cbn. now rewrite orb_true_r.
Qed.

Lemma loop_interrupted_flag (ins : list Input) (st : Loop) :
  interrupted (loop opts ignore ins st)
  = interrupted st || existsb is_interrupt ins.
Proof.
  revert st. induction ins as [|i ins IH]; intro st; cbn [loop existsb].
  - now rewrite orb_false_r.
  - destruct (interrupted st) eqn:E; [exact E|].
    rewrite IH, iteration_interrupted, E. reflexivity.
Qed.

(** The test of [tick] never holds after [tick]. *)
Lemma tick_settles (st : Loop) : dispatches (tick st) = false.
Proof.
  unfold tick. destruct (dispatches st) eqn:D; [reflexivity|exact D].
Qed.

Lemma loop_settles (ins : list Input) (st : Loop) :
  dispatches st = false -> dispatches (loop opts ignore ins st) = false.
Proof.
  revert st. induction ins as [|i ins IH]; intros st H; cbn [loop];
    [exact H|].
  destruct (interrupted st); [exact H|].
  apply IH. apply tick_settles.
Qed.

Lemma loop_counts (ins : list Input) (st : Loop) :
  building st = (if isReady st then 0 else 1) ->
  count is_spawn (trace st) = dispatched st ->
  let st' := loop opts ignore ins st in
  building st' = (if isReady st' then 0 else 1)
  /\ count is_spawn (trace st') = dispatched st'
  /\ dispatched st' <= dispatched st + List.length ins.
Proof.
  revert st. induction ins as [|i ins IH]; intros st Hb Hc;
    cbn [loop List.length].
  - cbv zeta. repeat split; (assumption || lia).
  - destruct (interrupted st) eqn:Hi.
    + cbv zeta. repeat split; (assumption || lia).
    + assert (Hs : in_step st) by (repeat split; assumption).
      assert (Hn : building (iteration opts ignore st i)
                   = (if isReady (iteration opts ignore st i) then 0 else 1)
                   /\ count is_spawn (trace (iteration opts ignore st i))
                      = dispatched (iteration opts ignore st i)).
      { destruct i as [s|].
        - apply (iteration_in_step opts ignore st s Hs).
        - now apply interrupt_keeps_step. }
      destruct Hn as (Hb' & Hc').
      destruct (IH _ Hb' Hc') as (r1 & r2 & r3). cbv zeta.
      split; [exact r1|]. split; [exact r2|].
      assert (Hd : dispatched (iteration opts ignore st i) <= S (dispatched st)).
      { destruct i as [s|].
        - unfold iteration.
          destruct (tick_spec (select opts ignore st (Stim s)))
            as (_ & _ & _ & _ & e' & _).
          destruct (select_stim opts ignore st s) as (_ & b & _).
          rewrite e', b.
          destruct (dispatches (select opts ignore st (Stim s))); lia.
        - destruct (iteration_interrupt opts ignore st) as (_ & _ & _ & d & _).
          rewrite d. lia. }
      lia.
Qed.

(** A batch changes nothing when a rebuild is pending already or none
    of its events is relevant. *)
Lemma on_update_quiet (st : Loop) (u : Update) :
  pending st = true \/ relevant ignore u = false ->
  on_update opts ignore st u = st.
Proof.
  intro H. unfold on_update, relevant in *.
  destruct (negb (IsDir u) && negb (WasRemoved u)); [|reflexivity].
  destruct (ignored ignore (Name u)); [reflexivity|].
  cbn [negb andb] in H. destruct st as [r p i h b d t]. cbn in *.
  destruct H as [-> | ->].
  - reflexivity.
  - rewrite orb_false_r. destruct p; reflexivity.
Qed.

Lemma batch_quiet (us : list Update) (st : Loop) :
  pending st = true \/ existsb (relevant ignore) us = false ->
  fold_left (on_update opts ignore) us st = st.
Proof.
  induction us as [|u us IH]; intro H; cbn [fold_left]; [reflexivity|].
  cbn [existsb] in H.
  assert (Hu : pending st = true \/ relevant ignore u = false).
  { destruct H as [H|H]; [now left|].
    apply orb_false_iff in H. right. apply H. }
  rewrite (on_update_quiet st u Hu). apply IH.
  destruct H as [H|H]; [now left|].
  apply orb_false_iff in H. right. apply H.
Qed.

(** The template text after one iteration. *)
Lemma iteration_html (st : Loop) (i : Input) :
  html (iteration opts ignore st i)
  = match i with
    | Stim (TemplateChanged tf) =>
        if has_template opts
        then fst (loadHtml (OptTemplate opts) tf)
        else html st
    | _ => html st
    end.
Proof.
  unfold iteration.
  destruct (tick_spec (select opts ignore st i)) as (_ & a & _). rewrite a.
  destruct i as [[us|tf|]|]; cbn [select html]; try reflexivity.
  - apply (batch_frame opts ignore us st).
  - destruct (has_template opts); [|reflexivity].
    destruct (loadHtml (OptTemplate opts) tf) as [h [e|]]; reflexivity.
Qed.

(** Error lines of one iteration: one for a failed reload. *)
Lemma iteration_errors (st : Loop) (s : Stimulus) :
  count is_error_log (trace (iteration opts ignore st (Stim s)))
  = count is_error_log (trace st) + (if reload_fails opts s then 1 else 0).
Proof.
  assert (Hs : count is_error_log (trace (select opts ignore st (Stim s)))
               = count is_error_log (trace st)
                 + (if reload_fails opts s then 1 else 0)).
  { destruct s as [us|tf|]; cbn [select reload_fails].
    - rewrite Nat.add_0_r. revert st.
      induction us as [|u us IH]; intro st; cbn [fold_left]; [reflexivity|].
      rewrite IH. unfold on_update.
      destruct (negb (IsDir u) && negb (WasRemoved u)); [|reflexivity].
      destruct (ignored ignore (Name u)); [reflexivity|]. cbv zeta.
      match goal with |- context [if ?c then _ else _] => destruct c end;
        [|reflexivity].
      rewrite count_say, count_vlog by reflexivity.
      cbn [trace set_pending]. lia.
    - destruct (has_template opts); cbn [andb]; [|cbn [trace set_pending]; lia].
      destruct (loadHtml (OptTemplate opts) tf) as [h [e|]]; cbn [snd].
      + rewrite count_say, count_elog'. cbn [trace set_html].
        rewrite count_say, count_vlog by reflexivity.
        cbn [trace set_pending]. lia.
      + cbn [trace set_html].
        rewrite count_say, count_vlog by reflexivity.
        cbn [trace set_pending]. lia.
    - cbn [trace]. rewrite count_say, count_vlog by reflexivity. lia. }
  unfold iteration, tick.
  destruct (dispatches (select opts ignore st (Stim s))); [|exact Hs].
  cbn [trace]. rewrite count_app, Hs. cbn. lia.
Qed.

Lemma loop_errors (ss : list Stimulus) (st : Loop) :
  interrupted st = false ->
  count is_error_log (trace (loop opts ignore (map Stim ss) st))
  = count is_error_log (trace st)
    + List.length (filter (reload_fails opts) ss).
Proof.
  revert st. induction ss as [|s ss IH]; intros st Hi;
    cbn [map loop filter List.length]; [lia|].
  rewrite Hi, IH, iteration_errors.
  - destruct (reload_fails opts s); cbn [List.length]; lia.
  - now rewrite iteration_interrupted, Hi.
Qed.

End LoopFacts.

(** X1.  The dev mode returns exactly when an interrupt is among its
    inputs, and what is received after the first interrupt changes
    nothing: not the state, not the effects. *)
Theorem devmode_returns_on_interrupt :
  forall (opts : Options) (ignore : option (string -> bool))
         (html0 : string) (ins rest : list Input),
    match devmode opts ignore html0 ins with
    | Some _ => existsb is_interrupt ins = true
    | None => existsb is_interrupt ins = false
    end
    /\ devmode opts ignore html0 (ins ++ Interrupt :: rest)
       = devmode opts ignore html0 (ins ++ [Interrupt]).
Proof.
  intros opts ignore html0 ins rest. split.
  - unfold devmode.
    pose proof (loop_interrupted_flag opts ignore ins (start html0)) as H.
    cbn [interrupted start orb] in H. rewrite H.
    destruct (existsb is_interrupt ins); reflexivity.
  - unfold devmode. rewrite !loop_app.
    set (st := loop opts ignore ins (start html0)).
    cbn [loop]. destruct (interrupted st) eqn:E.
    + rewrite E. reflexivity.
    + rewrite (loop_interrupted opts ignore rest); [reflexivity|].
      now rewrite iteration_interrupted, orb_true_r.
Qed.

(** X2.  On any inputs, interrupts included: the loop has started at
    most as many builds as it received inputs, each start is in the
    trace, at most one build is in flight, and the loop is never left
    ready with a change pending unless it was interrupted. *)
Theorem loop_keeps_one_build :
  forall (opts : Options) (ignore : option (string -> bool))
         (html0 : string) (ins : list Input),
    let st := loop opts ignore ins (start html0) in
    building st = (if isReady st then 0 else 1)
    /\ count is_spawn (trace st) = dispatched st
    /\ dispatched st <= List.length ins
    /\ isReady st && pending st && negb (interrupted st) = false.
Proof.
  intros opts ignore html0 ins st.
  destruct (loop_counts opts ignore ins (start html0) eq_refl eq_refl)
    as (a & b & c).
  fold st in a, b, c. cbn [dispatched start] in c.
  split; [exact a|]. split; [exact b|]. split; [lia|].
  apply (loop_settles opts ignore ins (start html0)). reflexivity.
Qed.

(** X3.  A batch of source events none of which is relevant
    (directories, removals, ignored names, other extensions), or any
    batch received while a rebuild is pending already, leaves the
    state of the loop as it is: nothing is logged and the iteration
    is that of the test alone. *)
Theorem quiet_batch_changes_nothing :
  forall (opts : Options) (ignore : option (string -> bool))
         (st : Loop) (us : list Update),
    pending st = true \/ existsb (relevant ignore) us = false ->
    select opts ignore st (Stim (SourceChanged us)) = st
    /\ iteration opts ignore st (Stim (SourceChanged us)) = tick st.
Proof.
  intros opts ignore st us H.
  assert (E : select opts ignore st (Stim (SourceChanged us)) = st)
    by (cbn [select]; now apply batch_quiet).
  split; [exact E|]. unfold iteration. now rewrite E.
Qed.

(** X4.  The template text is the one the loop started with as long
    as every template stimulus it received came without [-template]:
    source changes, completions and interrupts never change it. *)
Theorem template_text_is_kept :
  forall (opts : Options) (ignore : option (string -> bool))
         (html0 : string) (ins : list Input),
    (forall tf, In (Stim (TemplateChanged tf)) ins ->
                has_template opts = false) ->
    html (loop opts ignore ins (start html0)) = html0.
Proof.
  intros opts ignore html0 ins.
  change html0 with (html (start html0)) at 2.
  generalize (start html0) as st.
  induction ins as [|i ins IH]; intros st H; cbn [loop]; [reflexivity|].
  destruct (interrupted st); [reflexivity|].
  rewrite IH by (intros tf Hin; apply (H tf); now right).
  rewrite iteration_html.
  destruct i as [[us|tf|]|]; try reflexivity.
  rewrite (H tf) by now left. reflexivity.
Qed.

(** X5.  The loop logs an error line for each template stimulus whose
    reload fails, and for nothing else. *)
Theorem loop_logs_failed_reloads :
  forall (opts : Options) (ignore : option (string -> bool))
         (html0 : string) (ss : list Stimulus),
    count is_error_log (trace (loop opts ignore (map Stim ss) (start html0)))
    = List.length (filter (reload_fails opts) ss).
Proof.
  intros opts ignore html0 ss.
  rewrite (loop_errors opts ignore ss (start html0) eq_refl). reflexivity.
Qed.

(** ** Builds and the viewer *)

Section NotifyFacts.
Context {engine : TemplateEngine}.
Variable w : IntSize.
Variable room : string -> Z -> bool.
Variable opts : Options.
Variable OpenBrowserCommand : string.
Variable inputdir : string.

#[local] Abbreviation run' := (build w room opts OpenBrowserCommand inputdir).
#[local] Abbreviation fails' := (build_fails w room opts inputdir).
#[local] Abbreviation panics' := (build_panics w room opts inputdir).
#[local] Abbreviation notifies' := (notifies w room opts inputdir).
#[local] Abbreviation run_all' := (run_all w room opts OpenBrowserCommand inputdir).

#[local] Ltac count_list :=
  cbn [count filter List.length app is_serve is_browser is_ws_write
         is_ready is_error_log is_panic elog].

(** The notification after a successful [preprocess]. *)
Lemma notify_cases (env : BuildEnv) (p : Z) (wd : World) :
  exists es,
    effects (notify opts OpenBrowserCommand env p wd) = effects wd ++ es
    /\ count is_serve es = (if served wd then 0 else 1)
    /\ count is_browser es = count is_serve es
    /\ count is_ws_write es = (if served wd && ProgWebSocket wd then 1 else 0)
    /\ served (notify opts OpenBrowserCommand env p wd) = true
    /\ ProgWebSocket (notify opts OpenBrowserCommand env p wd)
       = ProgWebSocket wd
    /\ (served wd = true ->
        ProgWebSocket wd = false \/ ws_write_err env <> None ->
        1 <= count is_error_log es).
Proof.
  unfold notify. destruct (served wd) eqn:Hs; cbn [negb andb].
  - destruct (ProgWebSocket wd) eqn:Hw.
    + destruct (ws_write_err env) as [e|];
        cbn [effects emit served ProgWebSocket]; eexists;
        (split; [rewrite <- ?app_assoc; reflexivity|]);
        repeat split; try assumption.
      * intros _ _. count_list. lia.
      * intros _ [H|H]; [discriminate H|congruence].
    + cbn [effects emit served ProgWebSocket]. eexists.
      split; [reflexivity|]. repeat split; try assumption.
      intros _ _. count_list. lia.
  - unfold vlog.
    destruct (browser_err env), (OptVerbose opts);
      cbn [effects emit set_served served ProgWebSocket]; eexists;
      (split; [rewrite <- ?app_assoc; reflexivity|]);
      repeat split; discriminate.
Qed.

(** How a run of the build ends, from what it meets. *)
Lemma notifies_cases (env : BuildEnv) (html : string) (wd : World) :
  notifies' (env, html)
  = negb (fails' env html wd) && negb (panics' env html wd)
    && (port opts >? 0)%Z.
Proof.
  unfold notifies, prepared, build_fails, build_panics, prepare.
  cbn [fst snd].
  destruct (has_outfile opts).
  - destruct (truncate_err env); [reflexivity|].
    destruct (seek_err env); [reflexivity|].
    destruct (preprocess w room (source_tree env) inputdir html (port opts))
      as [[out [e|]]|]; reflexivity.
  - destruct (preprocess w room (source_tree env) inputdir html (port opts))
      as [[out [e|]]|]; reflexivity.
Qed.

Lemma crashes_cases (env : BuildEnv) (html : string) (wd : World) :
  crashes w room opts inputdir (env, html) = panics' env html wd.
Proof.
  unfold crashes, prepared, build_panics, prepare. cbn [fst snd].
  destruct (has_outfile opts); [|reflexivity].
  destruct (truncate_err env); [reflexivity|].
  destruct (seek_err env); reflexivity.
Qed.

(** What a build does for the viewer: the server and the browser are
    started by the first build that notifies, a reload message is
    written by a later one when a connection is set, and nothing of
    this is done by the others. *)
Lemma build_notifies (env : BuildEnv) (html : string) (wd : World) :
  exists es,
    effects (run' env html wd) = effects wd ++ es
    /\ count is_serve es
       = (if notifies' (env, html) && negb (served wd) then 1 else 0)
    /\ count is_browser es = count is_serve es
    /\ count is_ws_write es
       = (if notifies' (env, html) && served wd && ProgWebSocket wd
          then 1 else 0)
    /\ served (run' env html wd) = served wd || notifies' (env, html)
    /\ ProgWebSocket (run' env html wd) = ProgWebSocket wd
    /\ (notifies' (env, html) = true -> served wd = true ->
        ProgWebSocket wd = false \/ ws_write_err env <> None ->
        1 <= count is_error_log es).
Proof.
  unfold build, notifies, prepared, prepare, render, sync, write_out.
  cbn [fst snd].
  destruct (has_outfile opts) eqn:Ho.
  - destruct (truncate_err env) as [e|].
    { cbn [effects emit served ProgWebSocket andb]. eexists.
      split; [rewrite <- !app_assoc; reflexivity|].
      rewrite orb_false_r. repeat split. discriminate. }
    destruct (seek_err env) as [e|].
    { cbn [effects emit set_outfile served ProgWebSocket andb]. eexists.
      split; [rewrite <- !app_assoc; reflexivity|].
      rewrite orb_false_r. repeat split. discriminate. }
    destruct (preprocess w room (source_tree env) inputdir html (port opts))
      as [[out [e|]]|]; cbn [negb andb].
    { destruct (sync_err env);
        cbn [effects emit set_outfile served ProgWebSocket]; eexists;
        (split; [rewrite <- !app_assoc; reflexivity|]);
        rewrite orb_false_r; repeat split; discriminate. }
    { destruct (port opts >? 0)%Z; cbn [negb andb].
      + match goal with
        | |- context [notify opts OpenBrowserCommand env ?p ?x] =>
            destruct (notify_cases env p x)
              as (es & He & Hs & Hb & Hw & Hv & Hp & Hl);
            cbn [effects served ProgWebSocket set_outfile] in He, Hs, Hw, Hp, Hl
        end.
        destruct (sync_err env) as [e|];
          cbn [effects emit served ProgWebSocket]; rewrite He, Hv, Hp;
          clear He Hv Hp.
        * exists (es ++ [SendReady]
                     ++ elog ["Failed to sync outfile,"; OptOutfile opts; "-- ";
                              error_msg e]).
          rewrite <- !app_assoc. split; [reflexivity|].
          rewrite !count_app, Hb, Hs, Hw, orb_true_r.
          destruct (served wd), (ProgWebSocket wd); repeat split;
            intros; count_list; try lia.
          all: match goal with
               | H1 : true = true, H2 : _ \/ _ |- _ =>
                   specialize (Hl H1 H2); lia
               end.
        * exists (es ++ [SendReady]).
          rewrite <- !app_assoc. split; [reflexivity|].
          rewrite !count_app, Hb, Hs, Hw, orb_true_r.
          destruct (served wd), (ProgWebSocket wd); repeat split;
            intros; count_list; try lia.
          all: match goal with
               | H1 : true = true, H2 : _ \/ _ |- _ =>
                   specialize (Hl H1 H2); lia
               end.
      + destruct (sync_err env);
          cbn [effects emit set_outfile served ProgWebSocket]; eexists;
          (split; [rewrite <- !app_assoc; reflexivity|]);
          rewrite orb_false_r; repeat split; discriminate. }
    { destruct (sync_err env);
        cbn [effects emit set_outfile served ProgWebSocket]; eexists;
        (split; [rewrite <- ?app_assoc; reflexivity|]);
        rewrite orb_false_r; repeat split; discriminate. }
  - assert (Hport : port opts = 0%Z) by (unfold port; now rewrite Ho).
    rewrite Hport. cbn [Z.gtb Z.compare].
    destruct (preprocess w room (source_tree env) inputdir html 0)
      as [[[|c out] [e|]]|]; cbn [negb andb];
      cbn [effects emit served ProgWebSocket]; eexists;
      (split; [rewrite <- ?app_assoc; reflexivity|]);
      rewrite ?andb_false_r, ?orb_false_r; repeat split; discriminate.
Qed.

(** A build that returns sends on [ready] once; what comes before is
    the work of the build, what comes after is at most the error line
    of the deferred [Sync].  A build that panics sends nothing. *)
Lemma build_ready_position (env : BuildEnv) (html : string) (wd : World) :
  if panics' env html wd then
    exists before,
      effects (run' env html wd) = effects wd ++ before ++ [Panic]
      /\ count is_ready before = 0 /\ count is_panic before = 0
  else
    exists before after,
      effects (run' env html wd) = effects wd ++ before ++ [SendReady] ++ after
      /\ count is_ready before = 0 /\ count is_ready after = 0
      /\ count is_panic before = 0 /\ count is_panic after = 0
      /\ List.length after <= 1
      /\ count is_error_log after = List.length after
      /\ (after <> [] ->
          has_outfile opts = true /\ truncate_err env = None
          /\ seek_err env = None /\ sync_err env <> None).
Proof.
  assert (Hnil : forall (P : Prop), @nil Effect <> [] -> P)
    by (intros P H; exfalso; now apply H).
  unfold build, build_panics, prepare, sync.
  destruct (has_outfile opts) eqn:Ho.
  - destruct (truncate_err env) as [e|].
    { cbn [effects emit]. rewrite <- !app_assoc.
      exists (elog ["Failed to truncate outfile,"; OptOutfile opts; "-- ";
                    error_msg e]), [].
      split; [reflexivity|]. split; [reflexivity|]. split; [reflexivity|].
      split; [reflexivity|]. split; [reflexivity|].
      split; [cbn; lia|]. split; [reflexivity|]. apply Hnil. }
    destruct (seek_err env) as [e|].
    { cbn [effects emit set_outfile]. rewrite <- !app_assoc.
      exists (elog ["Failed to seek to beginning of outfile,";
                    OptOutfile opts; "-- "; error_msg e]), [].
      split; [reflexivity|]. split; [reflexivity|]. split; [reflexivity|].
      split; [reflexivity|]. split; [reflexivity|].
      split; [cbn; lia|]. split; [reflexivity|]. apply Hnil. }
    match goal with
    | |- context [render w room opts OpenBrowserCommand inputdir env html ?x] =>
        pose proof (render_spec w room opts OpenBrowserCommand inputdir env html x)
          as HR;
        destruct (render w room opts OpenBrowserCommand inputdir env html x)
          as [wd2|]
    end.
    + destruct HR as (Hnp & _ & es & He & Hr & Hp & _).
      destruct (preprocess w room (source_tree env) inputdir html (port opts))
        as [r|]; [|congruence].
      destruct (sync_err env) as [e|]; cbn [effects emit]; rewrite He;
        cbn [effects set_outfile]; clear He; rewrite <- !app_assoc.
      * exists es, (elog ["Failed to sync outfile,"; OptOutfile opts; "-- ";
                          error_msg e]).
        split; [reflexivity|]. split; [exact Hr|]. split; [reflexivity|].
        split; [exact Hp|]. split; [reflexivity|].
        split; [cbn; lia|]. split; [reflexivity|].
        intros _. repeat split. discriminate.
      * exists es, []. split; [reflexivity|]. split; [exact Hr|].
        split; [reflexivity|]. split; [exact Hp|]. split; [reflexivity|].
        split; [cbn; lia|]. split; [reflexivity|]. apply Hnil.
    + rewrite HR.
      destruct (sync_err env) as [e|]; cbn [effects emit set_outfile];
        rewrite <- ?app_assoc.
      * exists (elog ["Failed to sync outfile,"; OptOutfile opts; "-- ";
                      error_msg e]).
        split; [reflexivity|]. split; reflexivity.
      * exists []. split; [reflexivity|]. split; reflexivity.
  - pose proof (render_spec w room opts OpenBrowserCommand inputdir env html wd)
      as HR.
    destruct (render w room opts OpenBrowserCommand inputdir env html wd)
      as [wd2|].
    + destruct HR as (Hnp & _ & es & He & Hr & Hp & _).
      destruct (preprocess w room (source_tree env) inputdir html (port opts))
        as [r|]; [|congruence].
      cbn [effects emit]. rewrite He. clear He. rewrite <- !app_assoc.
      exists es, []. split; [reflexivity|]. split; [exact Hr|].
      split; [reflexivity|]. split; [exact Hp|]. split; [reflexivity|].
      split; [cbn; lia|]. split; [reflexivity|]. apply Hnil.
    + rewrite HR. cbn [effects emit]. exists [].
      split; [reflexivity|]. split; reflexivity.
Qed.

(** Over any runs the server is started by the first that notifies,
    if it was not started before. *)
Lemma run_all_serve (runs : list (BuildEnv * string)) (wd : World) :
  exists es,
    effects (run_all' runs wd) = effects wd ++ es
    /\ count is_serve es
       = (if negb (served wd) && existsb notifies' runs then 1 else 0)
    /\ count is_browser es = count is_serve es
    /\ served (run_all' runs wd) = served wd || existsb notifies' runs.
Proof.
  revert wd. induction runs as [|[env html] runs IH]; intro wd.
  - exists []. cbn [run_all fold_left existsb].
    rewrite app_nil_r, andb_false_r, orb_false_r. repeat split.
  - unfold run_all in *. cbn [fold_left fst snd existsb].
    destruct (build_notifies env html wd)
      as (es1 & He1 & Hs1 & Hb1 & _ & Hv1 & _).
    destruct (IH (run' env html wd)) as (es2 & He2 & Hs2 & Hb2 & Hv2).
    exists (es1 ++ es2). rewrite He2, He1, <- app_assoc.
    split; [reflexivity|]. rewrite !count_app, Hb1, Hb2, Hs1, Hs2, Hv2, Hv1.
    clear.
    destruct (served wd), (notifies' (env, html)),
      (existsb notifies' runs); repeat split.
Qed.

Lemma count_interleaved (p : Effect -> bool) (a b t : list Effect) :
  interleaved a b t -> count p t = count p a + count p b.
Proof.
  unfold count. induction 1 as [|e a b t H IH|e a b t H IH];
    cbn [filter]; [reflexivity| |];
    destruct (p e); cbn [List.length]; lia.
Qed.

End NotifyFacts.

Lemma build_fails_world (engine : TemplateEngine) (w : IntSize)
  (room : string -> Z -> bool)
  (opts : Options) (inputdir : string) (env : BuildEnv) (html : string)
  (wd wd' : World) :
  build_fails w room opts inputdir env html wd
  = build_fails w room opts inputdir env html wd'.
Proof.
  unfold build_fails, prepare.
  destruct (has_outfile opts); [|reflexivity].
  destruct (truncate_err env); [reflexivity|].
  destruct (seek_err env); reflexivity.
Qed.

Section ReloadFacts.
Variable opts : Options.


(** The handler closes the connection once, at the first close read
    or at the failed read that reaches the limit, whichever comes
    first. *)
Lemma reload_loop_closes (n : nat) (rs : list ReadResult) :
  n < read_error_limit ->
  count is_ws_close (reload_loop opts n rs)
  = if existsb is_closed rs
       || Nat.leb read_error_limit (n + List.length (filter is_failed rs))
    then 1 else 0.
Proof.
  revert n. induction rs as [|[e|e|t m] rs IH]; intros n Hn;
    cbn [reload_loop existsb orb filter is_closed is_failed List.length].
  - rewrite Nat.add_0_r.
    destruct (Nat.leb_spec read_error_limit n); [lia|reflexivity].
  - rewrite count_app, count_vlog by reflexivity. reflexivity.
  - destruct (Nat.leb_spec read_error_limit (S n)) as [Hl|Hl].
    + replace (Nat.leb read_error_limit
                 (n + S (List.length (filter is_failed rs)))) with true
        by (symmetry; apply Nat.leb_le; lia).
      now rewrite orb_true_r.
    + rewrite count_app, count_elog by reflexivity.
      rewrite (IH (S n) Hl), Nat.add_succ_comm. reflexivity.
  - rewrite count_app, count_vlog by reflexivity. now apply IH.
Qed.


End ReloadFacts.

(** X6.  A run of the build goroutine ends in one of two ways.  When
    [preprocess] returns, with an error or without, or is not reached,
    the goroutine gets to the send on [ready] exactly once: all its
    work comes before the signal, and after it, once the loop has
    received it, comes at most one effect of this goroutine, the error
    line of the deferred [file.Sync()], which runs only when the
    output file was emptied and rewound.  When [pbuf.Grow] panics
    in [preprocess], nothing is sent on [ready]: the deferred call
    runs and the process ends.  The line that the server goroutine
    logs when [http.ListenAndServe] fails falls anywhere among these
    effects, before or after the signal, and changes none of the
    counts. *)
Theorem build_signals_ready_once :
  forall (engine : TemplateEngine) (w : IntSize) (room : string -> Z -> bool)
         (opts : Options) (OpenBrowserCommand inputdir : string)
         (env : BuildEnv) (html : string) (wd : World),
    let panics := build_panics w room opts inputdir env html wd in
    exists es,
      effects (build w room opts OpenBrowserCommand inputdir env html wd)
      = effects wd ++ es
      /\ (if panics then
            exists before,
              es = before ++ [Panic]
              /\ count is_ready before = 0 /\ count is_panic before = 0
          else
            exists before after,
              es = before ++ [SendReady] ++ after
              /\ count is_ready before = 0 /\ count is_ready after = 0
              /\ count is_panic before = 0 /\ count is_panic after = 0
              /\ List.length after <= 1
              /\ count is_error_log after = List.length after
              /\ (after <> [] ->
                  has_outfile opts = true /\ truncate_err env = None
                  /\ seek_err env = None /\ sync_err env <> None))
      /\ (forall listen tr,
             interleaved es (serve listen) tr ->
             count is_ready tr = (if panics then 0 else 1)
             /\ count is_panic tr = (if panics then 1 else 0)).
Proof.
  intros engine w room opts cmd inputdir env html wd panics.
  pose proof (build_ready_position w room opts cmd inputdir env html wd) as H.
  fold panics in H.
  assert (Hsrv : forall listen,
             count is_ready (serve listen) = 0
             /\ count is_panic (serve listen) = 0)
    by (intros [e|]; split; reflexivity).
  destruct panics.
  - destruct H as (before & He & Hr & Hp).
    exists (before ++ [Panic]). split; [exact He|].
    split; [exists before; auto|].
    intros listen tr Hi. destruct (Hsrv listen) as (S1 & S2).
    rewrite !(count_interleaved _ _ _ _ Hi), S1, S2, !count_app, Hr, Hp.
    split; reflexivity.
  - destruct H as (before & after & He & Hr & Hr' & Hp & Hp' & Hrest).
    exists (before ++ [SendReady] ++ after). split; [exact He|].
    split; [exists before, after; auto 10|].
    intros listen tr Hi. destruct (Hsrv listen) as (S1 & S2).
    rewrite !(count_interleaved _ _ _ _ Hi), S1, S2, !count_app,
      Hr, Hr', Hp, Hp'.
    split; reflexivity.
Qed.

(** X7.  A build that fails does nothing for the viewer: it does not
    start the server, does not open the browser, writes no reload
    message, and leaves [served] and [ProgWebSocket] as they were. *)
Theorem failed_build_never_notifies :
  forall (engine : TemplateEngine) (w : IntSize) (room : string -> Z -> bool)
         (opts : Options) (OpenBrowserCommand inputdir : string)
         (env : BuildEnv) (html : string) (wd : World),
    build_fails w room opts inputdir env html wd = true ->
    let wd' := build w room opts OpenBrowserCommand inputdir env html wd in
    served wd' = served wd /\ ProgWebSocket wd' = ProgWebSocket wd
    /\ exists es,
        effects wd' = effects wd ++ es
        /\ count is_serve es = 0 /\ count is_browser es = 0
        /\ count is_ws_write es = 0.
Proof.
  intros engine w room opts cmd inputdir env html wd Hf wd'. subst wd'.
  destruct (build_notifies w room opts cmd inputdir env html wd)
    as (es & He & Hs & Hb & Hw & Hv & Hp & _).
  rewrite (notifies_cases w room opts inputdir env html wd), Hf in *.
  cbn [negb andb] in *. rewrite orb_false_r in Hv.
  split; [exact Hv|]. split; [exact Hp|].
  exists es. rewrite Hb, Hs. auto.
Qed.

(** X8.  Over any sequence of builds the HTTP server is started and
    the browser opened exactly once if some build that takes place
    gets to the notification and [served] was not set, and not at all
    otherwise.  A build gets to the notification when it neither fails
    nor panics and the port is not 0, and a build that panics is the
    last to take place.  It is the first such build that starts them:
    the builds before it start nothing and leave [served] unset, this
    one registers the handlers, starts the server, opens the browser
    and sets [served], and no build after it starts them again. *)
Theorem server_started_at_most_once :
  forall (engine : TemplateEngine) (w : IntSize) (room : string -> Z -> bool)
         (opts : Options) (OpenBrowserCommand inputdir : string)
         (runs : list (BuildEnv * string)) (wd : World),
    let wd' := builds w room opts OpenBrowserCommand inputdir runs wd in
    let ran := executed w room opts inputdir runs in
    let notifies := notifies w room opts inputdir in
    (exists es,
        effects wd' = effects wd ++ es
        /\ count is_serve es
           = (if negb (served wd) && existsb notifies ran then 1 else 0)
        /\ count is_browser es = count is_serve es)
    /\ served wd' = served wd || existsb notifies ran
    /\ (forall env html wd0,
           notifies (env, html)
           = negb (build_fails w room opts inputdir env html wd0)
             && negb (build_panics w room opts inputdir env html wd0)
             && (port opts >? 0)%Z
           /\ crashes w room opts inputdir (env, html)
              = build_panics w room opts inputdir env html wd0)
    /\ (forall pre r post,
           ran = pre ++ r :: post ->
           existsb notifies pre = false -> notifies r = true ->
           served wd = false ->
           let before := run_all w room opts OpenBrowserCommand inputdir pre wd in
           let after := build w room opts OpenBrowserCommand inputdir
                          (fst r) (snd r) before in
           served before = false /\ served after = true
           /\ (exists es1,
                  effects before = effects wd ++ es1 /\ count is_serve es1 = 0)
           /\ (exists es2,
                  effects after = effects before ++ es2
                  /\ count is_serve es2 = 1 /\ count is_browser es2 = 1)
           /\ (exists es3,
                  effects wd' = effects after ++ es3
                  /\ count is_serve es3 = 0)).
Proof.
  intros engine w room opts cmd inputdir runs wd wd' ran notifies.
  subst wd'. unfold builds. fold ran.
  destruct (run_all_serve w room opts cmd inputdir ran wd)
    as (es & He & Hs & Hb & Hv).
  split; [exists es; auto|]. split; [exact Hv|].
  split.
  { intros env html wd0. split;
      [apply notifies_cases|apply crashes_cases]. }
  intros pre [env html] post Hran Hpre Hr Hwd. cbn [fst snd].
  set (before := run_all w room opts cmd inputdir pre wd).
  set (after := build w room opts cmd inputdir env html before).
  destruct (run_all_serve w room opts cmd inputdir pre wd)
    as (es1 & He1 & Hs1 & _ & Hv1).
  fold notifies in Hs1, Hv1. fold before in He1, Hv1.
  rewrite Hpre, andb_false_r in Hs1. rewrite Hpre, Hwd in Hv1.
  destruct (build_notifies w room opts cmd inputdir env html before)
    as (es2 & He2 & Hs2 & Hb2 & _ & Hv2 & _).
  fold notifies in Hs2, Hv2. fold after in He2, Hv2.
  rewrite Hr, Hv1 in Hs2. rewrite Hr, orb_true_r in Hv2.
  cbn [negb andb] in Hs2.
  destruct (run_all_serve w room opts cmd inputdir post after)
    as (es3 & He3 & Hs3 & _).
  rewrite Hv2 in Hs3. cbn [negb andb] in Hs3.
  assert (E : run_all w room opts cmd inputdir ran wd
              = run_all w room opts cmd inputdir post after).
  { rewrite Hran. unfold run_all, after, before.
    rewrite fold_left_app. reflexivity. }
  split; [exact Hv1|]. split; [exact Hv2|].
  split; [exists es1; auto|].
  split; [exists es2; rewrite Hb2; auto|].
  exists es3. rewrite E. auto.
Qed.

(** X9.  Whether a build that notifies writes the reload message
    depends on [ProgWebSocket] alone, which only the handshake sets.
    After the [reload] handler has returned because the viewer closed
    the connection, the next such build still writes the message to
    that connection; after a handshake that failed, it writes nothing
    and logs an error instead.  (A build that does not fail gets to
    the notification unless [preprocess] panics.) *)
Theorem reload_written_after_viewer_left :
  forall (engine : TemplateEngine) (w : IntSize) (room : string -> Z -> bool)
         (opts : Options) (OpenBrowserCommand inputdir : string)
         (env : BuildEnv) (html : string) (wd : World)
         (rs : list ReadResult) (e : error),
    served wd = true ->
    build_fails w room opts inputdir env html wd = false ->
    (port opts > 0)%Z ->
    let gone := handshake opts None (rs ++ [ReadClosed e]) wd in
    let refused := handshake opts (Some e) rs wd in
    let panics := build_panics w room opts inputdir env html wd in
    (exists es,
        effects (build w room opts OpenBrowserCommand inputdir env html gone)
        = effects gone ++ es
        /\ count is_ws_write es = (if panics then 0 else 1))
    /\ count is_ws_close (reload opts None (rs ++ [ReadClosed e])) = 1
    /\ (exists es,
        effects (build w room opts OpenBrowserCommand inputdir env html refused)
        = effects refused ++ es
        /\ count is_ws_write es = 0
        /\ (panics = false -> 1 <= count is_error_log es)).
Proof.
  intros engine w room opts cmd inputdir env html wd rs e Hs Hf Hp
    gone refused panics.
  assert (Hport : (port opts >? 0)%Z = true) by (apply Z.gtb_lt; lia).
  assert (HN : notifies w room opts inputdir (env, html) = negb panics).
  { rewrite (notifies_cases w room opts inputdir env html wd), Hf, Hport.
    fold panics. now destruct panics. }
  split; [|split].
  - destruct (build_notifies w room opts cmd inputdir env html gone)
      as (es & He & _ & _ & Hw & _).
    rewrite HN in Hw.
    subst gone. cbn [served ProgWebSocket handshake negb andb] in Hw.
    rewrite Hs in Hw. exists es. split; [exact He|].
    rewrite Hw. now destruct panics.
  - unfold reload, reload_reads.
    rewrite reload_loop_closes by (unfold read_error_limit; lia).
    rewrite existsb_app. cbn [existsb is_closed].
    now rewrite !orb_true_r.
  - destruct (build_notifies w room opts cmd inputdir env html refused)
      as (es & He & _ & _ & Hw & _ & _ & Hl).
    rewrite HN in Hw, Hl.
    subst refused. cbn [served ProgWebSocket handshake negb andb] in Hw, Hl.
    rewrite Hs, andb_false_r in Hw. exists es. split; [exact He|].
    split; [exact Hw|].
    intro Hnp. rewrite Hnp in Hl. apply Hl; auto.
Qed.


(** ** More on the walk *)

Lemma run_walk_app {S : Type} (fn : S -> Visit -> Outcome (error + S))
  (l1 l2 : list Visit) (st : S) :
  run_walk fn st (l1 ++ l2)
  = match run_walk fn st l1 with
    | Panics => Panics
    | Returns (inl e) => Returns (inl e)
    | Returns (inr st') => run_walk fn st' l2
    end.
Proof.
  revert st. induction l1 as [|v l1 IH]; intro st; cbn [app run_walk];
    [reflexivity|].
  destruct (fn st v) as [[e|st1]|]; [reflexivity|apply IH|reflexivity].
Qed.

Lemma run_walk_first_error {S : Type} (fn : S -> Visit -> Outcome (error + S))
  (vs : list Visit) (st : S) (e : error) :
  run_walk fn st vs = Returns (inl e) ->
  exists vs1 v vs2 st',
    vs = vs1 ++ v :: vs2 /\ run_walk fn st vs1 = Returns (inr st')
    /\ fn st' v = Returns (inl e).
Proof.
  revert st. induction vs as [|v vs IH]; intro st; cbn [run_walk];
    [discriminate|].
  destruct (fn st v) as [[e'|st1]|] eqn:E.
  - intros [= <-]. exists [], v, vs, st. repeat split. exact E.
  - intro H. destruct (IH _ H) as (vs1 & u & vs2 & st' & -> & Hr & Hu).
    exists (v :: vs1), u, vs2, st'. cbn [app run_walk]. rewrite E. auto.
  - discriminate.
Qed.

Lemma walkFn_ignores (w : IntSize) (room : string -> Z -> bool)
  (b : Buffers) (v : Visit) :
  matters v = false -> walkFn w room b v = Returns (inr b).
Proof.
  unfold matters, walkFn. destruct (v_err v); [discriminate|].
  destruct (kind_of (v_path v)); [|reflexivity].
  destruct (v_open v); (discriminate || reflexivity).
Qed.

(** X11.  When the walk of [preprocess] fails, the error is that of
    the first visit, in the order of the walk, at which the walk
    function fails; the visits before it went well, what comes after
    it is never read, and [preprocess] writes nothing, whatever the
    template and the port. *)
Theorem walk_stops_at_first_error :
  forall (w : IntSize) (room : string -> Z -> bool) (tree : FsNode)
         (indir : string) (e : error),
    collect w room tree indir = Returns (inl e) ->
    exists vs1 v vs2 b,
      Walk indir tree = vs1 ++ v :: vs2
      /\ run_walk (walkFn w room) {| js := script_open; css := style_open |} vs1
         = Returns (inr b)
      /\ walkFn w room b v = Returns (inl e)
      /\ (forall others,
             run_walk (walkFn w room) {| js := script_open; css := style_open |}
               (vs1 ++ v :: others) = Returns (inl e))
      /\ (forall (engine : TemplateEngine) html reloadPort,
             exists e',
               preprocess w room tree indir html reloadPort
               = Returns (EmptyString, Some e')).
Proof.
  intros w room tree indir e H. unfold collect in H.
  destruct (run_walk_first_error _ _ _ _ H) as (vs1 & v & vs2 & b & E & Hr & Hv).
  exists vs1, v, vs2, b. split; [exact E|]. split; [exact Hr|].
  split; [exact Hv|]. split.
  - intro others. rewrite run_walk_app, Hr. cbn [run_walk]. now rewrite Hv.
  - intros engine html reloadPort. unfold preprocess, collect. rewrite H.
    destruct (Parse "html" html) as [t|e']; eexists; reflexivity.
Qed.

(** X12.  The result of the walk depends only on the visits that carry
    an error and on the files of a content kind that have not
    disappeared: every other object (a file or a directory of another
    name, readable or not, of any size) can be left out of the walk
    without changing the buffers or the error. *)
Theorem other_files_do_not_matter :
  forall (w : IntSize) (room : string -> Z -> bool) (vs : list Visit)
         (b : Buffers),
    run_walk (walkFn w room) b vs
    = run_walk (walkFn w room) b (filter matters vs)
    /\ gather KCss vs = gather KCss (filter matters vs)
    /\ gather KJs vs = gather KJs (filter matters vs).
Proof.
  intros w room vs b. split; [|split].
  - revert b. induction vs as [|v vs IH]; intro b; cbn [filter run_walk];
      [reflexivity|].
    destruct (matters v) eqn:M; cbn [run_walk].
    + destruct (walkFn w room b v) as [[e|b1]|];
        [reflexivity|apply IH|reflexivity].
    + rewrite (walkFn_ignores w room b v M). apply IH.
  - unfold gather. induction vs as [|v vs IH]; cbn [filter map concat_all];
      [reflexivity|].
    destruct (matters v) eqn:M; cbn [map concat_all]; rewrite IH;
      [reflexivity|].
    unfold contribution, matters in *.
    destruct (kind_of (v_path v)) as [[]|]; cbn [same_kind];
      try reflexivity.
    destruct (v_err v); [discriminate|].
    destruct (v_open v); (discriminate || reflexivity).
  - unfold gather. induction vs as [|v vs IH]; cbn [filter map concat_all];
      [reflexivity|].
    destruct (matters v) eqn:M; cbn [map concat_all]; rewrite IH;
      [reflexivity|].
    unfold contribution, matters in *.
    destruct (kind_of (v_path v)) as [[]|]; cbn [same_kind];
      try reflexivity.
    destruct (v_err v); [discriminate|].
    destruct (v_open v); (discriminate || reflexivity).
Qed.

Lemma str_lt_irrefl (a : string) : ~ str_lt a a.
Proof. unfold str_lt. now rewrite compare_refl. Qed.

(** Two lists in strict order of names with the same elements are the
    same list. *)
Lemma sorted_unique {A : Type} (l l' : list (string * A)) :
  StronglySorted name_lt l -> StronglySorted name_lt l' ->
  Permutation l l' -> l = l'.
Proof.
  revert l'. induction l as [|x l IH]; intros l' Hs Hs' Hp.
  - apply Permutation_nil in Hp. now subst.
  - destruct l' as [|y l'].
    { apply Permutation_sym, Permutation_nil in Hp. discriminate. }
    apply StronglySorted_inv in Hs as (Hs & Hx).
    apply StronglySorted_inv in Hs' as (Hs' & Hy).
    rewrite Forall_forall in Hx, Hy.
    assert (E : x = y).
    { pose proof (Permutation_in x Hp (or_introl eq_refl)) as [H1|H1];
        [now symmetry|].
      pose proof (Permutation_in y (Permutation_sym Hp) (or_introl eq_refl))
        as [H2|H2]; [exact H2|].
      exfalso. apply (str_lt_irrefl (fst x)).
      eapply str_lt_trans; [apply (Hx y H2)|apply (Hy x H1)]. }
    subst y. f_equal. apply IH; try assumption.
    now apply Permutation_cons_inv in Hp.
Qed.

Lemma sort_entries_order {A : Type} (l l' : list (string * A)) :
  Permutation l l' -> NoDup (map fst l) ->
  sort_entries l = sort_entries l'.
Proof.
  intros Hp Hnd.
  assert (Hnd' : NoDup (map fst l'))
    by (eapply Permutation_NoDup; [apply Permutation_map, Hp|exact Hnd]).
  apply sorted_unique.
  - apply sorted_distinct_strict; [apply sort_entries_sorted|].
    eapply Permutation_NoDup;
      [apply Permutation_map, sort_entries_perm|exact Hnd].
  - apply sorted_distinct_strict; [apply sort_entries_sorted|].
    eapply Permutation_NoDup;
      [apply Permutation_map, sort_entries_perm|exact Hnd'].
  - rewrite <- (sort_entries_perm l), <- (sort_entries_perm l'). exact Hp.
Qed.

(** Listing the entries of the directories in another order gives
    the same sorted tree. *)
Lemma reordered_sorted :
  forall t t', reordered t t' -> distinct_names t ->
               sorted_tree t = sorted_tree t'.
Proof.
  fix IH 3. intros t t' [n|sz op entries shuffled entries' Hperm Hall] Hd.
  - reflexivity.
  - apply distinct_names_entries in Hd as (Hnd & Hch).
    cbn [sorted_tree]. f_equal.
    assert (E : map (fun p => (fst p, sorted_tree (snd p))) shuffled
                = map (fun p => (fst p, sorted_tree (snd p))) entries').
    { assert (Hch' : Forall (fun p => distinct_names (snd p)) shuffled)
        by (apply (Permutation_Forall Hperm); exact Hch).
      clear Hperm Hnd Hch.
      induction Hall as [|p q shuffled entries' Hpq Hall IHall];
        [reflexivity|].
      apply Forall_cons_iff in Hch' as (Hp & Hch').
      destruct Hpq as (Hn & Hr).
      cbn [map]. rewrite (IHall Hch'), Hn, (IH _ _ Hr Hp). reflexivity. }
    rewrite <- E. apply sort_entries_order.
    + apply Permutation_map. exact Hperm.
    + rewrite map_map. exact Hnd.
Qed.

(** X13.  The output does not depend on the order in which the
    operating system lists the entries of the directories: two trees
    that differ only by that order, with distinct names in every
    directory, give the same walk, the same buffers and the same
    result of [preprocess]. *)
Theorem listing_order_does_not_matter :
  forall (w : IntSize) (room : string -> Z -> bool) (t t' : FsNode)
         (indir : string),
    reordered t t' -> distinct_names t ->
    Walk indir t = Walk indir t'
    /\ collect w room t indir = collect w room t' indir
    /\ (forall (engine : TemplateEngine) html reloadPort,
           preprocess w room t indir html reloadPort
           = preprocess w room t' indir html reloadPort).
Proof.
  intros w room t t' indir Hr Hd.
  assert (E : Walk indir t = Walk indir t')
    by (unfold Walk; now rewrite (reordered_sorted t t' Hr Hd)).
  split; [exact E|].
  assert (Ec : collect w room t indir = collect w room t' indir)
    by (unfold collect; now rewrite E).
  split; [exact Ec|].
  intros engine html reloadPort. unfold preprocess. now rewrite Ec.
Qed.

(** ** Extensions *)

Lemma lower_byte_facts (c : ascii) :
  Ascii.eqb (lower_byte c) filepath.Separator = Ascii.eqb c filepath.Separator
  /\ Ascii.eqb (lower_byte c) "."%char = Ascii.eqb c "."%char
  /\ lower_byte (lower_byte c) = lower_byte c.
Proof.
  destruct c as [[] [] [] [] [] [] [] []]; vm_compute; repeat split.
Qed.

Lemma ToLower_idempotent (s : string) : ToLower (ToLower s) = ToLower s.
Proof.
  induction s as [|c s IH]; cbn [ToLower]; [reflexivity|].
  rewrite IH. f_equal. apply lower_byte_facts.
Qed.

Lemma ext_scan_lower (p : string) :
  filepath.ext_scan (ToLower p)
  = match filepath.ext_scan p with
    | filepath.Found e => filepath.Found (ToLower e)
    | filepath.Stopped => filepath.Stopped
    | filepath.Open => filepath.Open
    end.
Proof.
  induction p as [|c p IH]; cbn [ToLower filepath.ext_scan]; [reflexivity|].
  rewrite IH. destruct (filepath.ext_scan p); try reflexivity.
  destruct (lower_byte_facts c) as (-> & -> & _).
  destruct (Ascii.eqb c filepath.Separator); [reflexivity|].
  destruct (Ascii.eqb c "."%char); reflexivity.
Qed.

Lemma ext_scan_join (dir name : string) :
  filepath.ext_scan (filepath.Join dir name)
  = match filepath.ext_scan name with
    | filepath.Found e => filepath.Found e
    | _ => filepath.Stopped
    end.
Proof.
  unfold filepath.Join.
  induction dir as [|c dir IH]; cbn [append filepath.ext_scan].
  - destruct (filepath.ext_scan name); reflexivity.
  - rewrite IH. destruct (filepath.ext_scan name); reflexivity.
Qed.

(** X14.  Whether a file is of a content kind depends only on the
    last element of its path and not on the case of its letters; the
    test of the event loop on the name of a changed file and the test
    of [preprocess] on the path of a walked file agree. *)
Theorem extension_tests_agree :
  forall (dir name : string),
    kind_of (filepath.Join dir name) = kind_of name
    /\ kind_of (ToLower name) = kind_of name
    /\ has_content_ext name
       = match kind_of (filepath.Join dir name) with
         | Some _ => true
         | None => false
         end.
Proof.
  intros dir name.
  assert (Ej : kind_of (filepath.Join dir name) = kind_of name).
  { unfold kind_of, filepath.Ext. rewrite ext_scan_join.
    destruct (filepath.ext_scan name); reflexivity. }
  split; [exact Ej|]. split.
  - unfold kind_of, filepath.Ext. rewrite ext_scan_lower.
    destruct (filepath.ext_scan name); try reflexivity.
    now rewrite ToLower_idempotent.
  - rewrite Ej. unfold has_content_ext, kind_of.
    destruct (String.eqb (ToLower (filepath.Ext name)) ".js");
      [reflexivity|].
    destruct (String.eqb (ToLower (filepath.Ext name)) ".css"); reflexivity.
Qed.

(** ** The start of [main] *)

Section StartupFacts.
Variable filepath_Dir : string -> string.
Variable opts : Options.

(** The calls of the branch that opens the output file. *)
Lemma open_output_calls (env : StartEnv) :
  let out := OptOutfile opts in
  let dir := filepath_Dir out in
  let acts := fst (open_output filepath_Dir opts env) in
  (acts = [] \/ acts = [MkdirAll dir] \/ acts = [Create out]
   \/ acts = [MkdirAll dir; Create out])
  /\ (existsb is_create acts = true ->
      dir <> chop out
      /\ (acts = [Create out] /\ dir = "."
          \/ acts = [MkdirAll dir; Create out] /\ mkdir_err env = None))
  /\ (snd (open_output filepath_Dir opts env) = None ->
      existsb is_create acts = true /\ create_err env = None).
Proof.
  cbv zeta. unfold open_output.
  destruct (String.eqb_spec (filepath_Dir (OptOutfile opts))
              (chop (OptOutfile opts))) as [E|E].
  { cbn. split; [now left|]. split; discriminate. }
  destruct (String.eqb_spec (filepath_Dir (OptOutfile opts)) ".") as [D|D];
    cbn [negb fst snd].
  - destruct (create_err env); cbn [fst snd app existsb is_create orb].
    + split; [auto|]. split; [auto|discriminate].
    + split; [auto|]. split; auto.
  - destruct (mkdir_err env); cbn [fst snd].
    + cbn. split; [auto|]. split; discriminate.
    + destruct (create_err env); cbn [fst snd app existsb is_create orb].
      * split; [auto|]. split; [auto|discriminate].
      * split; [auto 6|]. split; auto.
Qed.

End StartupFacts.

(** X15.  [main] changes nothing on the file system unless [-help] is
    off, the input directory is named, exists and is a directory, and
    the template, if one is named, could be loaded.  The output file
    is then created only if its path is not taken for a directory
    path, and after its directory, when one had to be made, was
    made. *)
Theorem startup_checks_before_files :
  forall (filepath_Dir : string -> string) (OptHelp : bool) (opts : Options)
         (env : StartEnv),
    let out := OptOutfile opts in
    let dir := filepath_Dir out in
    let acts := fst (startup filepath_Dir OptHelp opts env) in
    (acts = []
     \/ OptHelp = false /\ arg0 env <> EmptyString
        /\ inputdir_stat env = DirStatOk true
        /\ (has_template opts = true ->
            snd (loadHtml (OptTemplate opts) (template_file env)) = None)
        /\ has_outfile opts = true)
    /\ (existsb is_create acts = true ->
        dir <> chop out
        /\ (acts = [Create out] /\ dir = "."
            \/ acts = [MkdirAll dir; Create out] /\ mkdir_err env = None)).
Proof.
  intros filepath_Dir OptHelp opts env. cbv zeta. unfold startup.
  destruct OptHelp; [cbn; split; [now left|discriminate]|].
  destruct (String.eqb_spec (arg0 env) EmptyString) as [A|A];
    [cbn; split; [now left|discriminate]|].
  destruct (inputdir_stat env) as [|e|[|]];
    try (cbn; split; [now left|discriminate]).
  destruct (has_template opts) eqn:Ht.
  - destruct (loadHtml (OptTemplate opts) (template_file env)) as [h [e|]];
      cbn [fst snd]; [cbn; split; [now left|discriminate]|].
    destruct (has_outfile opts) eqn:Ho;
      [|cbn; split; [now left|discriminate]].
    destruct (open_output_calls filepath_Dir opts env) as (_ & H & _).
    cbv zeta in H.
    destruct (open_output filepath_Dir opts env) as [acts [x|]];
      cbn [fst snd] in *; (split; [right; auto|exact H]).
  - cbn [fst snd].
    destruct (has_outfile opts) eqn:Ho;
      [|cbn; split; [now left|discriminate]].
    destruct (open_output_calls filepath_Dir opts env) as (_ & H & _).
    cbv zeta in H.
    destruct (open_output filepath_Dir opts env) as [acts [x|]];
      cbn [fst snd] in *;
      (split; [right; repeat split; (assumption || discriminate)|exact H]).
Qed.

(** X16.  Without [-devmode] and with an output file named, the file
    is created, and so emptied, before [preprocess] runs.  A run that
    ends well has created the file; a run that has not created it has
    stopped in the checks, rendered nothing and does not end well; and
    when [preprocess] is reached and returns an error or panics, the
    file was created before without an error, so that what it held is
    lost, and the process ends with a fatal line or with the panic. *)
Theorem one_shot_failure_is_fatal :
  forall (engine : TemplateEngine) (w : IntSize) (room : string -> Z -> bool)
         (filepath_Dir : string -> string) (OptHelp : bool) (opts : Options)
         (env : StartEnv) (tree : FsNode),
    has_outfile opts = true ->
    let r := main_once w room filepath_Dir OptHelp opts env tree in
    let acts := fst (fst r) in
    (snd r = ExitOk -> existsb is_create acts = true /\ create_err env = None)
    /\ (existsb is_create acts = false ->
        snd (fst r) = EmptyString /\ snd r <> ExitOk)
    /\ (forall html,
           snd (startup filepath_Dir OptHelp opts env) = inr html ->
           existsb is_create acts = true /\ create_err env = None
           /\ snd (fst r) = written (preprocess w room tree (arg0 env) html 0)
           /\ (forall e,
                  returned (preprocess w room tree (arg0 env) html 0) = Some e ->
                  exists line, snd r = ExitFatal line)
           /\ (preprocess w room tree (arg0 env) html 0 = Panics ->
               snd r = ExitPanic)).
Proof.
  intros engine w room filepath_Dir OptHelp opts env tree Ho r acts.
  assert (Hcreated : forall html,
             snd (startup filepath_Dir OptHelp opts env) = inr html ->
             existsb is_create (fst (startup filepath_Dir OptHelp opts env))
             = true /\ create_err env = None).
  { intros html Hs. unfold startup in *.
    destruct OptHelp; [discriminate|].
    destruct (String.eqb (arg0 env) EmptyString); [discriminate|].
    destruct (inputdir_stat env) as [|e0|[|]]; try discriminate.
    destruct (snd (if has_template opts
                   then loadHtml (OptTemplate opts) (template_file env)
                   else (ProgHtmlTemplate, None))); [discriminate|].
    rewrite Ho in *.
    destruct (open_output_calls filepath_Dir opts env) as (_ & _ & H).
    cbv zeta in H.
    destruct (open_output filepath_Dir opts env) as [acts0 [x|]];
      cbn [fst snd] in *; [discriminate|]. now apply H. }
  subst acts r. unfold main_once.
  destruct (startup filepath_Dir OptHelp opts env) as [acts [x|h]] eqn:Es;
    cbn [fst snd] in *.
  - assert (Hx : x <> ExitOk).
    { unfold startup in Es.
      destruct OptHelp; [injection Es as _ <-; discriminate|].
      destruct (String.eqb (arg0 env) EmptyString);
        [injection Es as _ <-; discriminate|].
      destruct (inputdir_stat env) as [|e0|[|]];
        try (injection Es as _ <-; discriminate).
      destruct (snd (if has_template opts
                     then loadHtml (OptTemplate opts) (template_file env)
                     else (ProgHtmlTemplate, None)));
        [injection Es as _ <-; discriminate|].
      rewrite Ho in Es. unfold open_output in Es.
      destruct (String.eqb (filepath_Dir (OptOutfile opts))
                  (chop (OptOutfile opts)));
        [injection Es as _ <-; discriminate|].
      destruct (snd (if negb (String.eqb (filepath_Dir (OptOutfile opts)) ".")
                     then ([MkdirAll (filepath_Dir (OptOutfile opts))],
                           mkdir_err env)
                     else ([], None)));
        [injection Es as _ <-; discriminate|].
      destruct (create_err env); [injection Es as _ <-; discriminate|].
      discriminate. }
    split; [intro H; now elim Hx|]. split; [auto|]. discriminate.
  - destruct (Hcreated h eq_refl) as (Hc & Hce).
    destruct (preprocess w room tree (arg0 env) h 0) as [[out [e|]]|] eqn:Ep;
      cbn [fst snd].
    + split; [discriminate|]. split; [congruence|].
      intros html [= <-]. rewrite Ep. cbn [written returned].
      repeat split; auto; try discriminate.
      intros e0 _. eexists. reflexivity.
    + split; [auto|]. split; [congruence|].
      intros html [= <-]. rewrite Ep. cbn [written returned].
      repeat split; auto; discriminate.
    + split; [discriminate|]. split; [congruence|].
      intros html [= <-]. rewrite Ep. cbn [written returned].
      repeat split; auto. discriminate.
Qed.

(** ** The further properties on sample inputs *)

(** The removal of [a.css] changes nothing. *)
Lemma quiet_batch_witness :
  let gone := {| Name := "a.css"; IsDir := false; WasRemoved := true |} in
  existsb (relevant None) [gone] = false
  /\ select sample_opts None (start ProgHtmlTemplate)
       (Stim (SourceChanged [gone]))
     = start ProgHtmlTemplate.
Proof.
  cbv zeta. split; [reflexivity|].
  exact (proj1 (quiet_batch_changes_nothing sample_opts None
                  (start ProgHtmlTemplate)
                  [{| Name := "a.css"; IsDir := false; WasRemoved := true |}]
                  (or_intror eq_refl))).
Defined.

(** Without [-template] a template stimulus leaves the default text. *)
Lemma template_kept_witness :
  let opts := {| OptOutfile := EmptyString; OptVerbose := false;
                 OptDevport := 8082; OptTemplate := EmptyString |} in
  has_template opts = false
  /\ html (loop opts None
             [Stim (TemplateChanged sample_template); Stim BuildCompleted]
             (start ProgHtmlTemplate))
     = ProgHtmlTemplate.
Proof.
  cbv zeta. split; [reflexivity|].
  apply (template_text_is_kept
           {| OptOutfile := EmptyString; OptVerbose := false;
              OptDevport := 8082; OptTemplate := EmptyString |} None).
  intros tf _. reflexivity.
Defined.

(** The failed build of a template with an unclosed action notifies
    nobody. *)
Lemma failed_build_silent_witness :
  build_fails (engine := go_template sample_library) W64 sample_room
    sample_opts "src" sample_env "<p>{{.CSS</p>" sample_world = true
  /\ served (build (engine := go_template sample_library) W64 sample_room
               sample_opts "xdg-open" "src" sample_env "<p>{{.CSS</p>"
               sample_world)
     = served sample_world.
Proof.
  split; [reflexivity|].
  exact (proj1 (failed_build_never_notifies (go_template sample_library) W64
                  sample_room sample_opts "xdg-open" "src" sample_env
                  "<p>{{.CSS</p>" sample_world eq_refl)).
Defined.

(** A build after the viewer has closed the connection. *)
Lemma viewer_left_witness :
  served sample_world = true
  /\ build_fails (engine := go_template sample_library) W64 sample_room
       sample_opts "src" sample_env "<p>{{.CSS}}</p>" sample_world = false
  /\ build_panics (engine := go_template sample_library) W64 sample_room
       sample_opts "src" sample_env "<p>{{.CSS}}</p>" sample_world = false
  /\ (port sample_opts > 0)%Z
  /\ count is_ws_close
       (reload sample_opts None ([] ++ [ReadClosed (Err "going away")])) = 1.
Proof.
  assert (Hp : (port sample_opts > 0)%Z) by reflexivity.
  split; [reflexivity|]. split; [reflexivity|]. split; [reflexivity|].
  split; [exact Hp|].
  exact (proj1 (proj2 (reload_written_after_viewer_left
                         (go_template sample_library) W64 sample_room
                         sample_opts "xdg-open" "src" sample_env
                         "<p>{{.CSS}}</p>" sample_world []
                         (Err "going away") eq_refl eq_refl Hp))).
Defined.

(** A [.js] file that cannot be opened stops the walk. *)
Lemma first_error_witness :
  let tree := Dir 4096 (Opened EmptyString)
                [("a.css", File 15 (Opened "body{color:red}"));
                 ("b.js", File 14 (OpenFailed (Err "permission denied")));
                 ("c.js", File 1 (Opened "x"))] in
  collect W64 sample_room tree "src" = Returns (inl (Err "permission denied"))
  /\ exists vs1 v vs2 b,
      Walk "src" tree = vs1 ++ v :: vs2
      /\ run_walk (walkFn W64 sample_room)
           {| js := script_open; css := style_open |} vs1
         = Returns (inr b)
      /\ walkFn W64 sample_room b v = Returns (inl (Err "permission denied")).
Proof.
  cbv zeta. split; [reflexivity|].
  destruct (walk_stops_at_first_error W64 sample_room
              (Dir 4096 (Opened EmptyString)
                 [("a.css", File 15 (Opened "body{color:red}"));
                  ("b.js", File 14 (OpenFailed (Err "permission denied")));
                  ("c.js", File 1 (Opened "x"))])
              "src" (Err "permission denied") eq_refl)
    as (vs1 & v & vs2 & b & H1 & H2 & H3 & _).
  exists vs1, v, vs2, b. auto.
Defined.

(** The sample tree with its two entries listed the other way. *)
Lemma listing_order_witness :
  let swapped := Dir 4096 (Opened EmptyString)
                   [("a.css", File 15 (Opened "body{color:red}"));
                    ("b.js", File 14 (Opened "console.log(1)"))] in
  reordered sample_tree swapped /\ distinct_names sample_tree
  /\ Walk "src" sample_tree = Walk "src" swapped.
Proof.
  cbv zeta.
  assert (Hr : reordered sample_tree
                 (Dir 4096 (Opened EmptyString)
                    [("a.css", File 15 (Opened "body{color:red}"));
                     ("b.js", File 14 (Opened "console.log(1)"))])).
  { unfold sample_tree. eapply reordered_dir; [apply perm_swap|].
    repeat constructor. }
  assert (Hd : distinct_names sample_tree).
  { cbn. split; [|tauto].
    repeat constructor; cbn; intuition discriminate. }
  split; [exact Hr|]. split; [exact Hd|].
  exact (proj1 (listing_order_does_not_matter W64 sample_room _ _ "src" Hr Hd)).
Defined.

(** A one-shot run with a template that does not parse: the output
    file is created, nothing is rendered, and the run is fatal. *)
Lemma one_shot_witness :
  let env := {| arg0 := "src"; inputdir_stat := DirStatOk true;
                template_file := {| tf_stat := StatOk;
                                    tf_read := inr "<p>{{.CSS</p>" |};
                mkdir_err := None; create_err := None |} in
  let dir := fun _ : string => "." in
  let r := main_once (engine := go_template sample_library) W64 sample_room
             dir false sample_opts env sample_tree in
  has_outfile sample_opts = true
  /\ snd (startup dir false sample_opts env) = inr "<p>{{.CSS</p>"
  /\ fst (fst r) = [Create "out.html"]
  /\ snd (fst r) = EmptyString
  /\ exists line, snd r = ExitFatal line.
Proof.
  cbv zeta. split; [reflexivity|]. split; [reflexivity|].
  split; [reflexivity|].
  destruct (proj2 (proj2 (one_shot_failure_is_fatal
                            (go_template sample_library) W64 sample_room
                            (fun _ : string => ".") false sample_opts
                            {| arg0 := "src"; inputdir_stat := DirStatOk true;
                               template_file :=
                                 {| tf_stat := StatOk;
                                    tf_read := inr "<p>{{.CSS</p>" |};
                               mkdir_err := None; create_err := None |}
                            sample_tree eq_refl))
              "<p>{{.CSS</p>" eq_refl) as (_ & _ & Hw & Hf & _).
  split; [exact Hw|].
  exact (Hf (Err "template: html:1: bad character U+003C '<'") eq_refl).
Defined.

(** A build that meets a [.js] file of [MaxInt - 1] bytes: it panics
    and sends nothing on [ready]. *)
Lemma panicking_build_witness :
  let env := {| truncate_err := None; seek_err := None; sync_err := None;
                source_tree :=
                  Dir 4096 (Opened EmptyString)
                    [("big.js", File 9223372036854775806 (Opened "x"))];
                browser_err := None; ws_write_err := None |} in
  build_panics (engine := go_template sample_library) W64 sample_room
    sample_opts "src" env ProgHtmlTemplate sample_world = true
  /\ exists es,
      effects (build (engine := go_template sample_library) W64 sample_room
                 sample_opts "xdg-open" "src" env ProgHtmlTemplate sample_world)
      = effects sample_world ++ es
      /\ count is_ready es = 0 /\ count is_panic es = 1.
Proof.
  cbv zeta.
  set (env := {| truncate_err := None; seek_err := None; sync_err := None;
                 source_tree :=
                   Dir 4096 (Opened EmptyString)
                     [("big.js", File 9223372036854775806 (Opened "x"))];
                 browser_err := None; ws_write_err := None |}).
  assert (Hp : build_panics (engine := go_template sample_library) W64
                 sample_room sample_opts "src" env ProgHtmlTemplate sample_world
               = true) by (vm_compute; reflexivity).
  split; [exact Hp|].
  pose proof (build_signals_ready_once (go_template sample_library) W64
                sample_room sample_opts "xdg-open" "src" env ProgHtmlTemplate
                sample_world) as H.
  cbv zeta in H. rewrite Hp in H.
  destruct H as (es & He & (before & Hes & Hr & Hpn) & _).
  exists es. split; [exact He|].
  rewrite Hes, !count_app, Hr, Hpn. split; reflexivity.
Defined.

(** Three builds from a fresh start: the first fails, the second
    starts the server, the third does not start it again. *)
Lemma server_start_witness :
  let fresh := {| outfile := {| f_data := EmptyString; f_off := 0 |};
                  served := false; ProgWebSocket := false; effects := [] |} in
  let runs := [(sample_env, "<p>{{.CSS</p>"); (sample_env, "<p>{{.CSS}}</p>");
               (sample_env, "<p>{{.CSS}}</p>")] in
  existsb (notifies (engine := go_template sample_library) W64 sample_room
             sample_opts "src")
    (executed (engine := go_template sample_library) W64 sample_room
       sample_opts "src" runs) = true
  /\ exists es,
      effects (builds (engine := go_template sample_library) W64 sample_room
                 sample_opts "xdg-open" "src" runs fresh)
      = effects fresh ++ es
      /\ count is_serve es = 1 /\ count is_browser es = 1.
Proof.
  cbv zeta.
  set (runs := [(sample_env, "<p>{{.CSS</p>"); (sample_env, "<p>{{.CSS}}</p>");
                (sample_env, "<p>{{.CSS}}</p>")]).
  set (fresh := {| outfile := {| f_data := EmptyString; f_off := 0 |};
                   served := false; ProgWebSocket := false; effects := [] |}).
  assert (Hn : existsb (notifies (engine := go_template sample_library) W64
                          sample_room sample_opts "src")
                 (executed (engine := go_template sample_library) W64
                    sample_room sample_opts "src" runs) = true)
    by (vm_compute; reflexivity).
  split; [exact Hn|].
  pose proof (server_started_at_most_once (go_template sample_library) W64
                sample_room sample_opts "xdg-open" "src" runs fresh) as H.
  cbv zeta in H. rewrite Hn in H.
  destruct H as ((es & He & Hs & Hb) & _).
  exists es. split; [exact He|]. rewrite Hb, Hs. split; reflexivity.
Defined.

